(** * mdparser: the extraction engine, embedded in Rocq

    A shallow embedding of [mdparser/extractors.py] (heading extraction,
    emphasis extraction, pattern search), of the formatters of
    [mdparser/utils.py] and of the heading request of [mdparser/cli.py],
    followed by the properties the specification states about them and by
    further properties read off the code.

    Conventions of the embedding.
    - Python [str] is [string]; the characters are taken to be ASCII, so
      [str.lower], [str.strip] and [\s] act on the ASCII letters and the
      ASCII white space only.
    - Python [int] is [Z]; list indices and [len] are converted explicitly.
    - [None] is [None]; Python truthiness is written out ([truthy_str],
      [truthy_int], a non-empty list).
    - The calls to [verbose_msg] only write to stderr and are left out.
    - Mistletoe's parser and Python's [re] and [json] modules are
      collaborators of the program: the token tree is an input, the regex
      engine and the JSON serialiser are section variables. *)

From Stdlib Require Import List String Ascii ZArith Bool Lia Arith.
From Stdlib Require Import DecimalString.
From Stdlib Require Import Sorting.Sorted.
From Equations Require Import Equations.
Import ListNotations.

Local Open Scope string_scope.
Local Open Scope Z_scope.

(* ================================================================== *)
(** * Python strings *)
(* ================================================================== *)

Module PyStr.

(** [str.isspace] on one ASCII character: TAB, LF, VT, FF, CR, the four
    separators FS GS RS US, and SPACE. *)
Definition is_space (c : ascii) : bool :=
  let n := nat_of_ascii c in
  ((9 <=? n)%nat && (n <=? 13)%nat) || ((28 <=? n)%nat && (n <=? 32)%nat).

(** [c.lower()] on one ASCII character. *)
Definition lower_char (c : ascii) : ascii :=
  let n := nat_of_ascii c in
  if ((65 <=? n)%nat && (n <=? 90)%nat)%bool then ascii_of_nat (n + 32) else c.

(** [s.lower()] *)
Fixpoint lower (s : string) : string :=
  match s with
  | EmptyString => EmptyString
  | String c s' => String (lower_char c) (lower s')
  end.

(** [s.lstrip()] and [s.lstrip(chars)] for a character class [p]. *)
Fixpoint lstrip_by (p : ascii -> bool) (s : string) : string :=
  match s with
  | EmptyString => EmptyString
  | String c s' => if p c then lstrip_by p s' else s
  end.

(** [s.rstrip()] for a character class [p]: the characters are dropped from
    the right end for as long as they are in the class. *)
Fixpoint rstrip_by (p : ascii -> bool) (s : string) : string :=
  match s with
  | EmptyString => EmptyString
  | String c s' =>
      match rstrip_by p s' with
      | EmptyString => if p c then EmptyString else String c EmptyString
      | r => String c r
      end
  end.

(** [s.strip()] *)
Definition strip (s : string) : string :=
  rstrip_by is_space (lstrip_by is_space s).

Definition is_hash (c : ascii) : bool := Ascii.eqb c "#"%char.
Definition is_newline (c : ascii) : bool := Ascii.eqb c "010"%char.

(** The one-character string holding a line feed. *)
Definition nl : string := String "010"%char EmptyString.

(** [s.startswith(p)] *)
Fixpoint startswith (p s : string) : bool :=
  match p, s with
  | EmptyString, _ => true
  | String a p', String b s' => Ascii.eqb a b && startswith p' s'
  | String _ _, EmptyString => false
  end.

(** [needle in hay] *)
Fixpoint contains (needle hay : string) : bool :=
  startswith needle hay ||
  match hay with
  | EmptyString => false
  | String _ hay' => contains needle hay'
  end.

(** [len(s)] *)
Definition len (s : string) : Z := Z.of_nat (String.length s).

(** [c * n] for a one-character string: the empty string when [n <= 0]. *)
Fixpoint repeat_char (c : ascii) (n : nat) : string :=
  match n with
  | O => EmptyString
  | S n' => String c (repeat_char c n')
  end.

Definition times (c : ascii) (n : Z) : string := repeat_char c (Z.to_nat n).

(** [sep.join(parts)] *)
Definition join (sep : string) (parts : list string) : string :=
  String.concat sep parts.

(** [s.split("\n")]: never empty, the empty string gives one empty piece.
    The accumulator [cur] holds the piece being read. *)
Fixpoint split_nl_aux (s : string) (cur : string) : list string :=
  match s with
  | EmptyString => [cur]
  | String c s' =>
      if is_newline c then cur :: split_nl_aux s' EmptyString
      else split_nl_aux s' (cur ++ String c EmptyString)
  end.

Definition split_nl (s : string) : list string := split_nl_aux s EmptyString.

(** [s[:n]] for a string and [n >= 0]. *)
Fixpoint take (n : nat) (s : string) : string :=
  match n, s with
  | O, _ => EmptyString
  | _, EmptyString => EmptyString
  | S n', String c s' => String c (take n' s')
  end.

(** A non-empty string is true. *)
Definition truthy (s : string) : bool :=
  match s with EmptyString => false | _ => true end.

End PyStr.

(** [xs[a:b]] on a list with Python's treatment of the bounds: a negative
    bound counts from the end, and both are clamped to [0, len]. *)
Definition py_index_clamp (n : Z) (i : Z) : Z :=
  if i <? 0 then Z.max 0 (n + i) else Z.min n i.

Definition py_slice {A : Type} (xs : list A) (a b : Z) : list A :=
  let n := Z.of_nat (List.length xs) in
  let a' := py_index_clamp n a in
  let b' := py_index_clamp n b in
  firstn (Z.to_nat (b' - a')) (skipn (Z.to_nat a') xs).

(** Truthiness of an [Optional[str]] and of an [Optional[int]]. *)
Definition truthy_str (o : option string) : bool :=
  match o with Some s => PyStr.truthy s | None => false end.

Definition truthy_int (o : option Z) : bool :=
  match o with Some n => negb (n =? 0) | None => false end.

(* ================================================================== *)
(** * Exceptions *)
(* ================================================================== *)

(** The exceptions that leave the modelled functions. [ValueError] carries
    its message. *)
Inductive PyError : Type :=
| TypeError
| ValueError (msg : string).

(** A call either returns a value or raises. *)
Inductive result (A : Type) : Type :=
| Ok (a : A)
| Raise (e : PyError).

Arguments Ok {A} a.
Arguments Raise {A} e.

Definition bind {A B : Type} (r : result A) (k : A -> result B) : result B :=
  match r with
  | Ok a => k a
  | Raise e => Raise e
  end.

Notation "x <- r ;; k" := (bind r (fun x => k))
  (at level 61, r at next level, right associativity).

(* ================================================================== *)
(** * The document tree *)
(* ================================================================== *)

(** A Mistletoe token, as far as the extractors look at it: its class (the
    four classes that [isinstance] tests, and any other class), the
    [level] of a heading, its [content] attribute and its [children].

    - [Heading] always has [children], and always has a [content]
      attribute, which the extractors read only when a heading is the
      child of a heading.
    - [Paragraph], [Strong] and [Emphasis] have [children] and no
      [content].
    - [Other] is any other token: [content = None] is a token without a
      [content] attribute, [children = None] one whose [children] is
      missing or [None]. Raw text is [Other (Some s) None]. *)
#[warnings="-register-all"]
Inductive Token : Type :=
| Heading (level : Z) (content : string) (children : list Token)
| Paragraph (children : list Token)
| Strong (children : list Token)
| Emphasis (children : list Token)
| Other (content : option string) (children : option (list Token)).

(** [Document]: only its [children], the top-level blocks, are read. *)
Record Document : Type := mkDocument { doc_children : list Token }.

Definition RawText (s : string) : Token := Other (Some s) None.

(** [token.children] when [hasattr(token, "children")] and it is not
    [None]. *)
Definition children_of (token : Token) : option (list Token) :=
  match token with
  | Heading _ _ cs | Paragraph cs | Strong cs | Emphasis cs => Some cs
  | Other _ cs => cs
  end.

(** [token.content] when [hasattr(token, "content")]. *)
Definition content_of (token : Token) : option string :=
  match token with
  | Heading _ c _ => Some c
  | Paragraph _ | Strong _ | Emphasis _ => None
  | Other c _ => c
  end.

Definition is_heading (token : Token) : bool :=
  match token with Heading _ _ _ => true | _ => false end.

Definition is_paragraph (token : Token) : bool :=
  match token with Paragraph _ => true | _ => false end.

(** [hasattr(token, "children") and token.children] as a condition. *)
Definition has_children (token : Token) : bool :=
  match children_of token with
  | Some (_ :: _) => true
  | _ => false
  end.

(** A structural induction principle that reaches the children. *)
Section TokenInd.
Variable P : Token -> Prop.
Hypothesis HHeading : forall l c cs, Forall P cs -> P (Heading l c cs).
Hypothesis HParagraph : forall cs, Forall P cs -> P (Paragraph cs).
Hypothesis HStrong : forall cs, Forall P cs -> P (Strong cs).
Hypothesis HEmphasis : forall cs, Forall P cs -> P (Emphasis cs).
Hypothesis HOtherNone : forall c, P (Other c None).
Hypothesis HOtherSome : forall c cs, Forall P cs -> P (Other c (Some cs)).

Fixpoint Token_tree_ind (t : Token) : P t :=
  let fix all (cs : list Token) : Forall P cs :=
    match cs with
    | [] => Forall_nil P
    | c :: cs' => Forall_cons c (Token_tree_ind c) (all cs')
    end in
  match t with
  | Heading l c cs => HHeading l c cs (all cs)
  | Paragraph cs => HParagraph cs (all cs)
  | Strong cs => HStrong cs (all cs)
  | Emphasis cs => HEmphasis cs (all cs)
  | Other c None => HOtherNone c
  | Other c (Some cs) => HOtherSome c cs (all cs)
  end.
End TokenInd.

(* ================================================================== *)
(** * Text of a token *)
(* ================================================================== *)

Section Extractors.

(** [str(token)] of a token that has neither [content] nor [children]:
    the object's printed form, which Mistletoe decides. *)
Variable py_str : Token -> string.

(** [_extract_text_from_token]. A heading takes its text from its children
    and never from [content]; any other token gives its [content] when it
    has one, the concatenation over its [children] when it has those, and
    [str(token)] otherwise. (No token of the tree is a Python [str], so
    that branch is left out.) *)
Fixpoint _extract_text_from_token (token : Token) : string :=
  match token with
  | Heading _ _ cs =>
      match cs with
      | [] => ""
      | _ :: _ => PyStr.join "" (map _extract_text_from_token cs)
      end
  | Paragraph cs | Strong cs | Emphasis cs =>
      PyStr.join "" (map _extract_text_from_token cs)
  | Other (Some c) _ => c
  | Other None (Some cs) => PyStr.join "" (map _extract_text_from_token cs)
  | Other None None => py_str token
  end.

(** A loop that calls [f] on each element and stops at the first call that
    raises. *)
Fixpoint each_or_raise {A B : Type} (f : A -> result B) (l : list A)
    : result (list B) :=
  match l with
  | [] => Ok []
  | x :: l' =>
      y <- f x ;;
      ys <- each_or_raise f l' ;;
      Ok (y :: ys)
  end.

(** [_extract_text_from_token] with the exception it can raise. Mistletoe
    gives every token the attribute [children], which is [None] for a token
    that has none. A token without [content] whose [children] is [None] (a
    thematic break, say) therefore passes [hasattr(token, "children")] and
    reaches the loop [for child in token.children], which raises
    [TypeError]; the exception leaves every enclosing call.

    Whenever the call returns, its value is the one
    [_extract_text_from_token] gives. The text of a heading and of an
    emphasis node, whose descendants are span tokens with [content] or with
    a list of [children], is read through [_extract_text_from_token]; the
    content after a heading is read from arbitrary blocks, through this
    function. *)
Fixpoint extract_text_or_raise (token : Token) : result string :=
  match token with
  | Heading _ _ cs =>
      match cs with
      | [] => Ok ""
      | _ :: _ =>
          parts <- each_or_raise extract_text_or_raise cs ;;
          Ok (PyStr.join "" parts)
      end
  | Paragraph cs | Strong cs | Emphasis cs =>
      parts <- each_or_raise extract_text_or_raise cs ;;
      Ok (PyStr.join "" parts)
  | Other (Some c) _ => Ok c
  | Other None (Some cs) =>
      parts <- each_or_raise extract_text_or_raise cs ;;
      Ok (PyStr.join "" parts)
  | Other None None => Raise TypeError
  end.

(* ================================================================== *)
(** * Heading extractor *)
(* ================================================================== *)

(** One entry of the list [extract_headings] returns. The key ["content"]
    is present only when content was attached. *)
Record HeadingRecord : Type := mkHeadingRecord {
  hr_level : Z;
  hr_text : string;
  hr_raw : string;
  hr_content : option string
}.

(** The head of the look-ahead loop of [_get_content_after_heading] for one
    token: whether the loop breaks, and the cached [heading_level]. The
    level of the original heading is looked up on the first heading met;
    when [children[heading_index]] is not a heading it stays [None] and the
    comparison [token.level <= None] raises [TypeError]. *)
Definition heading_boundary (children : list Token) (heading_index : nat)
    (token : Token) (heading_level : option Z) : result (bool * option Z) :=
  match token with
  | Heading lvl _ _ =>
      let heading_level' :=
        match heading_level with
        | None =>
            match nth_error children heading_index with
            | Some (Heading l _ _) => Some l
            | _ => None
            end
        | Some _ => heading_level
        end in
      match heading_level' with
      | Some hl => Ok (lvl <=? hl, heading_level')
      | None => Raise TypeError
      end
  | _ => Ok (false, heading_level)
  end.

(** The rest of the loop body: a paragraph, or any token with a non-empty
    [children], contributes its stripped text when that is not empty. The
    call of [_extract_text_from_token] is made on a block of any kind and
    can raise. *)
Definition collect_text (token : Token) (content_parts : list string)
    : result (list string) :=
  if is_paragraph token || has_children token then
    extracted <- extract_text_or_raise token ;;
    let text := PyStr.strip extracted in
    if PyStr.truthy text then Ok (content_parts ++ [text])%list
    else Ok content_parts
  else Ok content_parts.

(** The loop [for i in range(heading_index + 1, len(children))], over the
    tokens [children[heading_index + 1:]] that remain. *)
Fixpoint scan_after (children : list Token) (heading_index : nat)
    (rest : list Token) (heading_level : option Z)
    (content_parts : list string) : result (list string) :=
  match rest with
  | [] => Ok content_parts
  | token :: rest' =>
      b <- heading_boundary children heading_index token heading_level ;;
      if fst b then Ok content_parts
      else
        content_parts' <- collect_text token content_parts ;;
        scan_after children heading_index rest' (snd b) content_parts'
  end.

(** [n is not None and n > 0], giving the number. *)
Definition positive (o : option Z) : option Z :=
  match o with
  | Some n => if 0 <? n then Some n else None
  | None => None
  end.

(** The limits applied to the joined content: the first [lines] lines when
    [lines] is given and positive, else the first [chars] characters when
    [chars] is given and positive, else [None]. *)
Definition apply_limits (full_content : string) (lines chars : option Z)
    : option string :=
  match positive lines with
  | Some n =>
      Some (PyStr.join PyStr.nl
              (firstn (Z.to_nat n) (PyStr.split_nl full_content)))
  | None =>
      match positive chars with
      | Some c => Some (PyStr.take (Z.to_nat c) full_content)
      | None => None
      end
  end.

(** [_get_content_after_heading] *)
Definition _get_content_after_heading (children : list Token)
    (heading_index : nat) (lines chars : option Z) : result (option string) :=
  match lines, chars with
  | None, None => Ok None
  | _, _ =>
      content_parts <-
        scan_after children heading_index
          (skipn (S heading_index) children) None [] ;;
      match content_parts with
      | [] => Ok None
      | _ :: _ =>
          Ok (apply_limits (PyStr.join PyStr.nl content_parts) lines chars)
      end
  end.

(** The text of a heading as [extract_headings] computes it: a child with a
    [content] attribute gives that, any other child its extracted text;
    the pieces are concatenated and stripped. *)
Definition heading_text_of (cs : list Token) : string :=
  PyStr.strip
    (PyStr.join ""
       (map (fun child =>
               match content_of child with
               | Some c => c
               | None => _extract_text_from_token child
               end) cs)).

(** The body of the loop of [extract_headings] for the token at index [i]:
    the record to append, if any. *)
Definition heading_entry (children : list Token) (max_level : Z)
    (include_content_for_level include_content_lines
       include_content_chars : option Z)
    (i : nat) (token : Token) : result (option HeadingRecord) :=
  match token with
  | Heading lvl _ cs =>
      if lvl <=? max_level then
        let heading_text := heading_text_of cs in
        let raw_heading := PyStr.times "#" lvl ++ " " ++ heading_text in
        if truthy_int include_content_for_level
           && (match include_content_for_level with
               | Some k => lvl =? k
               | None => false
               end)
        then
          content <- _get_content_after_heading children i
                       include_content_lines include_content_chars ;;
          if truthy_str content then
            match content with
            | Some c =>
                Ok (Some (mkHeadingRecord lvl heading_text
                            (raw_heading ++ PyStr.nl ++ c) (Some c)))
            | None => Ok (Some (mkHeadingRecord lvl heading_text raw_heading None))
            end
          else Ok (Some (mkHeadingRecord lvl heading_text raw_heading None))
        else Ok (Some (mkHeadingRecord lvl heading_text raw_heading None))
      else Ok None
  | _ => Ok None
  end.

(** [for i, token in enumerate(children)], from index [i] on. *)
Fixpoint headings_loop (children : list Token) (max_level : Z)
    (icl lines chars : option Z) (i : nat) (rest : list Token)
    (headings : list HeadingRecord) : result (list HeadingRecord) :=
  match rest with
  | [] => Ok headings
  | token :: rest' =>
      e <- heading_entry children max_level icl lines chars i token ;;
      headings_loop children max_level icl lines chars (S i) rest'
        (match e with Some r => headings ++ [r] | None => headings end)
  end.

(** [extract_headings] *)
Definition extract_headings (document : Document) (max_level : Z)
    (include_content_for_level include_content_lines
       include_content_chars : option Z) : result (list HeadingRecord) :=
  let children := doc_children document in
  headings_loop children max_level include_content_for_level
    include_content_lines include_content_chars 0%nat children [].

(* ================================================================== *)
(** * Emphasis extractor *)
(* ================================================================== *)

(** [_walk_tokens]: the tokens of a tree in depth-first pre-order. *)
Fixpoint _walk_tokens (token : Token) : list Token :=
  token ::
  match token with
  | Heading _ _ cs | Paragraph cs | Strong cs | Emphasis cs
  | Other _ (Some cs) => flat_map _walk_tokens cs
  | Other _ None => []
  end.

(** An entry of [heading_stack]. The list is kept as Python keeps it: the
    bottom of the stack first, the top ([heading_stack[-1]]) last. *)
Record HeadingInfo : Type := mkHeadingInfo {
  hi_level : Z;
  hi_text : string
}.

(** An entry of [emphasized_items]. *)
Record EmphasisRecord : Type := mkEmphasisRecord {
  er_type : string;
  er_text : string;
  er_heading_context : option string
}.

(** The two variables that the closure [_process_token] updates. *)
Record WalkState : Type := mkWalkState {
  heading_stack : list HeadingInfo;
  emphasized_items : list EmphasisRecord
}.

(** [stack[-1]] when the stack is not empty. *)
Fixpoint stack_top (stack : list HeadingInfo) : option HeadingInfo :=
  match stack with
  | [] => None
  | [x] => Some x
  | _ :: stack' => stack_top stack'
  end.

Definition inspect {A : Type} (a : A) : { b : A | a = b } :=
  exist _ a eq_refl.

(** [while heading_stack and heading_stack[-1]["level"] >= level:
       heading_stack.pop()] *)
Equations? pop_closed (lvl : Z) (stack : list HeadingInfo)
  : list HeadingInfo by wf (List.length stack) lt :=
pop_closed lvl stack with inspect (stack_top stack) := {
  | exist _ (Some t) _ =>
      if hi_level t >=? lvl then pop_closed lvl (removelast stack)
      else stack
  | exist _ None _ => stack }.
Proof.
  destruct stack as [|x stack]; [discriminate|].
  clear. revert x. induction stack as [|y stack IH]; intros x.
  - simpl. lia.
  - specialize (IH y). simpl in *. lia.
Qed.

(** The heading step: close the sections that are as deep or deeper, then
    open the new one. *)
Definition enter_heading (token : Token) (stack : list HeadingInfo)
    : list HeadingInfo :=
  match token with
  | Heading lvl _ _ =>
      pop_closed lvl stack
        ++ [mkHeadingInfo lvl (_extract_text_from_token token)]
  | _ => stack
  end.

(** [heading_stack[-1]["text"] if heading_stack else None] *)
Definition current_heading (stack : list HeadingInfo) : option string :=
  option_map hi_text (stack_top stack).

(** The [matches_filter] flag: true when [heading_filter] is [None] or
    empty; otherwise the loop over the stack sets it as soon as the
    lower-cased filter occurs in the lower-cased text of an entry. *)
Definition matches_filter (heading_filter : option string)
    (stack : list HeadingInfo) : bool :=
  match heading_filter with
  | Some f =>
      if PyStr.truthy f then
        existsb (fun heading_info =>
                   PyStr.contains (PyStr.lower f)
                     (PyStr.lower (hi_text heading_info))) stack
      else true
  | None => true
  end.

Definition is_strong (token : Token) : bool :=
  match token with Strong _ => true | _ => false end.

Definition is_emphasis (token : Token) : bool :=
  match token with Emphasis _ => true | _ => false end.

(** [x in options] for strings. *)
Definition str_in (x : string) (options : list string) : bool :=
  existsb (String.eqb x) options.

(** The [if matches_filter: emphasized_items.append(...)] of either branch. *)
Definition emit (kind : string) (heading_filter : option string)
    (token : Token) (stack : list HeadingInfo)
    (items : list EmphasisRecord) : list EmphasisRecord :=
  if matches_filter heading_filter stack then
    items ++ [mkEmphasisRecord kind (_extract_text_from_token token)
                (current_heading stack)]
  else items.

(** The body of [_process_token] before it descends into the children. *)
Definition visit (type : string) (heading_filter : option string)
    (token : Token) (st : WalkState) : WalkState :=
  let stack := enter_heading token (heading_stack st) in
  let items := emphasized_items st in
  mkWalkState stack
    (if is_strong token && str_in type ["all"; "bold"] then
       emit "bold" heading_filter token stack items
     else if is_emphasis token && str_in type ["all"; "italic"] then
       emit "italic" heading_filter token stack items
     else items).

(** [_process_token] *)
Fixpoint _process_token (type : string) (heading_filter : option string)
    (token : Token) (st : WalkState) : WalkState :=
  let st1 := visit type heading_filter token st in
  match token with
  | Heading _ _ cs | Paragraph cs | Strong cs | Emphasis cs
  | Other _ (Some cs) =>
      fold_left (fun s child => _process_token type heading_filter child s)
        cs st1
  | Other _ None => st1
  end.

Definition initial_state : WalkState := mkWalkState [] [].

(** The state after the loop [for token in document.children]. *)
Definition final_state (document : Document) (type : string)
    (heading_filter : option string) : WalkState :=
  fold_left (fun s token => _process_token type heading_filter token s)
    (doc_children document) initial_state.

(** [extract_emphasized] *)
Definition extract_emphasized (document : Document) (type : string)
    (heading_filter : option string) : list EmphasisRecord :=
  emphasized_items (final_state document type heading_filter).

End Extractors.

(* ================================================================== *)
(** * Pattern search *)
(* ================================================================== *)

(** One entry of the list [find_and_extract] returns. *)
Record SearchMatch : Type := mkSearchMatch {
  sm_match : string;
  sm_line_number : Z;
  sm_context : string;
  sm_context_lines : list string
}.

(** [len(s) - len(s.lstrip("#"))]: the length of the leading run of [#]. *)
Definition hash_run (s : string) : Z :=
  PyStr.len s - PyStr.len (PyStr.lstrip_by PyStr.is_hash s).

Fixpoint all_space (s : string) : bool :=
  match s with
  | EmptyString => true
  | String c s' => PyStr.is_space c && all_space s'
  end.

(** The tail [<escaped text>\s*$] of the section pattern, under
    [re.IGNORECASE]: the text letter by letter without regard to case, then
    white space only up to the end. *)
Fixpoint text_then_space (text s : string) : bool :=
  match text, s with
  | EmptyString, _ => all_space s
  | String a text', String b s' =>
      Ascii.eqb (PyStr.lower_char a) (PyStr.lower_char b)
      && text_then_space text' s'
  | String _ _, EmptyString => false
  end.

(** The middle [\s+] once one white-space character has been read: the
    text starts here, or one more white-space character is read. *)
Fixpoint space_then_text (text s : string) : bool :=
  text_then_space text s ||
  match s with
  | String c s' => PyStr.is_space c && space_then_text text s'
  | EmptyString => false
  end.

(** [re.compile(r"^#+\s+" + re.escape(within_section) + r"\s*$",
    re.IGNORECASE).match(line)] as a condition. The escaped text matches
    itself, so this pattern always compiles; [#+] reads the whole leading
    run of [#], since white space must follow it. *)
Definition section_pattern_match (within_section line : string) : bool :=
  match line with
  | String c rest =>
      PyStr.is_hash c &&
      match PyStr.lstrip_by PyStr.is_hash rest with
      | String d rest' => PyStr.is_space d && space_then_text within_section rest'
      | EmptyString => false
      end
  | EmptyString => false
  end.

(** The inner loop [for j in range(i + 1, len(lines))] that looks for the
    end of the section; [rest] is [lines[j:]]. *)
Fixpoint find_section_end (heading_level : Z) (j : nat) (rest : list string)
    : option nat :=
  match rest with
  | [] => None
  | line :: rest' =>
      let next_stripped := PyStr.strip line in
      if PyStr.startswith "#" next_stripped
         && (hash_run next_stripped <=? heading_level)
      then Some j
      else find_section_end heading_level (S j) rest'
  end.

(** The outer loop [for i, line in enumerate(lines)] that looks for the
    section heading; [rest] is [lines[i:]]. It gives [section_start] and
    [section_end]. *)
Fixpoint find_section (within_section : string) (n_lines : nat) (i : nat)
    (rest : list string) : option (nat * nat) :=
  match rest with
  | [] => None
  | line :: rest' =>
      let stripped_line := PyStr.strip line in
      if section_pattern_match within_section stripped_line then
        Some (i,
              match find_section_end (hash_run stripped_line) (S i) rest' with
              | Some j => j
              | None => n_lines
              end)
      else find_section within_section n_lines (S i) rest'
  end.

(** [section_start] and [section_end] after the first part of
    [find_and_extract]: both [None] unless [within_section] is given, not
    empty, and found. *)
Definition section_bounds (within_section : option string)
    (lines : list string) : option nat * option nat :=
  match within_section with
  | Some w =>
      if PyStr.truthy w then
        match find_section w (List.length lines) 0%nat lines with
        | Some (s, e) => (Some s, Some e)
        | None => (None, None)
        end
      else (None, None)
  | None => (None, None)
  end.

(** The test that makes the scan [continue]. *)
Definition outside_section (within_section : option string)
    (section_start section_end : option nat) (i : nat) : bool :=
  truthy_str within_section &&
  match section_start with
  | Some s =>
      (i <? s)%nat ||
      match section_end with
      | Some e => (e <=? i)%nat
      | None => false
      end
  | None => false
  end.

Section Search.

(** Python's [re] module. [re_compile pattern ignorecase] is
    [re.compile(pattern, flags)], which returns a compiled pattern or
    raises [re.error] with a message; [re_search regex line] is
    [regex.search(line)], given by the [group(0)] of the match it finds. *)
Variable Regex : Type.

Inductive compiled : Type :=
| Compiled (regex : Regex)
| ReError (msg : string).

Variable re_compile : string -> bool -> compiled.
Variable re_search : Regex -> string -> option string.

(** The body of the scan for a line that is not skipped. *)
Definition match_line (regex : Regex) (lines : list string)
    (lines_before lines_after : Z) (i : nat) (line : string)
    : option SearchMatch :=
  match re_search regex line with
  | Some _ =>
      let start_idx := Z.max 0 (Z.of_nat i - lines_before) in
      let end_idx :=
        Z.min (Z.of_nat (List.length lines)) (Z.of_nat i + 1 + lines_after) in
      let line_number := Z.of_nat i + 1 in
      let context_lines := py_slice lines start_idx end_idx in
      let context :=
        PyStr.rstrip_by PyStr.is_newline (PyStr.join PyStr.nl context_lines) in
      let matched_text :=
        match re_search regex line with
        | Some m => m
        | None => PyStr.strip line
        end in
      Some (mkSearchMatch matched_text line_number context context_lines)
  | None => None
  end.

(** The scan [for i, line in enumerate(lines)]; [rest] is [lines[i:]]. *)
Fixpoint scan_lines (regex : Regex) (lines : list string)
    (lines_before lines_after : Z) (within_section : option string)
    (section_start section_end : option nat) (i : nat) (rest : list string)
    (matches : list SearchMatch) : list SearchMatch :=
  match rest with
  | [] => matches
  | line :: rest' =>
      scan_lines regex lines lines_before lines_after within_section
        section_start section_end (S i) rest'
        (if outside_section within_section section_start section_end i
         then matches
         else
           match match_line regex lines lines_before lines_after i line with
           | Some m => matches ++ [m]
           | None => matches
           end)
  end.

(** [find_and_extract] *)
Definition find_and_extract (content pattern : string)
    (lines_before lines_after : Z) (case_sensitive : bool)
    (within_section : option string) : result (list SearchMatch) :=
  let lines := PyStr.split_nl content in
  let bounds := section_bounds within_section lines in
  match re_compile pattern (negb case_sensitive) with
  | ReError e =>
      Raise (ValueError
               ("Invalid regex pattern: " ++ pattern ++ ". Error: " ++ e))
  | Compiled regex =>
      Ok (scan_lines regex lines lines_before lines_after within_section
            (fst bounds) (snd bounds) 0%nat lines [])
  end.

End Search.

Arguments Compiled {Regex} regex.
Arguments ReError {Regex} msg.

(** A small engine to run the search on: a pattern is a literal text, and a
    pattern with an opening bracket is refused the way [re] refuses an
    unterminated character set. *)
Module LiteralEngine.

Definition Regex : Type := (bool * string)%type.

Definition compile (pattern : string) (ignorecase : bool) : compiled Regex :=
  if PyStr.contains "[" pattern
  then ReError "unterminated character set at position 0"
  else Compiled (ignorecase, pattern).

Definition same_char (ignorecase : bool) (a b : ascii) : bool :=
  if ignorecase then Ascii.eqb (PyStr.lower_char a) (PyStr.lower_char b)
  else Ascii.eqb a b.

Fixpoint match_here (ignorecase : bool) (p s : string) : bool :=
  match p, s with
  | EmptyString, _ => true
  | String a p', String b s' =>
      same_char ignorecase a b && match_here ignorecase p' s'
  | String _ _, EmptyString => false
  end.

Fixpoint search_from (ignorecase : bool) (p s : string) : option string :=
  if match_here ignorecase p s then Some (PyStr.take (String.length p) s)
  else
    match s with
    | String _ s' => search_from ignorecase p s'
    | EmptyString => None
    end.

Definition search (regex : Regex) (line : string) : option string :=
  search_from (fst regex) (snd regex) line.

End LiteralEngine.

(* ================================================================== *)
(** * JSON output *)
(* ================================================================== *)

(** The values handed to [json.dumps]. A [dict] keeps its keys in the order
    they were inserted. *)
#[warnings="-register-all"]
Inductive Json : Type :=
| JNull
| JBool (b : bool)
| JInt (n : Z)
| JStr (s : string)
| JArr (items : list Json)
| JObj (fields : list (string * Json)).

(** [d[key]] on the fields of a [dict]. *)
Fixpoint json_get (key : string) (fields : list (string * Json))
    : option Json :=
  match fields with
  | [] => None
  | (k, v) :: fields' =>
      if String.eqb k key then Some v else json_get key fields'
  end.

(** The [output] dictionary that [format_json_output] builds. *)
Definition json_output (results : list Json) (operation file_path : string)
    (parameters : Json) : list (string * Json) :=
  [ ("operation", JStr operation);
    ("file", JStr file_path);
    ("parameters", parameters);
    ("results", JArr results);
    ("count", JInt (Z.of_nat (List.length results)));
    ("status", JStr (match results with
                     | _ :: _ => "success"
                     | [] => "no_matches"
                     end)) ].

Section JsonOutput.

(** [json.dumps(value, indent=..., ensure_ascii=...)] *)
Variable json_dumps : Json -> Z -> bool -> string.

(** [format_json_output] *)
Definition format_json_output (results : list Json)
    (operation file_path : string) (parameters : Json) : string :=
  json_dumps (JObj (json_output results operation file_path parameters))
    2 false.

End JsonOutput.

(* ================================================================== *)
(** * Specification-side definitions *)
(* ================================================================== *)

(** The heading stack has strictly increasing levels from bottom to top. *)
Definition levels_increasing (stack : list HeadingInfo) : Prop :=
  StronglySorted Z.lt (map hi_level stack).

(** The kind of record an emphasis node gives: ["bold"] for [Strong],
    ["italic"] for [Emphasis]. *)
Definition kind_of (token : Token) : option string :=
  match token with
  | Strong _ => Some "bold"
  | Emphasis _ => Some "italic"
  | _ => None
  end.

(** The kind filter is ['all'] or names the kind. *)
Definition kind_selected (type kind : string) : Prop :=
  type = "all" \/ type = kind.

(** The filter text occurs, without regard to case, in the text of some
    entry of the stack. *)
Definition occurs_in_stack (f : string) (stack : list HeadingInfo) : Prop :=
  exists entry, In entry stack /\
    PyStr.contains (PyStr.lower f) (PyStr.lower (hi_text entry)) = true.

(** The filter rule in the specification's words: [heading_filter] is
    unset, or its text occurs in some entry of the stack. *)
Definition filter_admits_as_specified (heading_filter : option string)
    (stack : list HeadingInfo) : Prop :=
  match heading_filter with
  | None => True
  | Some f => occurs_in_stack f stack
  end.

(** The filter rule of the code: an empty filter text counts as unset. *)
Definition filter_admits (heading_filter : option string)
    (stack : list HeadingInfo) : Prop :=
  match heading_filter with
  | None => True
  | Some f => f = "" \/ occurs_in_stack f stack
  end.

(** The state of the traversal after the tokens [visited], taken in the
    order [_walk_tokens] gives them. *)
Definition state_after (py_str : Token -> string) (type : string)
    (heading_filter : option string) (visited : list Token) : WalkState :=
  fold_left (fun s token => visit py_str type heading_filter token s)
    visited initial_state.

(** The tokens of a document in the order of the traversal. *)
Definition walk_document (document : Document) : list Token :=
  flat_map _walk_tokens (doc_children document).

(** The headings among the top-level children, in document order, each
    with its level and its text. *)
Definition top_level_headings (py_str : Token -> string)
    (children : list Token) : list (Z * string) :=
  flat_map (fun token =>
              match token with
              | Heading lvl _ cs => [(lvl, heading_text_of py_str cs)]
              | _ => []
              end) children.

(** The bare heading line: [#] repeated [level] times, a space, the text. *)
Definition bare_heading_line (level : Z) (text : string) : string :=
  PyStr.times "#" level ++ " " ++ text.

(** The level and the text of a record. *)
Definition level_and_text (r : HeadingRecord) : Z * string :=
  (hr_level r, hr_text r).

(** A record without attached content has the bare heading line as [raw]. *)
Definition bare_when_no_content (r : HeadingRecord) : Prop :=
  hr_content r = None -> hr_raw r = bare_heading_line (hr_level r) (hr_text r).

(** What one turn of the loop of [extract_headings] appends. *)
Definition entry_for (py_str : Token -> string) (max_level : Z)
    (token : Token) (e : option HeadingRecord) : Prop :=
  match token with
  | Heading lvl _ cs =>
      if lvl <=? max_level then
        exists r, e = Some r /\
          hr_level r = lvl /\
          hr_text r = heading_text_of py_str cs /\
          bare_when_no_content r
      else e = None
  | _ => e = None
  end.

(** [enumerate(lines)], counting from [i]. *)
Definition enumerate {A : Type} (i : nat) (l : list A) : list (nat * A) :=
  combine (seq i (List.length l)) l.

(** The records of a search over every line of the document: one for each
    line the pattern matches, in the order of the lines. *)
Definition whole_document_matches {Regex : Type}
    (re_search : Regex -> string -> option string) (regex : Regex)
    (lines : list string) (lines_before lines_after : Z)
    : list SearchMatch :=
  flat_map (fun p =>
              match match_line Regex re_search regex lines lines_before
                      lines_after (fst p) (snd p) with
              | Some m => [m]
              | None => []
              end) (enumerate 0 lines).

(** The piece one token gives to the content after a heading: its stripped
    text, when the token is a paragraph or has a non-empty [children] and
    the stripped text is not empty. *)
Definition content_piece (py_str : Token -> string) (token : Token)
    : list string :=
  if is_paragraph token || has_children token then
    let text := PyStr.strip (_extract_text_from_token py_str token) in
    if PyStr.truthy text then [text] else []
  else [].

(** The call of [_extract_text_from_token] on the token returns. *)
Definition text_defined (token : Token) : bool :=
  match extract_text_or_raise token with
  | Ok _ => true
  | Raise _ => false
  end.

(** The look-ahead loop can take the token in: it skips it, or its text can
    be extracted. *)
Definition content_readable (token : Token) : bool :=
  if is_paragraph token || has_children token then text_defined token
  else true.

(** The pieces the look-ahead loop of [_get_content_after_heading] collects
    after a heading of level [level]: the stripped, non-empty texts of the
    tokens up to the first heading of level [<= level], the deeper headings
    among them included. *)
Fixpoint collected_parts (py_str : Token -> string) (level : Z)
    (rest : list Token) : list string :=
  match rest with
  | [] => []
  | token :: rest' =>
      match token with
      | Heading lvl _ _ =>
          if lvl <=? level then []
          else (content_piece py_str token
                  ++ collected_parts py_str level rest')%list
      | _ =>
          (content_piece py_str token
             ++ collected_parts py_str level rest')%list
      end
  end.

(** No heading of [rest] is deeper than [level]. *)
Definition no_deeper_heading (level : Z) (rest : list Token) : Prop :=
  Forall (fun token =>
            match token with
            | Heading lvl _ _ => lvl <= level
            | _ => True
            end) rest.

(** The content the specification attaches to the heading that sits just
    before [rest]: the stripped, non-empty texts of the non-heading tokens,
    up to the first heading of level [<= level]. *)
Fixpoint specified_parts (py_str : Token -> string) (level : Z)
    (rest : list Token) : list string :=
  match rest with
  | [] => []
  | Heading lvl _ _ :: rest' =>
      if lvl <=? level then [] else specified_parts py_str level rest'
  | token :: rest' =>
      content_piece py_str token ++ specified_parts py_str level rest'
  end.

(* ================================================================== *)
(** * Sample inputs *)
(* ================================================================== *)

Module Sample.

(** [str(token)] for the samples; no sample token reaches it. *)
Definition py_str (token : Token) : string := "".

(** [# Title], [## Sub], [Bold **word** here.] *)
Definition titled : Document :=
  mkDocument
    [ Heading 1 "" [RawText "Title"];
      Heading 2 "" [RawText "Sub"];
      Paragraph [RawText "Bold "; Strong [RawText "word"]; RawText " here."] ].

(** A bold word before any heading: [**x**]. *)
Definition bold_only : Document :=
  mkDocument [Paragraph [Strong [RawText "x"]]].

(** [# A], [## B], [p] *)
Definition nested : Document :=
  mkDocument
    [ Heading 1 "" [RawText "A"];
      Heading 2 "" [RawText "B"];
      Paragraph [RawText "p"] ].

(** [# A] followed by a quote that holds a thematic break: [> ---]. The
    break has neither [content] nor [children]. *)
Definition quoted_rule : Document :=
  mkDocument
    [ Heading 1 "" [RawText "A"];
      Other None (Some [Other None None]) ].

Definition open_sections : list HeadingInfo :=
  [mkHeadingInfo 1 "Intro"; mkHeadingInfo 2 "Details"].

(** The lines [# A], [x], [## B], [y Term z], [# C]. *)
Definition sectioned : string :=
  PyStr.join PyStr.nl ["# A"; "x"; "## B"; "y Term z"; "# C"].

Definition find :=
  find_and_extract LiteralEngine.Regex LiteralEngine.compile
    LiteralEngine.search.

End Sample.

(* ================================================================== *)
(** * Text and markdown output *)
(* ================================================================== *)

(** The formatters of [utils.py] receive the list an extractor returned.
    An item is one of the three dictionaries the extractors build:
    - a heading: the keys [level], [text], [raw] and, when content was
      attached, [content];
    - an emphasis: the keys [type], [text], [heading_context];
    - a match: the keys [match], [line_number], [context],
      [context_lines]. *)
Inductive Item : Type :=
| HeadingItem (r : HeadingRecord)
| EmphasisItem (r : EmphasisRecord)
| SearchItem (r : SearchMatch).

(** A formatter returns a string or raises [KeyError] for a key that the
    item does not have. *)
Inductive outcome (A : Type) : Type :=
| Returned (a : A)
| KeyError (key : string).

Arguments Returned {A} a.
Arguments KeyError {A} key.

Definition and_then {A B : Type} (o : outcome A) (k : A -> outcome B)
    : outcome B :=
  match o with
  | Returned a => k a
  | KeyError key => KeyError key
  end.

Notation "x <~ o ;; k" := (and_then o (fun x => k))
  (at level 61, o at next level, right associativity).

(** [item["level"]] *)
Definition item_level (item : Item) : outcome Z :=
  match item with
  | HeadingItem r => Returned (hr_level r)
  | _ => KeyError "level"
  end.

(** [item["text"]] *)
Definition item_text (item : Item) : outcome string :=
  match item with
  | HeadingItem r => Returned (hr_text r)
  | EmphasisItem r => Returned (er_text r)
  | SearchItem _ => KeyError "text"
  end.

(** [item["raw"]] *)
Definition item_raw (item : Item) : outcome string :=
  match item with
  | HeadingItem r => Returned (hr_raw r)
  | _ => KeyError "raw"
  end.

(** [item["type"]] *)
Definition item_type (item : Item) : outcome string :=
  match item with
  | EmphasisItem r => Returned (er_type r)
  | _ => KeyError "type"
  end.

(** [item.get("heading_context")]: [None] also when the key is missing. *)
Definition item_get_heading_context (item : Item) : option string :=
  match item with
  | EmphasisItem r => er_heading_context r
  | _ => None
  end.

(** [item["line_number"]] *)
Definition item_line_number (item : Item) : outcome Z :=
  match item with
  | SearchItem r => Returned (sm_line_number r)
  | _ => KeyError "line_number"
  end.

(** [item["match"]] *)
Definition item_match (item : Item) : outcome string :=
  match item with
  | SearchItem r => Returned (sm_match r)
  | _ => KeyError "match"
  end.

(** [item.get("context")] *)
Definition item_get_context (item : Item) : option string :=
  match item with
  | SearchItem r => Some (sm_context r)
  | _ => None
  end.

(** [str(n)] for an [int]. *)
Definition str_of_int (n : Z) : string := NilZero.string_of_int (Z.to_int n).

(** [s * n] for a string: the empty string when [n <= 0]. *)
Fixpoint str_repeat (s : string) (n : nat) : string :=
  match n with
  | O => ""
  | S n' => s ++ str_repeat s n'
  end.

Definition str_times (s : string) (n : Z) : string :=
  str_repeat s (Z.to_nat n).

(** A loop [for item in results:] whose body appends the lines [body item]
    to [lines]. *)
Fixpoint for_each_item (body : Item -> outcome (list string))
    (results : list Item) (lines : list string) : outcome (list string) :=
  match results with
  | [] => Returned lines
  | item :: results' =>
      new_lines <~ body item ;;
      for_each_item body results' (lines ++ new_lines)
  end.

(** The marker of an emphasis: two stars for bold, one otherwise. *)
Definition emphasis_prefix (type : string) : string :=
  if String.eqb type "bold" then "**" else "*".

(** The loop bodies of [format_text_output]. *)
Definition text_heading_line (item : Item) : outcome (list string) :=
  level <~ item_level item ;;
  text <~ item_text item ;;
  Returned [str_times "  " (level - 1) ++ text].

Definition text_emphasis_line (item : Item) : outcome (list string) :=
  type <~ item_type item ;;
  let prefix := emphasis_prefix type in
  let context :=
    if truthy_str (item_get_heading_context item) then
      match item_get_heading_context item with
      | Some h => " (under: " ++ h ++ ")"
      | None => ""
      end
    else "" in
  text <~ item_text item ;;
  Returned [prefix ++ text ++ prefix ++ context].

Definition text_match_lines (item : Item) : outcome (list string) :=
  line_number <~ item_line_number item ;;
  matched <~ item_match item ;;
  let first := "Line " ++ str_of_int line_number ++ ": " ++ matched in
  if truthy_str (item_get_context item) then
    match item_get_context item with
    | Some c => Returned [first; "Context:" ++ PyStr.nl ++ c; ""]
    | None => Returned [first]
    end
  else Returned [first].

(** [format_text_output] *)
Definition format_text_output (results : list Item) (operation : string)
    : outcome string :=
  lines <~
    (if String.eqb operation "extract_headings" then
       for_each_item text_heading_line results []
     else if String.eqb operation "extract_emphasized" then
       for_each_item text_emphasis_line results []
     else if String.eqb operation "find_and_extract" then
       for_each_item text_match_lines results []
     else Returned []) ;;
  Returned (PyStr.join PyStr.nl lines).

(** The loop bodies of [format_markdown_output]. *)
Definition markdown_heading_line (item : Item) : outcome (list string) :=
  raw <~ item_raw item ;;
  Returned [raw].

Definition markdown_emphasis_line (item : Item) : outcome (list string) :=
  type <~ item_type item ;;
  let prefix := emphasis_prefix type in
  let context :=
    if truthy_str (item_get_heading_context item) then
      match item_get_heading_context item with
      | Some h => PyStr.nl ++ "*(under: " ++ h ++ ")*"
      | None => ""
      end
    else "" in
  text <~ item_text item ;;
  Returned [prefix ++ text ++ prefix ++ context].

Definition markdown_match_lines (item : Item) : outcome (list string) :=
  line_number <~ item_line_number item ;;
  matched <~ item_match item ;;
  let first :=
    "**Match on line " ++ str_of_int line_number ++ ":** `" ++ matched ++ "`" in
  if truthy_str (item_get_context item) then
    match item_get_context item with
    | Some c => Returned [first; "```"; c; "```"; ""]
    | None => Returned [first]
    end
  else Returned [first].

(** [format_markdown_output] *)
Definition format_markdown_output (results : list Item) (operation : string)
    : outcome string :=
  lines <~
    (if String.eqb operation "extract_headings" then
       for_each_item markdown_heading_line results []
     else if String.eqb operation "extract_emphasized" then
       for_each_item markdown_emphasis_line results []
     else if String.eqb operation "find_and_extract" then
       for_each_item markdown_match_lines results []
     else Returned []) ;;
  Returned (PyStr.join PyStr.nl lines).

(** The dictionary of an item as a JSON value, its keys in the order the
    extractor inserted them; [None] is [null]. *)
Definition json_of_option (o : option string) : Json :=
  match o with
  | Some s => JStr s
  | None => JNull
  end.

Definition item_json (item : Item) : Json :=
  match item with
  | HeadingItem r =>
      JObj ([ ("level", JInt (hr_level r));
              ("text", JStr (hr_text r));
              ("raw", JStr (hr_raw r)) ]
            ++ match hr_content r with
               | Some c => [("content", JStr c)]
               | None => []
               end)
  | EmphasisItem r =>
      JObj [ ("type", JStr (er_type r));
             ("text", JStr (er_text r));
             ("heading_context", json_of_option (er_heading_context r)) ]
  | SearchItem r =>
      JObj [ ("match", JStr (sm_match r));
             ("line_number", JInt (sm_line_number r));
             ("context", JStr (sm_context r));
             ("context_lines", JArr (map JStr (sm_context_lines r))) ]
  end.

(** [format_output] *)
Definition format_output (json_dumps : Json -> Z -> bool -> string)
    (results : list Item) (operation file_path : string) (parameters : Json)
    (output_format : string) : outcome string :=
  if String.eqb output_format "json" then
    Returned (format_json_output json_dumps (map item_json results)
                operation file_path parameters)
  else if String.eqb output_format "text" then
    format_text_output results operation
  else format_markdown_output results operation.

(* ================================================================== *)
(** * Command line: the heading request *)
(* ================================================================== *)

(** [validate_heading_level] of [cli.py] *)
Definition validate_heading_level (level : Z) : result unit :=
  if negb ((1 <=? level) && (level <=? 6)) then
    Raise (ValueError
             ("Heading level must be between 1 and 6, got " ++ str_of_int level))
  else Ok tt.

Definition is_given (o : option Z) : bool :=
  match o with Some _ => true | None => false end.

(** The statements of the [--headings] branch inside the [try] block of
    [main], from the validation of the level to the call of
    [extract_headings], on the parsed document: the content options are
    passed on, with the level asked for as the level that gets content,
    only when one of them is given. [headings] is [args.headings], which
    argparse has already checked against [choices=range(1, 7)]: [main]
    gets here only with a level from 1 to 6. An exception raised by these
    statements is caught by the handlers of [main], which return the exit
    code 1. *)
Definition main_headings (py_str : Token -> string) (document : Document)
    (headings : Z) (include_content_lines include_content_chars : option Z)
    : result (list HeadingRecord) :=
  _ <- validate_heading_level headings ;;
  if is_given include_content_lines || is_given include_content_chars then
    extract_headings py_str document headings (Some headings)
      include_content_lines include_content_chars
  else
    extract_headings py_str document headings None None None.

(* ================================================================== *)
(** * Further specification-side definitions *)
(* ================================================================== *)

(** The text of the last heading among [visited], if there is one. *)
Definition last_heading_text (py_str : Token -> string)
    (visited : list Token) : option string :=
  fold_left (fun acc token =>
               if is_heading token
               then Some (_extract_text_from_token py_str token)
               else acc) visited None.

(** The records of one kind. *)
Definition is_bold_record (r : EmphasisRecord) : bool :=
  String.eqb (er_type r) "bold".

Definition is_italic_record (r : EmphasisRecord) : bool :=
  String.eqb (er_type r) "italic".

(** The kind and the text of the record an emphasis node gives. *)
Definition emphasis_entry (py_str : Token -> string) (token : Token)
    : list (string * string) :=
  match kind_of token with
  | Some kind => [(kind, _extract_text_from_token py_str token)]
  | None => []
  end.

(** The line number lies in the section: after [section_start], at most
    [section_end]. *)
Definition in_section (s e : nat) (m : SearchMatch) : bool :=
  (Z.of_nat s + 1 <=? sm_line_number m) && (sm_line_number m <=? Z.of_nat e).

(** The kinds of item. *)
Definition is_heading_item (item : Item) : bool :=
  match item with HeadingItem _ => true | _ => false end.

Definition is_emphasis_item (item : Item) : bool :=
  match item with EmphasisItem _ => true | _ => false end.

Definition is_search_item (item : Item) : bool :=
  match item with SearchItem _ => true | _ => false end.

(** Whether the items of an extractor are what the formatters read under
    the operation tag: any item for a tag that is not one of the three. *)
Definition fits_operation (operation : string) (item : Item) : bool :=
  if String.eqb operation "extract_headings" then is_heading_item item
  else if String.eqb operation "extract_emphasized" then is_emphasis_item item
  else if String.eqb operation "find_and_extract" then is_search_item item
  else true.

(** The line of a heading in the text output. *)
Definition indented_heading (r : HeadingRecord) : string :=
  str_times "  " (hr_level r - 1) ++ hr_text r.

(** A bold or italic node. *)
Definition is_emphasis_node (token : Token) : bool :=
  is_strong token || is_emphasis token.

(** [l1] is [l2] with some elements left out, the order kept. *)
Inductive subsequence {A : Type} : list A -> list A -> Prop :=
| subsequence_nil : subsequence [] []
| subsequence_skip (x : A) (l1 l2 : list A) :
    subsequence l1 l2 -> subsequence l1 (x :: l2)
| subsequence_keep (x : A) (l1 l2 : list A) :
    subsequence l1 l2 -> subsequence (x :: l1) (x :: l2).

(** A tree in which text sits in leaves only: a token with [content] has no
    [children], a token without [content] has [children], and a heading is
    never a child. *)
Fixpoint plain (token : Token) : bool :=
  match token with
  | Paragraph cs | Strong cs | Emphasis cs | Other None (Some cs) =>
      forallb plain cs
  | Other (Some _) None => true
  | Heading _ _ _ | Other (Some _) (Some _) | Other None None => false
  end.

(** The text a leaf carries. *)
Definition leaf_text (token : Token) : string :=
  match token with
  | Other (Some c) None => c
  | _ => ""
  end.

(** The heading levels of all tokens of a list lie between 1 and 6. *)
Definition heading_levels_valid (tokens : list Token) : Prop :=
  Forall (fun token =>
            match token with
            | Heading lvl _ _ => 1 <= lvl <= 6
            | _ => True
            end) tokens.

(** No character of [s] is a line feed. *)
Fixpoint no_newline (s : string) : bool :=
  match s with
  | EmptyString => true
  | String c s' => negb (PyStr.is_newline c) && no_newline s'
  end.

(** A line that starts a section no deeper than [heading_level]: after
    stripping it starts with [#] and its run of [#] is at most
    [heading_level] long. *)
Definition closes_section (heading_level : Z) (line : string) : bool :=
  PyStr.startswith "#" (PyStr.strip line)
  && (hash_run (PyStr.strip line) <=? heading_level).

(* ================================================================== *)
(** * Properties of the heading stack *)
(* ================================================================== *)

Lemma stack_top_snoc (stack : list HeadingInfo) (x : HeadingInfo) :
  stack_top (stack ++ [x])%list = Some x.
Proof.
  induction stack as [|y stack IH]; [reflexivity|].
  simpl. destruct (stack ++ [x])%list eqn:E.
  - destruct stack; discriminate.
  - exact IH.
Qed.

Lemma pop_closed_body (lvl : Z) (stack : list HeadingInfo) :
  pop_closed lvl stack =
  match stack_top stack with
  | Some t =>
      if hi_level t >=? lvl then pop_closed lvl (removelast stack) else stack
  | None => stack
  end.
Proof.
  funelim (pop_closed lvl stack); rewrite e; reflexivity.
Qed.

Lemma pop_closed_nil (lvl : Z) : pop_closed lvl [] = [].
Proof. rewrite pop_closed_body. reflexivity. Qed.

Lemma pop_closed_snoc (lvl : Z) (stack : list HeadingInfo) (t : HeadingInfo) :
  pop_closed lvl (stack ++ [t])%list =
  if hi_level t >=? lvl then pop_closed lvl stack else (stack ++ [t])%list.
Proof.
  rewrite pop_closed_body, stack_top_snoc, removelast_last. reflexivity.
Qed.

(** What the loop leaves is a prefix of the stack, what it drops has levels
    [>=] the new one, and it stops only at an entry below the new level:
    the loop ran to its exit condition. *)
Lemma pop_closed_split (lvl : Z) (stack : list HeadingInfo) :
  exists dropped,
    stack = (pop_closed lvl stack ++ dropped)%list /\
    Forall (fun e => lvl <= hi_level e) dropped /\
    match stack_top (pop_closed lvl stack) with
    | Some t => hi_level t < lvl
    | None => pop_closed lvl stack = []
    end.
Proof.
  induction stack as [|t stack IH] using rev_ind.
  - exists []. rewrite pop_closed_nil. simpl.
    split; [reflexivity | split; [constructor | reflexivity]].
  - rewrite pop_closed_snoc. destruct (hi_level t >=? lvl) eqn:E.
    + destruct IH as (dropped & Hs & Hd & Ht).
      exists (dropped ++ [t])%list. split; [|split].
      * rewrite app_assoc, <- Hs. reflexivity.
      * apply Forall_app. split; [exact Hd|].
        constructor; [|constructor]. apply Z.geb_le in E. lia.
      * exact Ht.
    + exists []. rewrite app_nil_r, stack_top_snoc.
      split; [reflexivity | split; [constructor|]].
      rewrite Z.geb_leb in E. apply Z.leb_gt in E. exact E.
Qed.

Lemma StronglySorted_snoc (l : list Z) (x : Z) :
  StronglySorted Z.lt (l ++ [x]) <->
  StronglySorted Z.lt l /\ Forall (fun y => y < x) l.
Proof.
  induction l as [|a l IH]; simpl.
  - split; intros; [split; constructor|repeat constructor].
  - split.
    + intros H. inversion H as [|? ? Hs Hf]; subst.
      apply IH in Hs. destruct Hs as [Hs Hl].
      apply Forall_app in Hf. destruct Hf as [Hf Hx].
      inversion Hx; subst. repeat split; try constructor; auto.
    + intros [H Hl]. inversion H as [|? ? Hs Hf]; subst.
      inversion Hl; subst. constructor.
      * apply IH. split; assumption.
      * apply Forall_app. split; [assumption|]. repeat constructor. assumption.
Qed.

Lemma levels_increasing_snoc (stack : list HeadingInfo) (t : HeadingInfo) :
  levels_increasing (stack ++ [t]) <->
  levels_increasing stack /\ Forall (fun e => hi_level e < hi_level t) stack.
Proof.
  unfold levels_increasing. rewrite map_app. simpl.
  rewrite StronglySorted_snoc, Forall_map. reflexivity.
Qed.

(** On a stack with increasing levels the loop removes exactly the entries
    whose level is [>=] the new level. *)
Lemma pop_closed_filter (lvl : Z) (stack : list HeadingInfo) :
  levels_increasing stack ->
  pop_closed lvl stack = filter (fun e => hi_level e <? lvl) stack.
Proof.
  induction stack as [|t stack IH] using rev_ind; intros Hinc.
  - rewrite pop_closed_nil. reflexivity.
  - apply levels_increasing_snoc in Hinc. destruct Hinc as [Hinc Hlt].
    rewrite pop_closed_snoc, filter_app. simpl.
    destruct (hi_level t >=? lvl) eqn:E.
    + rewrite Z.geb_leb in E. apply Z.leb_le in E.
      replace (hi_level t <? lvl) with false
        by (symmetry; apply Z.ltb_ge; exact E).
      rewrite app_nil_r. apply IH. exact Hinc.
    + rewrite Z.geb_leb in E. apply Z.leb_gt in E.
      replace (hi_level t <? lvl) with true
        by (symmetry; apply Z.ltb_lt; exact E).
      f_equal. symmetry. apply forallb_filter_id.
      apply forallb_forall. intros e He.
      rewrite Forall_forall in Hlt. specialize (Hlt e He).
      apply Z.ltb_lt. lia.
Qed.

Lemma levels_increasing_filter (p : HeadingInfo -> bool)
    (stack : list HeadingInfo) :
  levels_increasing stack -> levels_increasing (filter p stack).
Proof.
  unfold levels_increasing.
  induction stack as [|a stack IH]; simpl; intros H; [constructor|].
  inversion H as [|? ? Hs Hf]; subst.
  destruct (p a); simpl; [|auto].
  constructor; [auto|].
  rewrite Forall_map in *. rewrite Forall_forall in *.
  intros e He. apply filter_In in He. apply Hf. tauto.
Qed.

Section StackProperties.

Variable py_str : Token -> string.

(** The heading step keeps the levels increasing. *)
Lemma enter_heading_increasing (token : Token) (stack : list HeadingInfo) :
  levels_increasing stack ->
  levels_increasing (enter_heading py_str token stack).
Proof.
  intros Hinc. destruct token; simpl; try exact Hinc.
  rewrite pop_closed_filter by exact Hinc.
  apply levels_increasing_snoc. split.
  - apply levels_increasing_filter. exact Hinc.
  - apply Forall_forall. intros e He. apply filter_In in He.
    destruct He as [_ He]. apply Z.ltb_lt in He. exact He.
Qed.

Lemma visit_stack (type : string) (heading_filter : option string)
    (token : Token) (st : WalkState) :
  heading_stack (visit py_str type heading_filter token st) =
  enter_heading py_str token (heading_stack st).
Proof. reflexivity. Qed.

(** [_process_token] is the fold of [visit] over the tokens of the subtree
    in depth-first pre-order. *)
Lemma process_token_walk (type : string) (heading_filter : option string)
    (token : Token) :
  forall st,
    _process_token py_str type heading_filter token st =
    fold_left (fun s t => visit py_str type heading_filter t s)
      (_walk_tokens token) st.
Proof.
  assert (Hlist : forall cs,
    Forall (fun t => forall st,
      _process_token py_str type heading_filter t st =
      fold_left (fun s t => visit py_str type heading_filter t s)
        (_walk_tokens t) st) cs ->
    forall st,
      fold_left (fun s c => _process_token py_str type heading_filter c s)
        cs st =
      fold_left (fun s t => visit py_str type heading_filter t s)
        (flat_map _walk_tokens cs) st).
  { induction cs as [|c cs IH]; intros HF st; [reflexivity|].
    inversion HF as [|? ? Hc Hcs]; subst. simpl.
    rewrite fold_left_app, Hc. apply IH. exact Hcs. }
  induction token using Token_tree_ind; intros st; simpl;
    try (rewrite Hlist by assumption); reflexivity.
Qed.

Lemma final_state_walk (document : Document) (type : string)
    (heading_filter : option string) :
  final_state py_str document type heading_filter =
  state_after py_str type heading_filter (walk_document document).
Proof.
  unfold final_state, state_after, walk_document.
  generalize initial_state.
  induction (doc_children document) as [|c cs IH]; intros st; [reflexivity|].
  simpl. rewrite fold_left_app, process_token_walk. apply IH.
Qed.

Lemma state_after_snoc (type : string) (heading_filter : option string)
    (visited : list Token) (token : Token) :
  state_after py_str type heading_filter (visited ++ [token]) =
  visit py_str type heading_filter token
    (state_after py_str type heading_filter visited).
Proof. unfold state_after. rewrite fold_left_app. reflexivity. Qed.

Lemma state_after_increasing (type : string) (heading_filter : option string)
    (visited : list Token) :
  levels_increasing
    (heading_stack (state_after py_str type heading_filter visited)).
Proof.
  induction visited as [|token visited IH] using rev_ind.
  - constructor.
  - rewrite state_after_snoc, visit_stack.
    apply enter_heading_increasing. exact IH.
Qed.

End StackProperties.

(* ================================================================== *)
(** * Properties of the emphasis extractor *)
(* ================================================================== *)

Lemma str_in_all_or (type kind : string) :
  str_in type ["all"; kind] = true <-> kind_selected type kind.
Proof.
  unfold str_in, kind_selected. simpl. rewrite !orb_true_iff, !String.eqb_eq.
  intuition discriminate.
Qed.

Lemma matches_filter_admits (heading_filter : option string)
    (stack : list HeadingInfo) :
  matches_filter heading_filter stack = true <->
  filter_admits heading_filter stack.
Proof.
  destruct heading_filter as [f|]; simpl; [|tauto].
  destruct f as [|c f]; simpl.
  - split; auto.
  - rewrite existsb_exists. unfold occurs_in_stack.
    split.
    + intros H. right. exact H.
    + intros [H|H]; [discriminate|exact H].
Qed.

Section EmphasisProperties.

Variable py_str : Token -> string.

Lemma emit_admitted (kind : string) (heading_filter : option string)
    (token : Token) (stack : list HeadingInfo) (items : list EmphasisRecord) :
  filter_admits heading_filter stack ->
  emit py_str kind heading_filter token stack items =
  (items ++ [mkEmphasisRecord kind (_extract_text_from_token py_str token)
               (option_map hi_text (stack_top stack))])%list.
Proof.
  intros H. apply matches_filter_admits in H. unfold emit. rewrite H.
  reflexivity.
Qed.

Lemma emit_refused (kind : string) (heading_filter : option string)
    (token : Token) (stack : list HeadingInfo) (items : list EmphasisRecord) :
  ~ filter_admits heading_filter stack ->
  emit py_str kind heading_filter token stack items = items.
Proof.
  intros H. unfold emit.
  destruct (matches_filter heading_filter stack) eqn:E; [|reflexivity].
  apply matches_filter_admits in E. contradiction.
Qed.

Lemma kind_selected_dec (type kind : string) :
  kind_selected type kind \/ ~ kind_selected type kind.
Proof.
  destruct (str_in type ["all"; kind]) eqn:E.
  - left. apply str_in_all_or. exact E.
  - right. intros H. apply str_in_all_or in H. congruence.
Qed.

(** A visit adds a record exactly under the rule of the code, and the
    record carries the text of the top of the stack. *)
Lemma visit_emits (type : string) (heading_filter : option string)
    (token : Token) (st : WalkState) :
  (forall kind, kind_of token = Some kind ->
     heading_stack (visit py_str type heading_filter token st) =
     heading_stack st) /\
  (forall kind,
     kind_of token = Some kind ->
     kind_selected type kind ->
     filter_admits heading_filter (heading_stack st) ->
     emphasized_items (visit py_str type heading_filter token st) =
     (emphasized_items st ++
      [mkEmphasisRecord kind (_extract_text_from_token py_str token)
         (option_map hi_text (stack_top (heading_stack st)))])%list) /\
  (~ (exists kind,
        kind_of token = Some kind /\
        kind_selected type kind /\
        filter_admits heading_filter (heading_stack st)) ->
   emphasized_items (visit py_str type heading_filter token st) =
   emphasized_items st).
Proof.
  split; [|split].
  - intros kind Hk. destruct token; try discriminate; reflexivity.
  - intros kind Hk Hsel Hadm.
    destruct token; try discriminate; inversion Hk; subst;
      unfold visit;
      cbn [emphasized_items heading_stack is_strong is_emphasis andb
           enter_heading].
    + apply str_in_all_or in Hsel. rewrite Hsel.
      apply emit_admitted. exact Hadm.
    + apply str_in_all_or in Hsel. rewrite Hsel.
      apply emit_admitted. exact Hadm.
  - intros Hno. destruct token; try reflexivity;
      unfold visit;
      cbn [emphasized_items heading_stack is_strong is_emphasis andb
           enter_heading].
    + destruct (str_in type ["all"; "bold"]) eqn:E; [|reflexivity].
      apply emit_refused. intros Hadm. apply Hno. exists "bold".
      repeat split; [apply str_in_all_or; exact E | exact Hadm].
    + destruct (str_in type ["all"; "italic"]) eqn:E; [|reflexivity].
      apply emit_refused. intros Hadm. apply Hno. exists "italic".
      repeat split; [apply str_in_all_or; exact E | exact Hadm].
Qed.

(** With a [type] that selects no kind, a visit adds nothing. *)
Lemma visit_unknown_type (type : string) (heading_filter : option string)
    (token : Token) (st : WalkState) :
  type <> "all" -> type <> "bold" -> type <> "italic" ->
  emphasized_items (visit py_str type heading_filter token st) =
  emphasized_items st.
Proof.
  intros Hall Hbold Hitalic.
  apply (proj2 (proj2 (visit_emits type heading_filter token st))).
  intros (kind & Hk & [Hsel|Hsel] & _); [contradiction|].
  destruct token; try discriminate; inversion Hk; subst; contradiction.
Qed.

End EmphasisProperties.

(* ================================================================== *)
(** * Properties of the heading extractor *)
(* ================================================================== *)

Lemma filter_length_mono {A : Type} (p q : A -> bool) (l : list A) :
  (forall x, p x = true -> q x = true) ->
  (List.length (filter p l) <= List.length (filter q l))%nat.
Proof.
  intros Hpq. induction l as [|a l IH]; simpl; [lia|].
  destruct (p a) eqn:Ep.
  - rewrite (Hpq a Ep). simpl. lia.
  - destruct (q a); simpl; lia.
Qed.

(** Closes the goal that a record just built has the fields it was built
    from. *)
Ltac record_built :=
  eexists; split; [reflexivity|];
  eexists; split; [reflexivity|];
  unfold bare_when_no_content; simpl;
  repeat split; intros; solve [reflexivity | discriminate].

Section HeadingProperties.

Variable py_str : Token -> string.

(** Whenever the texts of a list of tokens are extracted, they are the
    values [_extract_text_from_token] gives. *)
Lemma each_or_raise_value (cs : list Token) :
  Forall (fun t => forall s, extract_text_or_raise t = Ok s ->
                             _extract_text_from_token py_str t = s) cs ->
  forall parts,
    each_or_raise extract_text_or_raise cs = Ok parts ->
    map (_extract_text_from_token py_str) cs = parts.
Proof.
  induction 1 as [|t cs Ht _ IH]; intros parts H; simpl in H.
  - inversion H. reflexivity.
  - destruct (extract_text_or_raise t) as [s|e] eqn:Et; [|discriminate].
    cbn [bind] in H.
    destruct (each_or_raise extract_text_or_raise cs) as [ss|e] eqn:Ec;
      [|discriminate].
    cbn [bind] in H. inversion H; subst. simpl.
    rewrite (Ht s eq_refl), (IH ss eq_refl). reflexivity.
Qed.

Lemma each_or_raise_error (cs : list Token) :
  Forall (fun t => forall e, extract_text_or_raise t = Raise e ->
                             e = TypeError) cs ->
  forall e, each_or_raise extract_text_or_raise cs = Raise e -> e = TypeError.
Proof.
  induction 1 as [|t cs Ht _ IH]; intros e H; simpl in H; [discriminate|].
  destruct (extract_text_or_raise t) as [s|e'] eqn:Et.
  - cbn [bind] in H.
    destruct (each_or_raise extract_text_or_raise cs) as [ss|e''] eqn:Ec;
      [discriminate|].
    cbn [bind] in H. inversion H; subst. apply IH. reflexivity.
  - cbn [bind] in H. inversion H; subst. apply Ht. reflexivity.
Qed.

(** The text of a token, when its extraction returns, is the value of
    [_extract_text_from_token]. *)
Lemma extract_text_or_raise_value (token : Token) :
  forall s,
    extract_text_or_raise token = Ok s ->
    _extract_text_from_token py_str token = s.
Proof.
  induction token as [l c cs IH | cs IH | cs IH | cs IH | c | c cs IH]
    using Token_tree_ind; intros s Hs.
  - destruct cs as [|c0 cs']; [inversion Hs; reflexivity|].
    change (extract_text_or_raise (Heading l c (c0 :: cs')))
      with (parts <- each_or_raise extract_text_or_raise (c0 :: cs') ;;
            Ok (PyStr.join "" parts)) in Hs.
    destruct (each_or_raise extract_text_or_raise (c0 :: cs'))
      as [parts|e] eqn:E; [|discriminate].
    inversion Hs; subst.
    change (_extract_text_from_token py_str (Heading l c (c0 :: cs')))
      with (PyStr.join "" (map (_extract_text_from_token py_str) (c0 :: cs'))).
    rewrite (each_or_raise_value _ IH parts E). reflexivity.
  - change (extract_text_or_raise (Paragraph cs))
      with (parts <- each_or_raise extract_text_or_raise cs ;;
            Ok (PyStr.join "" parts)) in Hs.
    destruct (each_or_raise extract_text_or_raise cs) as [parts|e] eqn:E;
      [|discriminate].
    inversion Hs; subst.
    change (_extract_text_from_token py_str (Paragraph cs))
      with (PyStr.join "" (map (_extract_text_from_token py_str) cs)).
    rewrite (each_or_raise_value _ IH parts E). reflexivity.
  - change (extract_text_or_raise (Strong cs))
      with (parts <- each_or_raise extract_text_or_raise cs ;;
            Ok (PyStr.join "" parts)) in Hs.
    destruct (each_or_raise extract_text_or_raise cs) as [parts|e] eqn:E;
      [|discriminate].
    inversion Hs; subst.
    change (_extract_text_from_token py_str (Strong cs))
      with (PyStr.join "" (map (_extract_text_from_token py_str) cs)).
    rewrite (each_or_raise_value _ IH parts E). reflexivity.
  - change (extract_text_or_raise (Emphasis cs))
      with (parts <- each_or_raise extract_text_or_raise cs ;;
            Ok (PyStr.join "" parts)) in Hs.
    destruct (each_or_raise extract_text_or_raise cs) as [parts|e] eqn:E;
      [|discriminate].
    inversion Hs; subst.
    change (_extract_text_from_token py_str (Emphasis cs))
      with (PyStr.join "" (map (_extract_text_from_token py_str) cs)).
    rewrite (each_or_raise_value _ IH parts E). reflexivity.
  - destruct c as [c|]; [inversion Hs; reflexivity | discriminate].
  - destruct c as [c|]; [inversion Hs; reflexivity|].
    change (extract_text_or_raise (Other None (Some cs)))
      with (parts <- each_or_raise extract_text_or_raise cs ;;
            Ok (PyStr.join "" parts)) in Hs.
    destruct (each_or_raise extract_text_or_raise cs) as [parts|e] eqn:E;
      [|discriminate].
    inversion Hs; subst.
    change (_extract_text_from_token py_str (Other None (Some cs)))
      with (PyStr.join "" (map (_extract_text_from_token py_str) cs)).
    rewrite (each_or_raise_value _ IH parts E). reflexivity.
Qed.

(** The extraction of a text raises nothing but [TypeError]. *)
Lemma extract_text_or_raise_error (token : Token) :
  forall e, extract_text_or_raise token = Raise e -> e = TypeError.
Proof.
  induction token as [l c cs IH | cs IH | cs IH | cs IH | c | c cs IH]
    using Token_tree_ind; intros e He.
  - destruct cs as [|c0 cs']; [discriminate|].
    change (extract_text_or_raise (Heading l c (c0 :: cs')))
      with (parts <- each_or_raise extract_text_or_raise (c0 :: cs') ;;
            Ok (PyStr.join "" parts)) in He.
    destruct (each_or_raise extract_text_or_raise (c0 :: cs'))
      as [parts|e'] eqn:E; [discriminate|].
    inversion He; subst. exact (each_or_raise_error _ IH _ E).
  - change (extract_text_or_raise (Paragraph cs))
      with (parts <- each_or_raise extract_text_or_raise cs ;;
            Ok (PyStr.join "" parts)) in He.
    destruct (each_or_raise extract_text_or_raise cs) as [parts|e'] eqn:E;
      [discriminate|].
    inversion He; subst. exact (each_or_raise_error _ IH _ E).
  - change (extract_text_or_raise (Strong cs))
      with (parts <- each_or_raise extract_text_or_raise cs ;;
            Ok (PyStr.join "" parts)) in He.
    destruct (each_or_raise extract_text_or_raise cs) as [parts|e'] eqn:E;
      [discriminate|].
    inversion He; subst. exact (each_or_raise_error _ IH _ E).
  - change (extract_text_or_raise (Emphasis cs))
      with (parts <- each_or_raise extract_text_or_raise cs ;;
            Ok (PyStr.join "" parts)) in He.
    destruct (each_or_raise extract_text_or_raise cs) as [parts|e'] eqn:E;
      [discriminate|].
    inversion He; subst. exact (each_or_raise_error _ IH _ E).
  - destruct c as [c|]; [discriminate|]. inversion He. reflexivity.
  - destruct c as [c|]; [discriminate|].
    change (extract_text_or_raise (Other None (Some cs)))
      with (parts <- each_or_raise extract_text_or_raise cs ;;
            Ok (PyStr.join "" parts)) in He.
    destruct (each_or_raise extract_text_or_raise cs) as [parts|e'] eqn:E;
      [discriminate|].
    inversion He; subst. exact (each_or_raise_error _ IH _ E).
Qed.

(** The loop body, when it returns, adds the piece of the token. *)
Lemma collect_text_value (token : Token) (content_parts out : list string) :
  collect_text token content_parts = Ok out ->
  out = (content_parts ++ content_piece py_str token)%list.
Proof.
  unfold collect_text, content_piece.
  destruct (is_paragraph token || has_children token);
    [|intros H; inversion H; rewrite app_nil_r; reflexivity].
  destruct (extract_text_or_raise token) as [s|e] eqn:E; [|discriminate].
  cbn [bind]. rewrite (extract_text_or_raise_value token s E).
  destruct (PyStr.truthy (PyStr.strip s)); intros H; inversion H;
    [reflexivity | rewrite app_nil_r; reflexivity].
Qed.

(** The loop body returns on a token it can take in. *)
Lemma collect_text_readable (token : Token) (content_parts : list string) :
  content_readable token = true ->
  collect_text token content_parts =
  Ok (content_parts ++ content_piece py_str token)%list.
Proof.
  intros Hr.
  destruct (collect_text token content_parts) as [out|e] eqn:E.
  - rewrite (collect_text_value token content_parts out E). reflexivity.
  - exfalso. unfold collect_text in E. unfold content_readable in Hr.
    destruct (is_paragraph token || has_children token); [|discriminate].
    unfold text_defined in Hr.
    destruct (extract_text_or_raise token) as [s|e']; [|discriminate].
    cbn [bind] in E. destruct (PyStr.truthy (PyStr.strip s)); discriminate.
Qed.

(** The loop body raises only [TypeError], and only on a token whose text
    cannot be extracted. *)
Lemma collect_text_raise (token : Token) (content_parts : list string)
    (e : PyError) :
  collect_text token content_parts = Raise e ->
  e = TypeError /\ content_readable token = false.
Proof.
  unfold collect_text, content_readable, text_defined.
  destruct (is_paragraph token || has_children token); [|discriminate].
  destruct (extract_text_or_raise token) as [s|e'] eqn:E.
  - cbn [bind]. destruct (PyStr.truthy (PyStr.strip s)); discriminate.
  - cbn [bind]. intros H. inversion H; subst.
    split; [exact (extract_text_or_raise_error token e E) | reflexivity].
Qed.

(** At the index of a heading the test for the end of the section never
    raises: the cached level is the level of that heading. *)
Lemma heading_boundary_at_heading (children : list Token)
    (heading_index : nat) (lvl : Z) (c : string) (cs : list Token)
    (token : Token) (heading_level : option Z) :
  nth_error children heading_index = Some (Heading lvl c cs) ->
  heading_level = None \/ heading_level = Some lvl ->
  heading_boundary children heading_index token heading_level =
  Ok (match token with
      | Heading l _ _ => (l <=? lvl, Some lvl)
      | _ => (false, heading_level)
      end).
Proof.
  intros Hnth Hhl. destruct token; try reflexivity.
  unfold heading_boundary. rewrite Hnth.
  destruct Hhl as [-> | ->]; reflexivity.
Qed.

(** One turn of the look-ahead loop after a heading of level [lvl]. *)
Lemma scan_after_step (children : list Token) (heading_index : nat)
    (lvl : Z) (c : string) (cs : list Token) (token : Token)
    (rest : list Token) (heading_level : option Z)
    (content_parts : list string) :
  nth_error children heading_index = Some (Heading lvl c cs) ->
  heading_level = None \/ heading_level = Some lvl ->
  exists heading_level',
    (heading_level' = None \/ heading_level' = Some lvl) /\
    scan_after children heading_index (token :: rest) heading_level
      content_parts =
    if match token with
       | Heading l _ _ => l <=? lvl
       | _ => false
       end
    then Ok content_parts
    else
      content_parts' <- collect_text token content_parts ;;
      scan_after children heading_index rest heading_level' content_parts'.
Proof.
  intros Hnth Hhl.
  exists (match token with Heading _ _ _ => Some lvl | _ => heading_level end).
  split.
  - destruct token; auto.
  - cbn [scan_after].
    rewrite (heading_boundary_at_heading children heading_index lvl c cs
               token heading_level Hnth Hhl).
    destruct token; reflexivity.
Qed.

Lemma collected_parts_step (lvl : Z) (token : Token) (rest : list Token) :
  collected_parts py_str lvl (token :: rest) =
  if match token with
     | Heading l _ _ => l <=? lvl
     | _ => false
     end
  then []
  else (content_piece py_str token ++ collected_parts py_str lvl rest)%list.
Proof. destruct token; reflexivity. Qed.

(** What the look-ahead loop collects after a heading of level [lvl], when
    it returns. *)
Lemma scan_after_collects (children : list Token) (heading_index : nat)
    (lvl : Z) (c : string) (cs : list Token) :
  nth_error children heading_index = Some (Heading lvl c cs) ->
  forall rest heading_level content_parts out,
    heading_level = None \/ heading_level = Some lvl ->
    scan_after children heading_index rest heading_level content_parts
      = Ok out ->
    out = (content_parts ++ collected_parts py_str lvl rest)%list.
Proof.
  intros Hnth. induction rest as [|token rest IH]; intros hl parts out Hhl H.
  - simpl in H. inversion H. rewrite app_nil_r. reflexivity.
  - destruct (scan_after_step children heading_index lvl c cs token rest hl
                parts Hnth Hhl) as (hl' & Hhl' & Hstep).
    rewrite Hstep in H. rewrite collected_parts_step.
    destruct (match token with Heading l _ _ => l <=? lvl | _ => false end).
    + inversion H. rewrite app_nil_r. reflexivity.
    + destruct (collect_text token parts) as [parts'|e] eqn:Ec;
        [|discriminate].
      cbn [bind] in H. apply (IH hl' parts' out Hhl') in H.
      rewrite (collect_text_value token parts parts' Ec) in H.
      rewrite H, <- app_assoc. reflexivity.
Qed.

(** The look-ahead loop returns when it can take in every token. *)
Lemma scan_after_returns (children : list Token) (heading_index : nat)
    (lvl : Z) (c : string) (cs : list Token) :
  nth_error children heading_index = Some (Heading lvl c cs) ->
  forall rest heading_level content_parts,
    heading_level = None \/ heading_level = Some lvl ->
    Forall (fun token => content_readable token = true) rest ->
    scan_after children heading_index rest heading_level content_parts
    = Ok (content_parts ++ collected_parts py_str lvl rest)%list.
Proof.
  intros Hnth. induction rest as [|token rest IH]; intros hl parts Hhl Hr.
  - simpl. rewrite app_nil_r. reflexivity.
  - inversion Hr as [|? ? Ht Hrest]; subst.
    destruct (scan_after_step children heading_index lvl c cs token rest hl
                parts Hnth Hhl) as (hl' & Hhl' & Hstep).
    rewrite Hstep, collected_parts_step.
    destruct (match token with Heading l _ _ => l <=? lvl | _ => false end).
    + rewrite app_nil_r. reflexivity.
    + rewrite (collect_text_readable token parts Ht). cbn [bind].
      rewrite (IH hl' _ Hhl' Hrest), <- app_assoc. reflexivity.
Qed.

(** The look-ahead loop raises only [TypeError], and only when the text of
    one of the tokens cannot be extracted. *)
Lemma scan_after_raise (children : list Token) (heading_index : nat)
    (lvl : Z) (c : string) (cs : list Token) :
  nth_error children heading_index = Some (Heading lvl c cs) ->
  forall rest heading_level content_parts e,
    heading_level = None \/ heading_level = Some lvl ->
    scan_after children heading_index rest heading_level content_parts
      = Raise e ->
    e = TypeError /\
    exists token, In token rest /\ content_readable token = false.
Proof.
  intros Hnth. induction rest as [|token rest IH]; intros hl parts e Hhl H.
  - discriminate.
  - destruct (scan_after_step children heading_index lvl c cs token rest hl
                parts Hnth Hhl) as (hl' & Hhl' & Hstep).
    rewrite Hstep in H.
    destruct (match token with Heading l _ _ => l <=? lvl | _ => false end);
      [discriminate|].
    destruct (collect_text token parts) as [parts'|e'] eqn:Ec.
    + cbn [bind] in H. destruct (IH hl' parts' e Hhl' H) as (He & t & Hin & Ht).
      split; [exact He|]. exists t. split; [right; exact Hin | exact Ht].
    + cbn [bind] in H. inversion H; subst.
      destruct (collect_text_raise token parts e Ec) as [He Ht].
      split; [exact He|]. exists token. split; [left; reflexivity | exact Ht].
Qed.

(** Where no deeper heading follows, the loop collects what the
    specification describes. *)
Lemma collected_parts_as_specified (lvl : Z) (rest : list Token) :
  no_deeper_heading lvl rest ->
  collected_parts py_str lvl rest = specified_parts py_str lvl rest.
Proof.
  induction 1 as [|token rest Htoken _ IH]; [reflexivity|].
  destruct token; simpl; try (rewrite IH; reflexivity).
  apply Z.leb_le in Htoken. rewrite Htoken. reflexivity.
Qed.

(** The content [_get_content_after_heading] is to give at the index of a
    heading of level [lvl]. *)
Lemma get_content_value (children : list Token) (heading_index : nat)
    (lvl : Z) (c : string) (cs : list Token) (lines chars : option Z)
    (r : option string) :
  nth_error children heading_index = Some (Heading lvl c cs) ->
  _get_content_after_heading children heading_index lines chars = Ok r ->
  r = match lines, chars with
      | None, None => None
      | _, _ =>
          match collected_parts py_str lvl
                  (skipn (S heading_index) children) with
          | [] => None
          | p :: ps =>
              apply_limits (PyStr.join PyStr.nl (p :: ps)) lines chars
          end
      end.
Proof.
  intros Hnth. unfold _get_content_after_heading.
  destruct (scan_after children heading_index
              (skipn (S heading_index) children) None []) as [parts|e] eqn:Es.
  - pose proof (scan_after_collects children heading_index lvl c cs Hnth
                  _ None [] parts (or_introl eq_refl) Es) as Hp.
    cbn [app] in Hp. rewrite <- Hp.
    destruct lines, chars; cbn [bind]; intros H;
      try (destruct parts; inversion H; reflexivity);
      inversion H; reflexivity.
  - destruct lines, chars; cbn [bind]; intros H; try discriminate.
    inversion H. reflexivity.
Qed.

Lemma get_content_returns (children : list Token) (heading_index : nat)
    (lvl : Z) (c : string) (cs : list Token) (lines chars : option Z) :
  nth_error children heading_index = Some (Heading lvl c cs) ->
  (lines = None /\ chars = None) \/
  Forall (fun token => content_readable token = true)
    (skipn (S heading_index) children) ->
  exists r,
    _get_content_after_heading children heading_index lines chars = Ok r.
Proof.
  intros Hnth [[-> ->]|Hr]; [eexists; reflexivity|].
  unfold _get_content_after_heading.
  rewrite (scan_after_returns children heading_index lvl c cs Hnth _ None []
             (or_introl eq_refl) Hr).
  cbn [bind app].
  destruct lines, chars; try (eexists; reflexivity);
    destruct (collected_parts py_str lvl (skipn (S heading_index) children));
    eexists; reflexivity.
Qed.

Lemma get_content_raise (children : list Token) (heading_index : nat)
    (lvl : Z) (c : string) (cs : list Token) (lines chars : option Z)
    (e : PyError) :
  nth_error children heading_index = Some (Heading lvl c cs) ->
  _get_content_after_heading children heading_index lines chars = Raise e ->
  e = TypeError /\
  exists token,
    In token (skipn (S heading_index) children) /\
    content_readable token = false.
Proof.
  intros Hnth. unfold _get_content_after_heading.
  destruct (scan_after children heading_index
              (skipn (S heading_index) children) None []) as [parts|e'] eqn:Es.
  - destruct lines, chars; cbn [bind]; try discriminate;
      destruct parts; discriminate.
  - destruct lines, chars; cbn [bind]; intros H; try discriminate;
      inversion H; subst;
      exact (scan_after_raise children heading_index lvl c cs Hnth _ None []
               e (or_introl eq_refl) Es).
Qed.

(** What one turn of the loop of [extract_headings] appends, when it
    returns. *)
Lemma heading_entry_spec (children : list Token) (max_level : Z)
    (icl lines chars : option Z) (i : nat) (token : Token)
    (e : option HeadingRecord) :
  heading_entry py_str children max_level icl lines chars i token = Ok e ->
  entry_for py_str max_level token e.
Proof.
  destruct token; try (intros H; inversion H; reflexivity).
  unfold heading_entry, entry_for.
  destruct (level <=? max_level); [|intros H; inversion H; reflexivity].
  destruct (truthy_int icl && _).
  - destruct (_get_content_after_heading children i lines chars)
      as [ct|err]; [|discriminate].
    cbn [bind]. destruct ct as [ct|]; simpl; [destruct (PyStr.truthy ct)|];
      intros H; inversion H; record_built.
  - intros H; inversion H; record_built.
Qed.

(** One turn returns when no content is asked for, or when every token
    after the heading can be taken in. *)
Lemma heading_entry_returns (children : list Token) (max_level : Z)
    (icl lines chars : option Z) (i : nat) (token : Token) :
  nth_error children i = Some token ->
  truthy_int icl = false \/ (lines = None /\ chars = None) \/
  Forall (fun t => content_readable t = true) children ->
  exists e,
    heading_entry py_str children max_level icl lines chars i token = Ok e.
Proof.
  intros Hnth Hcond. destruct token; try (eexists; reflexivity).
  unfold heading_entry.
  destruct (level <=? max_level); [|eexists; reflexivity].
  destruct (truthy_int icl &&
            match icl with Some k => level =? k | None => false end) eqn:Ei;
    [|eexists; reflexivity].
  destruct Hcond as [Ht|Hcond];
    [rewrite Ht in Ei; discriminate|].
  destruct (get_content_returns children i level content children0 lines chars
              Hnth) as [r Hr].
  { destruct Hcond as [Hn|Hr]; [left; exact Hn|].
    right. apply Forall_forall. intros t Ht.
    rewrite Forall_forall in Hr. apply Hr.
    rewrite <- (firstn_skipn (S i) children). apply in_or_app. right.
    exact Ht. }
  rewrite Hr. cbn [bind].
  destruct (truthy_str r); [destruct r|]; eexists; reflexivity.
Qed.

Lemma headings_loop_spec (children : list Token) (max_level : Z)
    (icl lines chars : option Z) :
  forall rest i headings out,
    headings_loop py_str children max_level icl lines chars i rest headings
      = Ok out ->
    exists rs,
      out = (headings ++ rs)%list /\
      map level_and_text rs =
        filter (fun h => fst h <=? max_level)
          (top_level_headings py_str rest) /\
      Forall bare_when_no_content rs.
Proof.
  induction rest as [|token rest IH]; intros i headings out Hloop.
  - simpl in Hloop. inversion Hloop. exists [].
    rewrite app_nil_r. repeat split; constructor.
  - simpl in Hloop.
    destruct (heading_entry py_str children max_level icl lines chars i token)
      as [e|err] eqn:He; [|discriminate].
    cbn [bind] in Hloop. apply heading_entry_spec in He.
    apply IH in Hloop. destruct Hloop as (rs & Hout & Hmap & Hraw).
    destruct token; simpl in He;
      try (subst e; exists rs; repeat split; assumption).
    destruct (level <=? max_level) eqn:El.
    + destruct He as (r & -> & Hl & Ht & Hr).
      exists (r :: rs). split; [|split].
      * rewrite Hout, <- app_assoc. reflexivity.
      * unfold top_level_headings in *.
        cbn [flat_map app map filter fst]. rewrite El, <- Hmap.
        unfold level_and_text at 1. rewrite Hl, Ht. reflexivity.
      * constructor; assumption.
    + subst e. exists rs. split; [assumption|]. split; [|assumption].
      unfold top_level_headings in *.
      cbn [flat_map app filter fst]. rewrite El. exact Hmap.
Qed.

Lemma headings_loop_returns (children : list Token) (max_level : Z)
    (icl lines chars : option Z) :
  truthy_int icl = false \/ (lines = None /\ chars = None) \/
  Forall (fun t => content_readable t = true) children ->
  forall rest i headings,
    (forall k t, nth_error rest k = Some t ->
                 nth_error children (i + k) = Some t) ->
    exists out,
      headings_loop py_str children max_level icl lines chars i rest headings
      = Ok out.
Proof.
  intros Hcond. induction rest as [|token rest IH]; intros i headings Hidx.
  - eexists. reflexivity.
  - simpl.
    destruct (heading_entry_returns children max_level icl lines chars i token)
      as [e He]; [|exact Hcond|].
    { specialize (Hidx 0%nat token eq_refl).
      rewrite Nat.add_0_r in Hidx. exact Hidx. }
    rewrite He. cbn [bind]. apply IH.
    intros k t Hk. specialize (Hidx (S k) t Hk).
    rewrite Nat.add_succ_r in Hidx. exact Hidx.
Qed.

(** When [extract_headings] returns, its records are the top-level
    headings of level [<= max_level], in document order. *)
Lemma extract_headings_spec (document : Document) (max_level : Z)
    (icl lines chars : option Z) (records : list HeadingRecord) :
  extract_headings py_str document max_level icl lines chars = Ok records ->
  map level_and_text records =
    filter (fun h => fst h <=? max_level)
      (top_level_headings py_str (doc_children document)) /\
  Forall bare_when_no_content records.
Proof.
  unfold extract_headings. intros H.
  apply headings_loop_spec in H. destruct H as (rs & Hout & Hmap & Hraw).
  cbn [app] in Hout. subst rs. split; assumption.
Qed.

(** [extract_headings] returns when no content is asked for, or when every
    top-level token can be taken in as content. *)
Lemma extract_headings_returns (document : Document) (max_level : Z)
    (icl lines chars : option Z) :
  truthy_int icl = false \/ (lines = None /\ chars = None) \/
  Forall (fun t => content_readable t = true) (doc_children document) ->
  exists records,
    extract_headings py_str document max_level icl lines chars = Ok records.
Proof.
  intros Hcond. unfold extract_headings.
  apply (headings_loop_returns (doc_children document) max_level icl lines
           chars Hcond (doc_children document) 0%nat []).
  intros k t Hk. exact Hk.
Qed.

(** When one turn of the loop raises, content was asked for with a limit
    given, the error is [TypeError], and it comes from a token whose text
    cannot be extracted. *)
Lemma heading_entry_raise (children : list Token) (max_level : Z)
    (icl lines chars : option Z) (i : nat) (token : Token) (e : PyError) :
  nth_error children i = Some token ->
  heading_entry py_str children max_level icl lines chars i token = Raise e ->
  e = TypeError /\ (lines <> None \/ chars <> None) /\
  exists t, In t children /\ content_readable t = false.
Proof.
  intros Hnth. destruct token; try discriminate.
  unfold heading_entry.
  destruct (level <=? max_level); [|discriminate].
  destruct (truthy_int icl &&
            match icl with Some k => level =? k | None => false end);
    [|discriminate].
  destruct (_get_content_after_heading children i lines chars)
    as [ct|err] eqn:Eg.
  - cbn [bind]. destruct (truthy_str ct); [destruct ct|]; discriminate.
  - cbn [bind]. intros H. inversion H; subst.
    destruct (get_content_raise children i level content children0 lines
                chars e Hnth Eg) as (He & t & Hin & Ht).
    split; [exact He|]. split.
    + destruct lines; [left; discriminate|].
      destruct chars; [right; discriminate|].
      unfold _get_content_after_heading in Eg. discriminate.
    + exists t. split; [|exact Ht].
      rewrite <- (firstn_skipn (S i) children). apply in_or_app. right.
      exact Hin.
Qed.

Lemma headings_loop_raise (children : list Token) (max_level : Z)
    (icl lines chars : option Z) :
  forall rest i headings e,
    (forall k t, nth_error rest k = Some t ->
                 nth_error children (i + k) = Some t) ->
    headings_loop py_str children max_level icl lines chars i rest headings
      = Raise e ->
    e = TypeError /\ (lines <> None \/ chars <> None) /\
    exists t, In t children /\ content_readable t = false.
Proof.
  induction rest as [|token rest IH]; intros i headings e Hidx H.
  - discriminate.
  - simpl in H.
    destruct (heading_entry py_str children max_level icl lines chars i token)
      as [r|err] eqn:He.
    + cbn [bind] in H. refine (IH (S i) _ e _ H).
      intros k t Hk. specialize (Hidx (S k) t Hk).
      rewrite Nat.add_succ_r in Hidx. exact Hidx.
    + cbn [bind] in H. inversion H; subst.
      apply (heading_entry_raise children max_level icl lines chars i token);
        [|exact He].
      specialize (Hidx 0%nat token eq_refl).
      rewrite Nat.add_0_r in Hidx. exact Hidx.
Qed.

(** When [extract_headings] raises, a limit was given, the error is
    [TypeError], and the text of one of the top-level tokens cannot be
    extracted. *)
Lemma extract_headings_raise (document : Document) (max_level : Z)
    (icl lines chars : option Z) (e : PyError) :
  extract_headings py_str document max_level icl lines chars = Raise e ->
  e = TypeError /\ (lines <> None \/ chars <> None) /\
  exists t, In t (doc_children document) /\ content_readable t = false.
Proof.
  unfold extract_headings.
  apply (headings_loop_raise (doc_children document) max_level icl lines
           chars (doc_children document) 0%nat [] e).
  intros k t Hk. exact Hk.
Qed.

End HeadingProperties.

(* ================================================================== *)
(** * Properties of the pattern search *)
(* ================================================================== *)

Lemma firstn_one_skipn {A : Type} (xs : list A) (i : nat) (x : A) :
  nth_error xs i = Some x -> firstn 1 (skipn i xs) = [x].
Proof.
  revert xs. induction i as [|i IH]; intros [|y xs] H; try discriminate.
  - inversion H; subst. reflexivity.
  - simpl. apply IH. exact H.
Qed.

(** Between bounds in range, the slice is the usual one. *)
Lemma py_slice_in_range {A : Type} (xs : list A) (a b : Z) :
  0 <= a <= b -> b <= Z.of_nat (List.length xs) ->
  py_slice xs a b = firstn (Z.to_nat (b - a)) (skipn (Z.to_nat a) xs).
Proof.
  intros Hab Hb. unfold py_slice, py_index_clamp.
  destruct (a <? 0) eqn:Ea; [apply Z.ltb_lt in Ea; lia|].
  destruct (b <? 0) eqn:Eb; [apply Z.ltb_lt in Eb; lia|].
  rewrite !Z.min_r by lia. reflexivity.
Qed.

(** The window without context is the line itself. *)
Lemma py_slice_single_line {A : Type} (xs : list A) (i : nat) (x : A) :
  nth_error xs i = Some x ->
  py_slice xs (Z.max 0 (Z.of_nat i - 0))
    (Z.min (Z.of_nat (List.length xs)) (Z.of_nat i + 1 + 0)) = [x].
Proof.
  intros H.
  assert (Hlt : (i < List.length xs)%nat)
    by (apply nth_error_Some; congruence).
  rewrite py_slice_in_range by lia.
  replace (Z.to_nat _) with 1%nat by lia.
  replace (Z.to_nat _) with i by lia.
  apply firstn_one_skipn. exact H.
Qed.

Lemma find_section_absent (within_section : string) (n_lines : nat) :
  forall rest i,
    (forall line, In line rest ->
       section_pattern_match within_section (PyStr.strip line) = false) ->
    find_section within_section n_lines i rest = None.
Proof.
  induction rest as [|line rest IH]; intros i H; [reflexivity|].
  simpl. rewrite (H line) by (left; reflexivity).
  apply IH. intros l Hl. apply H. right. exact Hl.
Qed.

Lemma outside_section_unresolved (within_section : option string)
    (section_end : option nat) (i : nat) :
  outside_section within_section None section_end i = false.
Proof. unfold outside_section. apply andb_false_r. Qed.

Section SearchProperties.

Variable Regex : Type.
Variable re_compile : string -> bool -> compiled Regex.
Variable re_search : Regex -> string -> option string.

Local Abbreviation match_line := (match_line Regex re_search).
Local Abbreviation scan_lines := (scan_lines Regex re_search).

(** Without a resolved section the scan tests every line. *)
Lemma scan_lines_unresolved (regex : Regex) (lines : list string)
    (lines_before lines_after : Z) (within_section : option string)
    (section_end : option nat) :
  forall rest i matches,
    scan_lines regex lines lines_before lines_after within_section None
      section_end i rest matches =
    (matches ++
     flat_map (fun p =>
                 match match_line regex lines lines_before lines_after
                         (fst p) (snd p) with
                 | Some m => [m]
                 | None => []
                 end) (enumerate i rest))%list.
Proof.
  induction rest as [|line rest IH]; intros i matches.
  - simpl. rewrite app_nil_r. reflexivity.
  - simpl. rewrite outside_section_unresolved, IH.
    unfold enumerate. simpl.
    destruct (match_line regex lines lines_before lines_after i line);
      simpl; rewrite <- ?app_assoc; reflexivity.
Qed.

(** Every record of the scan comes from a line that was tested and
    matched. *)
Lemma scan_lines_origin (regex : Regex) (lines : list string)
    (lines_before lines_after : Z) (within_section : option string)
    (section_start section_end : option nat) (m : SearchMatch) :
  forall rest i matches,
    In m (scan_lines regex lines lines_before lines_after within_section
            section_start section_end i rest matches) ->
    In m matches \/
    exists k line,
      nth_error rest k = Some line /\
      outside_section within_section section_start section_end (i + k)
        = false /\
      match_line regex lines lines_before lines_after (i + k) line = Some m.
Proof.
  induction rest as [|line rest IH]; intros i matches Hin; [left; exact Hin|].
  simpl in Hin. apply IH in Hin. destruct Hin as [Hin|Hin].
  - destruct (outside_section within_section section_start section_end i)
      eqn:Eo; [left; exact Hin|].
    destruct (match_line regex lines lines_before lines_after i line)
      as [m'|] eqn:Em; [|left; exact Hin].
    apply in_app_or in Hin. destruct Hin as [Hin|[Hin|[]]]; [left; exact Hin|].
    subst m'. right. exists 0%nat, line. rewrite Nat.add_0_r. auto.
  - destruct Hin as (k & l & Hk & Ho & Hm).
    right. exists (S k), l. rewrite Nat.add_succ_r. auto.
Qed.

(** The fields of the record made for a matching line. *)
Lemma match_line_fields (regex : Regex) (lines : list string)
    (lines_before lines_after : Z) (i : nat) (line : string)
    (m : SearchMatch) :
  match_line regex lines lines_before lines_after i line = Some m ->
  re_search regex line = Some (sm_match m) /\
  sm_line_number m = Z.of_nat i + 1 /\
  sm_context_lines m =
    py_slice lines (Z.max 0 (Z.of_nat i - lines_before))
      (Z.min (Z.of_nat (List.length lines)) (Z.of_nat i + 1 + lines_after)).
Proof.
  unfold match_line. destruct (re_search regex line) as [g|]; [|discriminate].
  intros H. inversion H; subst. simpl. auto.
Qed.

End SearchProperties.

(* ================================================================== *)
(** * The scenarios of the specification *)
(* ================================================================== *)

(** Scenario 1: the headings of [# Title], [## Sub], [Bold **word** here.]
    up to level 2. *)
Example scenario_headings :
  extract_headings Sample.py_str Sample.titled 2 None None None =
  Ok [ mkHeadingRecord 1 "Title" "# Title" None;
       mkHeadingRecord 2 "Sub" "## Sub" None ].
Proof. reflexivity. Qed.

(** Scenario 2: the bold spans of the same document. *)
Example scenario_bold :
  extract_emphasized Sample.py_str Sample.titled "bold" None =
  [mkEmphasisRecord "bold" "word" (Some "Sub")].
Proof. reflexivity. Qed.

(** Scenario 3: the section [A] of [# A], [x], [## B], [y Term z], [# C]
    is the lines 0 to 3, and [Term] is found on line 4. *)
Example scenario_section :
  section_bounds (Some "A") (PyStr.split_nl Sample.sectioned) =
    (Some 0%nat, Some 4%nat) /\
  Sample.find Sample.sectioned "Term" 0 0 false (Some "A") =
    Ok [mkSearchMatch "Term" 4 "y Term z" ["y Term z"]].
Proof. split; reflexivity. Qed.

(* ================================================================== *)
(** * The statements of the specification *)
(* ================================================================== *)

(** ** Emphasis extractor *)

(** C1, as amended. [extract_emphasized] visits the tokens of the document
    in depth-first pre-order. At the visit of a bold (resp. italic) node a
    record is added if and only if the kind filter is ['all'] or names its
    kind, and [heading_filter] is unset or empty, or its text occurs
    without regard to case in the text of some entry of the heading stack
    at that moment. The record's [heading_context] is the text of the top
    entry of the stack, or [None] when the stack is empty. *)
Theorem emphasis_emission_rule (py_str : Token -> string)
    (document : Document) (type : string) (heading_filter : option string) :
  extract_emphasized py_str document type heading_filter =
    emphasized_items
      (state_after py_str type heading_filter (walk_document document)) /\
  forall (token : Token) (st : WalkState),
    (forall kind, kind_of token = Some kind ->
       heading_stack (visit py_str type heading_filter token st) =
       heading_stack st) /\
    (forall kind,
       kind_of token = Some kind ->
       kind_selected type kind ->
       filter_admits heading_filter (heading_stack st) ->
       emphasized_items (visit py_str type heading_filter token st) =
       (emphasized_items st ++
        [mkEmphasisRecord kind (_extract_text_from_token py_str token)
           (option_map hi_text (stack_top (heading_stack st)))])%list) /\
    (~ (exists kind,
          kind_of token = Some kind /\
          kind_selected type kind /\
          filter_admits heading_filter (heading_stack st)) ->
     emphasized_items (visit py_str type heading_filter token st) =
     emphasized_items st).
Proof.
  split.
  - unfold extract_emphasized. rewrite final_state_walk. reflexivity.
  - intros token st. apply visit_emits.
Qed.

(** A bold node under the open sections [Intro] and [Details], with the
    filter [intro]: the record is added and names [Details]. *)
Lemma emphasis_emission_rule_witness :
  kind_of (Strong [RawText "x"]) = Some "bold" /\
  kind_selected "bold" "bold" /\
  filter_admits (Some "intro") Sample.open_sections /\
  emphasized_items
    (visit Sample.py_str "bold" (Some "intro") (Strong [RawText "x"])
       (mkWalkState Sample.open_sections [])) =
  [mkEmphasisRecord "bold" "x" (Some "Details")].
Proof.
  assert (Hk : kind_of (Strong [RawText "x"]) = Some "bold") by reflexivity.
  assert (Hs : kind_selected "bold" "bold") by (right; reflexivity).
  assert (Hf : filter_admits (Some "intro") Sample.open_sections).
  { right. exists (mkHeadingInfo 1 "Intro"). split.
    - left. reflexivity.
    - vm_compute. reflexivity. }
  split; [exact Hk|]. split; [exact Hs|]. split; [exact Hf|].
  exact (proj1 (proj2 (proj2
           (emphasis_emission_rule Sample.py_str Sample.bold_only "bold"
              (Some "intro"))
           (Strong [RawText "x"]) (mkWalkState Sample.open_sections [])))
         "bold" Hk Hs Hf).
Defined.

(** C1, as stated, fails for an empty filter text. In the run on the
    document [**x**] the bold node is visited in the state reached after
    the paragraph, where the heading stack is empty. The filter [""] is set
    and occurs in no entry of that stack, yet the visit adds a record, and
    the run returns it. *)
Lemma emphasis_empty_filter_counterexample :
  walk_document Sample.bold_only =
    [Paragraph [Strong [RawText "x"]]; Strong [RawText "x"]; RawText "x"] /\
  state_after Sample.py_str "all" (Some "")
    [Paragraph [Strong [RawText "x"]]] = mkWalkState [] [] /\
  ~ filter_admits_as_specified (Some "") [] /\
  emphasized_items
    (visit Sample.py_str "all" (Some "") (Strong [RawText "x"])
       (mkWalkState [] [])) = [mkEmphasisRecord "bold" "x" None] /\
  extract_emphasized Sample.py_str Sample.bold_only "all" (Some "") =
    [mkEmphasisRecord "bold" "x" None].
Proof.
  split; [reflexivity|]. split; [reflexivity|]. split; [|split].
  - intros (entry & Hin & _). exact Hin.
  - reflexivity.
  - reflexivity.
Qed.

(** C3. The heading step keeps the levels of the stack strictly increasing
    from bottom to top; on such a stack it removes all entries whose level
    is [>=] the level of the new heading and then pushes the new entry; and
    at every point of every run of [extract_emphasized] the levels are
    strictly increasing. *)
Theorem heading_stack_levels_increasing (py_str : Token -> string) :
  (forall token stack,
     levels_increasing stack ->
     levels_increasing (enter_heading py_str token stack)) /\
  (forall lvl c cs stack,
     levels_increasing stack ->
     levels_increasing (pop_closed lvl stack) /\
     enter_heading py_str (Heading lvl c cs) stack =
     (filter (fun e => negb (hi_level e >=? lvl)) stack ++
      [mkHeadingInfo lvl
         (_extract_text_from_token py_str (Heading lvl c cs))])%list) /\
  (forall document type heading_filter,
     final_state py_str document type heading_filter =
       state_after py_str type heading_filter (walk_document document) /\
     forall visited rest,
       walk_document document = (visited ++ rest)%list ->
       levels_increasing
         (heading_stack (state_after py_str type heading_filter visited))).
Proof.
  split; [|split].
  - intros token stack. apply enter_heading_increasing.
  - intros lvl c cs stack Hinc.
    assert (Hf : forall l : list HeadingInfo,
               filter (fun e => negb (hi_level e >=? lvl)) l =
               filter (fun e => hi_level e <? lvl) l).
    { intros l. apply filter_ext. intros e.
      rewrite Z.geb_leb, Z.ltb_antisym. reflexivity. }
    split.
    + rewrite pop_closed_filter by exact Hinc.
      apply levels_increasing_filter. exact Hinc.
    + simpl. rewrite pop_closed_filter by exact Hinc. rewrite Hf.
      reflexivity.
  - intros document type heading_filter. split.
    + apply final_state_walk.
    + intros visited rest _. apply state_after_increasing.
Qed.

(** The stack [Intro (1), Details (2)] meets a heading of level 2. *)
Lemma heading_stack_levels_increasing_witness :
  levels_increasing Sample.open_sections /\
  levels_increasing
    (enter_heading Sample.py_str (Heading 2 "" [RawText "More"])
       Sample.open_sections).
Proof.
  assert (H : levels_increasing Sample.open_sections).
  { unfold levels_increasing. simpl.
    repeat constructor. }
  split; [exact H|].
  exact (proj1 (heading_stack_levels_increasing Sample.py_str)
           (Heading 2 "" [RawText "More"]) Sample.open_sections H).
Defined.

(** C10. With a [type] other than ['all'], ['bold'] and ['italic'],
    [extract_emphasized] returns the empty list, for every document and
    every [heading_filter]; being a total function to lists, it raises
    nothing. *)
Theorem unknown_type_extracts_nothing (py_str : Token -> string)
    (document : Document) (type : string) (heading_filter : option string) :
  type <> "all" -> type <> "bold" -> type <> "italic" ->
  extract_emphasized py_str document type heading_filter = [].
Proof.
  intros Hall Hbold Hitalic.
  unfold extract_emphasized. rewrite final_state_walk.
  induction (walk_document document) as [|token visited IH] using rev_ind.
  - reflexivity.
  - rewrite state_after_snoc, visit_unknown_type by assumption. exact IH.
Qed.

Lemma unknown_type_extracts_nothing_witness :
  "underline" <> "all" /\ "underline" <> "bold" /\ "underline" <> "italic" /\
  extract_emphasized Sample.py_str Sample.titled "underline" None = [].
Proof.
  assert (H1 : "underline" <> "all") by discriminate.
  assert (H2 : "underline" <> "bold") by discriminate.
  assert (H3 : "underline" <> "italic") by discriminate.
  split; [exact H1|]. split; [exact H2|]. split; [exact H3|].
  exact (unknown_type_extracts_nothing Sample.py_str Sample.titled
           "underline" None H1 H2 H3).
Defined.

(** ** Heading extractor *)

(** C7. Whenever [extract_headings] with [max_level = L] returns, every
    record has a level [<= L]; the records are, one for one and in the same
    order, the headings among the top-level children whose level is
    [<= L]; and a record without attached content has as [raw] the
    character [#] repeated [level] times, a space, and the heading text.
    The call returns when no content is asked for, as in
    [extract_headings(doc, max_level=L)], and when the text of every
    top-level block that could give content can be extracted. *)
Theorem headings_filtered_in_document_order (py_str : Token -> string)
    (document : Document) (L : Z)
    (include_content_for_level include_content_lines
       include_content_chars : option Z) :
  (forall records,
     extract_headings py_str document L include_content_for_level
       include_content_lines include_content_chars = Ok records ->
     Forall (fun r => hr_level r <= L) records /\
     map level_and_text records =
       filter (fun h => fst h <=? L)
         (top_level_headings py_str (doc_children document)) /\
     Forall (fun r =>
               hr_content r = None ->
               hr_raw r = PyStr.times "#" (hr_level r) ++ " " ++ hr_text r)
       records) /\
  (truthy_int include_content_for_level = false \/
   (include_content_lines = None /\ include_content_chars = None) \/
   Forall (fun t => content_readable t = true) (doc_children document) ->
   exists records,
     extract_headings py_str document L include_content_for_level
       include_content_lines include_content_chars = Ok records).
Proof.
  split.
  - intros records Hok.
    destruct (extract_headings_spec py_str document L _ _ _ records Hok)
      as (Hmap & Hraw).
    split; [|split].
    + apply Forall_forall. intros r Hr.
      assert (Hin : In (level_and_text r) (map level_and_text records))
        by (apply in_map; exact Hr).
      rewrite Hmap in Hin. apply filter_In in Hin. destruct Hin as [_ Hle].
      apply Z.leb_le in Hle. exact Hle.
    + exact Hmap.
    + exact Hraw.
  - apply extract_headings_returns.
Qed.

(** The headings of [# Title], [## Sub], [Bold **word** here.] up to
    level 1, with content asked for level 1. *)
Lemma headings_filtered_in_document_order_witness :
  extract_headings Sample.py_str Sample.titled 1 (Some 1) (Some 5) None =
    Ok [mkHeadingRecord 1 "Title"
          ("# Title" ++ PyStr.nl ++ "Sub" ++ PyStr.nl ++ "Bold word here.")
          (Some ("Sub" ++ PyStr.nl ++ "Bold word here."))] /\
  Forall (fun r => hr_level r <= 1)
    [mkHeadingRecord 1 "Title"
       ("# Title" ++ PyStr.nl ++ "Sub" ++ PyStr.nl ++ "Bold word here.")
       (Some ("Sub" ++ PyStr.nl ++ "Bold word here."))].
Proof.
  assert (H : extract_headings Sample.py_str Sample.titled 1 (Some 1)
                (Some 5) None =
              Ok [mkHeadingRecord 1 "Title"
                    ("# Title" ++ PyStr.nl ++ "Sub" ++ PyStr.nl
                     ++ "Bold word here.")
                    (Some ("Sub" ++ PyStr.nl ++ "Bold word here."))])
    by reflexivity.
  split; [exact H|].
  exact (proj1 (proj1 (headings_filtered_in_document_order Sample.py_str
                         Sample.titled 1 (Some 1) (Some 5) None) _ H)).
Defined.

(** C8. For [1 <= L < 6], whenever [extract_headings] returns with
    [max_level = 6] and with [max_level = L], whatever the content options
    of the two calls, the first result has at least as many records as the
    second; and both calls return when no content is asked for, as in
    [extract_headings(doc, max_level=6)] and
    [extract_headings(doc, max_level=L)], and when the text of every
    top-level block that could give content can be extracted. *)
Theorem heading_count_monotone (py_str : Token -> string)
    (document : Document) (L : Z) (icl lines chars icl' lines' chars' : option Z) :
  1 <= L < 6 ->
  (forall records6 recordsL,
     extract_headings py_str document 6 icl lines chars = Ok records6 ->
     extract_headings py_str document L icl' lines' chars' = Ok recordsL ->
     (List.length recordsL <= List.length records6)%nat) /\
  ((truthy_int icl = false \/ (lines = None /\ chars = None) \/
    Forall (fun t => content_readable t = true) (doc_children document)) ->
   (truthy_int icl' = false \/ (lines' = None /\ chars' = None) \/
    Forall (fun t => content_readable t = true) (doc_children document)) ->
   exists records6 recordsL,
     extract_headings py_str document 6 icl lines chars = Ok records6 /\
     extract_headings py_str document L icl' lines' chars' = Ok recordsL /\
     (List.length recordsL <= List.length records6)%nat).
Proof.
  intros HL.
  assert (Hlen : forall records6 recordsL,
            extract_headings py_str document 6 icl lines chars = Ok records6 ->
            extract_headings py_str document L icl' lines' chars'
              = Ok recordsL ->
            (List.length recordsL <= List.length records6)%nat).
  { intros r6 rL Hok6 HokL.
    destruct (extract_headings_spec py_str document 6 _ _ _ r6 Hok6)
      as (Hmap6 & _).
    destruct (extract_headings_spec py_str document L _ _ _ rL HokL)
      as (HmapL & _).
    rewrite <- (length_map level_and_text rL).
    rewrite <- (length_map level_and_text r6).
    rewrite Hmap6, HmapL.
    apply filter_length_mono. intros h Hh.
    apply Z.leb_le in Hh. apply Z.leb_le. lia. }
  split; [exact Hlen|].
  intros Hc Hc'.
  destruct (extract_headings_returns py_str document 6 icl lines chars Hc)
    as [r6 Hok6].
  destruct (extract_headings_returns py_str document L icl' lines' chars' Hc')
    as [rL HokL].
  exists r6, rL. split; [exact Hok6|]. split; [exact HokL|].
  exact (Hlen r6 rL Hok6 HokL).
Qed.

Lemma heading_count_monotone_witness :
  1 <= 1 < 6 /\
  extract_headings Sample.py_str Sample.titled 6 None None None =
    Ok [ mkHeadingRecord 1 "Title" "# Title" None;
         mkHeadingRecord 2 "Sub" "## Sub" None ] /\
  extract_headings Sample.py_str Sample.titled 1 (Some 1) (Some 1) None =
    Ok [mkHeadingRecord 1 "Title" ("# Title" ++ PyStr.nl ++ "Sub")
          (Some "Sub")] /\
  (1 <= 2)%nat.
Proof.
  assert (H : 1 <= 1 < 6) by lia.
  assert (H6 : extract_headings Sample.py_str Sample.titled 6 None None None =
               Ok [ mkHeadingRecord 1 "Title" "# Title" None;
                    mkHeadingRecord 2 "Sub" "## Sub" None ]) by reflexivity.
  assert (H1 : extract_headings Sample.py_str Sample.titled 1 (Some 1)
                 (Some 1) None =
               Ok [mkHeadingRecord 1 "Title" ("# Title" ++ PyStr.nl ++ "Sub")
                     (Some "Sub")]) by reflexivity.
  split; [exact H|]. split; [exact H6|]. split; [exact H1|].
  exact (proj1 (heading_count_monotone Sample.py_str Sample.titled 1
                  None None None (Some 1) (Some 1) None H) _ _ H6 H1).
Defined.

(** C2, at the input where the code departs from it. For [# A], [## B],
    [p] with content for level 1, the look-ahead loop after [A] collects
    the text of the deeper heading [B] as well as the paragraph, and the
    content attached to [A] holds both, where the statement collects the
    text of non-heading tokens only. *)
Lemma deeper_heading_text_is_collected :
  scan_after (doc_children Sample.nested) 0
    [Heading 2 "" [RawText "B"]; Paragraph [RawText "p"]] None [] =
    Ok ["B"; "p"] /\
  specified_parts Sample.py_str 1
    [Heading 2 "" [RawText "B"]; Paragraph [RawText "p"]] = ["p"] /\
  extract_headings Sample.py_str Sample.nested 1 (Some 1) (Some 10) None =
    Ok [mkHeadingRecord 1 "A"
          ("# A" ++ PyStr.nl ++ "B" ++ PyStr.nl ++ "p")
          (Some ("B" ++ PyStr.nl ++ "p"))].
Proof. repeat split. Qed.

(** ** Pattern search *)

(** C4. When the pattern does not compile, [find_and_extract] raises the
    error whose message holds the pattern and the message of the regex
    compiler; it returns no list, whatever the text, the context sizes and
    the section. *)
Theorem invalid_pattern_raises (Regex : Type)
    (re_compile : string -> bool -> compiled Regex)
    (re_search : Regex -> string -> option string)
    (content pattern : string) (lines_before lines_after : Z)
    (case_sensitive : bool) (within_section : option string) (e : string) :
  re_compile pattern (negb case_sensitive) = ReError e ->
  find_and_extract Regex re_compile re_search content pattern lines_before
    lines_after case_sensitive within_section =
    Raise (ValueError ("Invalid regex pattern: " ++ pattern ++ ". Error: " ++ e))
  /\
  forall matches,
    find_and_extract Regex re_compile re_search content pattern lines_before
      lines_after case_sensitive within_section <> Ok matches.
Proof.
  intros He. unfold find_and_extract. rewrite He.
  split; [reflexivity | discriminate].
Qed.

Lemma invalid_pattern_raises_witness :
  LiteralEngine.compile "[invalid(regex" (negb false) =
    ReError "unterminated character set at position 0" /\
  Sample.find Sample.sectioned "[invalid(regex" 1 1 false (Some "A") =
    Raise (ValueError
             "Invalid regex pattern: [invalid(regex. Error: unterminated character set at position 0").
Proof.
  assert (H : LiteralEngine.compile "[invalid(regex" (negb false) =
              ReError "unterminated character set at position 0")
    by reflexivity.
  split; [exact H|].
  exact (proj1 (invalid_pattern_raises LiteralEngine.Regex
                  LiteralEngine.compile LiteralEngine.search Sample.sectioned
                  "[invalid(regex" 1 1 false (Some "A") _ H)).
Defined.

(** C5. When the pattern compiles, [within_section] is given and no line of
    the text matches the section heading pattern, [find_and_extract]
    returns, and what it returns is what the same call without
    [within_section] returns: the records of a search over every line of
    the document. *)
Theorem section_not_found_searches_whole_document (Regex : Type)
    (re_compile : string -> bool -> compiled Regex)
    (re_search : Regex -> string -> option string)
    (content pattern : string) (lines_before lines_after : Z)
    (case_sensitive : bool) (section : string) (regex : Regex) :
  re_compile pattern (negb case_sensitive) = Compiled regex ->
  (forall line, In line (PyStr.split_nl content) ->
     section_pattern_match section (PyStr.strip line) = false) ->
  find_and_extract Regex re_compile re_search content pattern lines_before
    lines_after case_sensitive (Some section) =
  find_and_extract Regex re_compile re_search content pattern lines_before
    lines_after case_sensitive None
  /\
  find_and_extract Regex re_compile re_search content pattern lines_before
    lines_after case_sensitive (Some section) =
  Ok (whole_document_matches re_search regex (PyStr.split_nl content)
        lines_before lines_after).
Proof.
  intros Hc Hnone.
  assert (Hb : section_bounds (Some section) (PyStr.split_nl content)
               = (None, None)).
  { unfold section_bounds. destruct (PyStr.truthy section); [|reflexivity].
    rewrite find_section_absent by exact Hnone. reflexivity. }
  unfold find_and_extract. rewrite Hc, Hb. simpl.
  rewrite !scan_lines_unresolved. split; reflexivity.
Qed.

(** The text of [Sample.sectioned] has no heading [Z]. *)
Lemma section_not_found_searches_whole_document_witness :
  LiteralEngine.compile "Term" (negb true) = Compiled (false, "Term") /\
  (forall line, In line (PyStr.split_nl Sample.sectioned) ->
     section_pattern_match "Z" (PyStr.strip line) = false) /\
  Sample.find Sample.sectioned "Term" 0 0 true (Some "Z") =
  Sample.find Sample.sectioned "Term" 0 0 true None.
Proof.
  assert (Hc : LiteralEngine.compile "Term" (negb true)
               = Compiled (false, "Term")) by reflexivity.
  assert (Hn : forall line, In line (PyStr.split_nl Sample.sectioned) ->
                 section_pattern_match "Z" (PyStr.strip line) = false).
  { intros line Hin. vm_compute in Hin.
    repeat (destruct Hin as [<-|Hin]; [reflexivity|]). destruct Hin. }
  split; [exact Hc|]. split; [exact Hn|].
  exact (proj1 (section_not_found_searches_whole_document
                  LiteralEngine.Regex LiteralEngine.compile
                  LiteralEngine.search Sample.sectioned "Term" 0 0 true "Z"
                  (false, "Term") Hc Hn)).
Defined.

(** C6. Every record that [find_and_extract] returns comes from a line of
    the text, at some 0-based index [i], that the compiled pattern matches.
    Its [line_number] is [i + 1]; its [context_lines] are the slice
    [lines[max(0, i - lines_before) : min(N, i + 1 + lines_after)]] of the
    [N] lines; its [match] is what the search finds in the line; and with
    [lines_before = 0] and [lines_after = 0] the [context_lines] are the
    matched line alone. *)
Theorem match_record_fields (Regex : Type)
    (re_compile : string -> bool -> compiled Regex)
    (re_search : Regex -> string -> option string)
    (content pattern : string) (lines_before lines_after : Z)
    (case_sensitive : bool) (within_section : option string)
    (matches : list SearchMatch) (m : SearchMatch) :
  find_and_extract Regex re_compile re_search content pattern lines_before
    lines_after case_sensitive within_section = Ok matches ->
  In m matches ->
  let lines := PyStr.split_nl content in
  let N := Z.of_nat (List.length lines) in
  exists (regex : Regex) (i : nat) (line : string),
    re_compile pattern (negb case_sensitive) = Compiled regex /\
    nth_error lines i = Some line /\
    re_search regex line = Some (sm_match m) /\
    sm_line_number m = Z.of_nat i + 1 /\
    sm_context_lines m =
      py_slice lines (Z.max 0 (Z.of_nat i - lines_before))
        (Z.min N (Z.of_nat i + 1 + lines_after)) /\
    (lines_before = 0 -> lines_after = 0 -> sm_context_lines m = [line]).
Proof.
  intros Hfind Hin lines N. unfold find_and_extract in Hfind.
  destruct (re_compile pattern (negb case_sensitive)) as [regex|e] eqn:Hc;
    [|discriminate].
  inversion Hfind as [Hscan]. clear Hfind. rewrite <- Hscan in Hin.
  apply scan_lines_origin in Hin.
  destruct Hin as [[]|(k & line & Hk & _ & Hm)].
  simpl in Hm. apply match_line_fields in Hm.
  destruct Hm as (Hs & Hn & Hcl).
  exists regex, k, line.
  split; [reflexivity|]. split; [exact Hk|]. split; [exact Hs|].
  split; [exact Hn|]. split; [exact Hcl|].
  intros Hb Ha. rewrite Hcl, Hb, Ha.
  apply py_slice_single_line. exact Hk.
Qed.

(** The search for [Term] in the section [A] of [Sample.sectioned]. *)
Lemma match_record_fields_witness :
  Sample.find Sample.sectioned "Term" 0 0 false (Some "A") =
    Ok [mkSearchMatch "Term" 4 "y Term z" ["y Term z"]] /\
  In (mkSearchMatch "Term" 4 "y Term z" ["y Term z"])
    [mkSearchMatch "Term" 4 "y Term z" ["y Term z"]] /\
  exists (regex : LiteralEngine.Regex) (i : nat) (line : string),
    LiteralEngine.compile "Term" (negb false) = Compiled regex /\
    nth_error (PyStr.split_nl Sample.sectioned) i = Some line /\
    LiteralEngine.search regex line = Some "Term" /\
    4 = Z.of_nat i + 1 /\
    ["y Term z"] =
      py_slice (PyStr.split_nl Sample.sectioned) (Z.max 0 (Z.of_nat i - 0))
        (Z.min (Z.of_nat (List.length (PyStr.split_nl Sample.sectioned)))
           (Z.of_nat i + 1 + 0)) /\
    (0 = 0 -> 0 = 0 -> ["y Term z"] = [line]).
Proof.
  assert (Hf : Sample.find Sample.sectioned "Term" 0 0 false (Some "A") =
               Ok [mkSearchMatch "Term" 4 "y Term z" ["y Term z"]])
    by reflexivity.
  assert (Hi : In (mkSearchMatch "Term" 4 "y Term z" ["y Term z"])
                 [mkSearchMatch "Term" 4 "y Term z" ["y Term z"]])
    by (left; reflexivity).
  split; [exact Hf|]. split; [exact Hi|].
  exact (match_record_fields LiteralEngine.Regex LiteralEngine.compile
           LiteralEngine.search Sample.sectioned "Term" 0 0 false (Some "A")
           _ _ Hf Hi).
Defined.

(** ** JSON output *)

(** C9. [format_json_output] serialises an object with the keys
    [operation], [file], [parameters], [results], [count], [status] in
    that order. Its [results] is the array of the results in the order
    given, its [count] their number, its [status] ["success"] for a
    non-empty list and ["no_matches"] for the empty one; for no results,
    [status] is ["no_matches"], [count] is [0] and [results] is empty. *)
Theorem json_output_fields (json_dumps : Json -> Z -> bool -> string)
    (operation file_path : string) (parameters : Json) :
  (forall results,
     let output := json_output results operation file_path parameters in
     format_json_output json_dumps results operation file_path parameters =
       json_dumps (JObj output) 2 false /\
     map fst output =
       ["operation"; "file"; "parameters"; "results"; "count"; "status"] /\
     json_get "results" output = Some (JArr results) /\
     json_get "count" output =
       Some (JInt (Z.of_nat (List.length results)))) /\
  (forall r results,
     json_get "status"
       (json_output (r :: results) operation file_path parameters) =
     Some (JStr "success")) /\
  (let output := json_output [] operation file_path parameters in
   json_get "status" output = Some (JStr "no_matches") /\
   json_get "count" output = Some (JInt 0) /\
   json_get "results" output = Some (JArr [])).
Proof.
  split; [|split].
  - intros results. repeat split.
  - intros r results. reflexivity.
  - repeat split.
Qed.

(* ================================================================== *)
(** * Further properties: strings *)
(* ================================================================== *)

Lemma no_newline_app (a b : string) :
  no_newline (a ++ b) = no_newline a && no_newline b.
Proof.
  induction a as [|c a IH]; simpl; [reflexivity|].
  rewrite IH, andb_assoc. reflexivity.
Qed.

Lemma string_app_assoc (a b c : string) : ((a ++ b) ++ c = a ++ (b ++ c))%string.
Proof. induction a as [|x a IH]; simpl; [reflexivity | rewrite IH; reflexivity]. Qed.

Lemma string_app_nil_r (a : string) : (a ++ "" = a)%string.
Proof. induction a as [|x a IH]; simpl; [reflexivity | rewrite IH; reflexivity]. Qed.

(** Reading a piece without line feed moves it into the accumulator. *)
Lemma split_nl_aux_piece (p s cur : string) :
  no_newline p = true ->
  PyStr.split_nl_aux (p ++ s) cur = PyStr.split_nl_aux s (cur ++ p).
Proof.
  revert cur. induction p as [|c p IH]; intros cur Hp; simpl.
  - rewrite string_app_nil_r. reflexivity.
  - simpl in Hp. apply andb_true_iff in Hp. destruct Hp as [Hc Hp].
    apply negb_true_iff in Hc. rewrite Hc, IH by exact Hp.
    rewrite string_app_assoc. reflexivity.
Qed.

Lemma split_nl_aux_newline (s cur : string) :
  PyStr.split_nl_aux (String "010"%char s) cur
  = cur :: PyStr.split_nl_aux s "".
Proof. reflexivity. Qed.

(** The pieces of a split hold no line feed. *)
Lemma split_nl_aux_pieces (s cur : string) :
  no_newline cur = true ->
  Forall (fun p => no_newline p = true) (PyStr.split_nl_aux s cur).
Proof.
  revert cur. induction s as [|c s IH]; intros cur Hcur; simpl.
  - constructor; [exact Hcur | constructor].
  - destruct (PyStr.is_newline c) eqn:Ec.
    + constructor; [exact Hcur | apply IH; reflexivity].
    + apply IH. rewrite no_newline_app, Hcur. simpl. rewrite Ec. reflexivity.
Qed.

Lemma split_nl_not_empty (s : string) : PyStr.split_nl s <> [].
Proof.
  unfold PyStr.split_nl. generalize EmptyString.
  induction s as [|c s IH]; intros cur; simpl; [discriminate|].
  destruct (PyStr.is_newline c); [discriminate | apply IH].
Qed.

(** Joining pieces without line feed and splitting again gives the pieces
    back. *)
Lemma split_nl_join (parts : list string) :
  parts <> [] ->
  Forall (fun p => no_newline p = true) parts ->
  PyStr.split_nl (PyStr.join PyStr.nl parts) = parts.
Proof.
  intros Hne Hall. unfold PyStr.split_nl.
  assert (H : forall cur,
            PyStr.split_nl_aux (PyStr.join PyStr.nl parts) cur =
            match parts with
            | [] => [cur]
            | p :: ps => (cur ++ p)%string :: ps
            end).
  { clear Hne. induction Hall as [|p ps Hp Hps IH]; intros cur.
    - reflexivity.
    - destruct ps as [|q ps].
      + simpl. rewrite <- (string_app_nil_r p) at 1.
        rewrite split_nl_aux_piece by exact Hp. reflexivity.
      + change (PyStr.join PyStr.nl (p :: q :: ps))
          with (p ++ (PyStr.nl ++ PyStr.join PyStr.nl (q :: ps)))%string.
        rewrite split_nl_aux_piece by exact Hp.
        change (PyStr.nl ++ PyStr.join PyStr.nl (q :: ps))%string
          with (String "010"%char (PyStr.join PyStr.nl (q :: ps))).
        rewrite split_nl_aux_newline, (IH ""%string). reflexivity. }
  rewrite H. destruct parts; [contradiction | reflexivity].
Qed.

Lemma firstn_member {A : Type} (n : nat) (l : list A) (x : A) :
  In x (firstn n l) -> In x l.
Proof.
  revert l. induction n as [|n IH]; intros [|y l] H; simpl in *; try tauto.
  destruct H as [H|H]; [left; exact H | right; apply IH; exact H].
Qed.

Lemma take_length (n : nat) (s : string) :
  (String.length (PyStr.take n s) <= n)%nat.
Proof.
  revert s. induction n as [|n IH]; intros [|c s]; simpl; try lia.
  specialize (IH s). lia.
Qed.

Lemma positive_spec (o : option Z) (n : Z) :
  positive o = Some n <-> o = Some n /\ 0 < n.
Proof.
  unfold positive. destruct o as [m|]; [|split; [discriminate | intros [H _]; discriminate]].
  destruct (0 <? m) eqn:E.
  - apply Z.ltb_lt in E. split.
    + intros H. inversion H; subst. auto.
    + intros [H _]. exact H.
  - apply Z.ltb_ge in E. split; [discriminate|].
    intros [H Hn]. inversion H; subst. lia.
Qed.

(** What the limits let through has at most the number of lines, or of
    characters, asked for. *)
Lemma apply_limits_bounds (full c : string) (lines chars : option Z) :
  apply_limits full lines chars = Some c ->
  (forall n, positive lines = Some n ->
     Z.of_nat (List.length (PyStr.split_nl c)) <= n) /\
  (positive lines = None ->
   forall k, positive chars = Some k -> Z.of_nat (String.length c) <= k).
Proof.
  unfold apply_limits. intros H. split.
  - intros n Hn. rewrite Hn in H. inversion H; subst. clear H.
    apply positive_spec in Hn. destruct Hn as [_ Hn].
    rewrite split_nl_join.
    + rewrite length_firstn. lia.
    + destruct (Z.to_nat n) eqn:En; [lia|].
      destruct (PyStr.split_nl full) eqn:Es; [|discriminate].
      exfalso. exact (split_nl_not_empty full Es).
    + apply Forall_forall. intros p Hp. apply firstn_member in Hp.
      revert p Hp. apply Forall_forall.
      apply split_nl_aux_pieces. reflexivity.
  - intros Hl k Hk. rewrite Hl, Hk in H. inversion H; subst.
    apply positive_spec in Hk. destruct Hk as [_ Hk].
    pose proof (take_length (Z.to_nat k) full). lia.
Qed.

(* ================================================================== *)
(** * Further properties of the heading extractor *)
(* ================================================================== *)

Section MoreHeadingProperties.

Variable py_str : Token -> string.

(** What a returned entry looks like: without content it carries the bare
    line; with content, the content came from [_get_content_after_heading]
    at this index, is not empty, and follows the bare line. *)
Lemma heading_entry_inv (children : list Token) (max_level : Z)
    (icl lines chars : option Z) (i : nat) (token : Token)
    (r : HeadingRecord) :
  heading_entry py_str children max_level icl lines chars i token
    = Ok (Some r) ->
  exists lvl c0 cs,
    token = Heading lvl c0 cs /\ lvl <= max_level /\
    hr_level r = lvl /\ hr_text r = heading_text_of py_str cs /\
    ((hr_content r = None /\
      hr_raw r = bare_heading_line lvl (hr_text r)) \/
     (exists c,
        hr_content r = Some c /\ c <> "" /\
        icl = Some lvl /\ lvl <> 0 /\
        _get_content_after_heading children i lines chars
          = Ok (Some c) /\
        hr_raw r = bare_heading_line lvl (hr_text r) ++ PyStr.nl ++ c)).
Proof.
  destruct token; try discriminate. unfold heading_entry.
  destruct (level <=? max_level) eqn:El; [|discriminate].
  apply Z.leb_le in El. intros H.
  exists level, content, children0. split; [reflexivity|]. split; [exact El|].
  destruct (truthy_int icl &&
            match icl with Some k => level =? k | None => false end) eqn:Ei.
  - apply andb_true_iff in Ei. destruct Ei as [Ht Hk].
    destruct icl as [k|]; [|discriminate].
    apply Z.eqb_eq in Hk. subst k. simpl in Ht. apply negb_true_iff in Ht.
    apply Z.eqb_neq in Ht.
    destruct (_get_content_after_heading children i lines chars)
      as [ct|e] eqn:Hc; [|discriminate].
    simpl in H. destruct ct as [ct|]; simpl in H.
    + destruct (PyStr.truthy ct) eqn:Etr; inversion H; subst; simpl.
      * split; [reflexivity|]. split; [reflexivity|]. right.
        exists ct. repeat split; auto.
        intros ->. discriminate.
      * split; [reflexivity|]. split; [reflexivity|]. left. auto.
    + inversion H; subst; simpl. repeat split. left. auto.
  - inversion H; subst; simpl. repeat split. left. auto.
Qed.

(** A property that every appended entry has holds of the whole result. *)
Lemma headings_loop_Forall (P : HeadingRecord -> Prop)
    (children : list Token) (max_level : Z) (icl lines chars : option Z) :
  (forall i token r,
     heading_entry py_str children max_level icl lines chars i token
       = Ok (Some r) -> P r) ->
  forall rest i headings out,
    headings_loop py_str children max_level icl lines chars i rest headings
      = Ok out ->
    Forall P headings -> Forall P out.
Proof.
  intros Hentry. induction rest as [|token rest IH];
    intros i headings out Hloop Hacc; simpl in Hloop.
  - inversion Hloop; subst. exact Hacc.
  - destruct (heading_entry py_str children max_level icl lines chars i token)
      as [e|err] eqn:He; [|discriminate].
    simpl in Hloop. apply IH in Hloop; [exact Hloop|].
    destruct e as [r|]; [|exact Hacc].
    apply Forall_app. split; [exact Hacc|].
    constructor; [|constructor]. exact (Hentry i token r He).
Qed.

Lemma extract_headings_Forall (P : HeadingRecord -> Prop)
    (document : Document) (max_level : Z) (icl lines chars : option Z)
    (records : list HeadingRecord) :
  (forall i token r,
     heading_entry py_str (doc_children document) max_level icl lines chars
       i token = Ok (Some r) -> P r) ->
  extract_headings py_str document max_level icl lines chars = Ok records ->
  Forall P records.
Proof.
  intros Hentry Hex. unfold extract_headings in Hex.
  apply (headings_loop_Forall P _ _ _ _ _ Hentry _ _ _ _ Hex). constructor.
Qed.

(** When [_get_content_after_heading] gives content, it is what the limits
    let through of some joined text, and a limit is positive. *)
Lemma get_content_inv (children : list Token) (heading_index : nat)
    (lines chars : option Z) (c : string) :
  _get_content_after_heading children heading_index lines chars
    = Ok (Some c) ->
  exists full, apply_limits full lines chars = Some c.
Proof.
  unfold _get_content_after_heading. intros H.
  destruct (scan_after children heading_index
              (skipn (S heading_index) children) None []) as [parts|e] eqn:Es.
  - destruct lines, chars; try discriminate; cbn [bind] in H;
      (destruct parts as [|p ps]; [discriminate|]);
      exists (PyStr.join PyStr.nl (p :: ps)); congruence.
  - destruct lines, chars; discriminate.
Qed.

End MoreHeadingProperties.

(** X1. A record of [extract_headings] carries content only if its level is
    the level given as [include_content_for_level]; the content is then
    not empty and [raw] is the bare heading line, a line feed, and the
    content. *)
Theorem content_only_at_include_level (py_str : Token -> string)
    (document : Document) (max_level : Z) (icl lines chars : option Z)
    (records : list HeadingRecord) (r : HeadingRecord) (c : string) :
  extract_headings py_str document max_level icl lines chars = Ok records ->
  In r records ->
  hr_content r = Some c ->
  icl = Some (hr_level r) /\
  c <> "" /\
  hr_raw r = bare_heading_line (hr_level r) (hr_text r) ++ PyStr.nl ++ c.
Proof.
  intros Hex Hin Hc.
  assert (HF : Forall (fun r => forall c, hr_content r = Some c ->
                         icl = Some (hr_level r) /\ c <> "" /\
                         hr_raw r = bare_heading_line (hr_level r) (hr_text r)
                                      ++ PyStr.nl ++ c) records).
  { apply (extract_headings_Forall py_str _ document max_level icl lines chars);
      [|exact Hex].
    intros i token r0 He c0 Hc0.
    apply heading_entry_inv in He.
    destruct He as (lvl & c1 & cs & _ & _ & Hl & _ & [[Hn _]|Hsome]).
    - congruence.
    - destruct Hsome as (c2 & Hc2 & Hne & Hicl & _ & _ & Hraw).
      assert (c2 = c0) by congruence. subst c2. rewrite Hl. auto. }
  rewrite Forall_forall in HF. exact (HF r Hin c Hc).
Qed.

Lemma content_only_at_include_level_witness :
  extract_headings Sample.py_str Sample.nested 2 (Some 2) (Some 3) None =
    Ok [ mkHeadingRecord 1 "A" "# A" None;
         mkHeadingRecord 2 "B" ("## B" ++ PyStr.nl ++ "p") (Some "p") ] /\
  Some 2 = Some (hr_level (mkHeadingRecord 2 "B" ("## B" ++ PyStr.nl ++ "p")
                             (Some "p"))).
Proof.
  assert (Hex : extract_headings Sample.py_str Sample.nested 2 (Some 2)
                  (Some 3) None =
                Ok [ mkHeadingRecord 1 "A" "# A" None;
                     mkHeadingRecord 2 "B" ("## B" ++ PyStr.nl ++ "p")
                       (Some "p") ]) by reflexivity.
  split; [exact Hex|].
  exact (proj1 (content_only_at_include_level Sample.py_str Sample.nested 2
                  (Some 2) (Some 3) None _
                  (mkHeadingRecord 2 "B" ("## B" ++ PyStr.nl ++ "p") (Some "p"))
                  "p" Hex (or_intror (or_introl eq_refl)) eq_refl)).
Defined.

(** X2. When no limit is given as a positive number ([include_content_lines]
    and [include_content_chars] are each [None], zero or negative), or
    [include_content_for_level] is [None] or zero, whatever
    [extract_headings] returns has no content attached: every record has no
    [content] and its [raw] is the bare heading line. The call returns when
    [include_content_for_level] is [None] or zero, and when both limits are
    [None]. *)
Theorem no_positive_limit_no_content (py_str : Token -> string)
    (document : Document) (max_level : Z) (icl lines chars : option Z) :
  truthy_int icl = false \/ (positive lines = None /\ positive chars = None) ->
  (forall records,
     extract_headings py_str document max_level icl lines chars = Ok records ->
     Forall (fun r =>
               hr_content r = None /\
               hr_raw r = bare_heading_line (hr_level r) (hr_text r)) records)
  /\
  (truthy_int icl = false \/ (lines = None /\ chars = None) ->
   exists records,
     extract_headings py_str document max_level icl lines chars = Ok records).
Proof.
  intros Hno. split.
  - intros records Hex.
    apply (extract_headings_Forall py_str _ document max_level icl lines
             chars); [|exact Hex].
    intros i token r He. apply heading_entry_inv in He.
    destruct He as (lvl & c1 & cs & _ & _ & Hl & _ & [[Hn Hraw]|Hsome]).
    + rewrite Hl. auto.
    + exfalso. destruct Hsome as (c & _ & _ & Hicl & Hnz & Hget & _).
      destruct Hno as [Ht|[Hlines Hchars]].
      * subst icl. simpl in Ht. apply negb_false_iff in Ht.
        apply Z.eqb_eq in Ht. contradiction.
      * apply get_content_inv in Hget. destruct Hget as [full Hlim].
        unfold apply_limits in Hlim. rewrite Hlines, Hchars in Hlim.
        discriminate.
  - intros Hret. apply extract_headings_returns.
    destruct Hret as [H|H]; [left; exact H | right; left; exact H].
Qed.

Lemma no_positive_limit_no_content_witness :
  (truthy_int (Some 1) = false \/
   (positive (Some 0) = None /\ positive None = None)) /\
  extract_headings Sample.py_str Sample.nested 2 (Some 1) (Some 0) None =
    Ok [ mkHeadingRecord 1 "A" "# A" None;
         mkHeadingRecord 2 "B" "## B" None ] /\
  Forall (fun r =>
            hr_content r = None /\
            hr_raw r = bare_heading_line (hr_level r) (hr_text r))
    [ mkHeadingRecord 1 "A" "# A" None;
      mkHeadingRecord 2 "B" "## B" None ].
Proof.
  assert (H : truthy_int (Some 1) = false \/
              (positive (Some 0) = None /\ positive None = None))
    by (right; split; reflexivity).
  assert (Hex : extract_headings Sample.py_str Sample.nested 2 (Some 1)
                  (Some 0) None =
                Ok [ mkHeadingRecord 1 "A" "# A" None;
                     mkHeadingRecord 2 "B" "## B" None ]) by reflexivity.
  split; [exact H|]. split; [exact Hex|].
  exact (proj1 (no_positive_limit_no_content Sample.py_str Sample.nested 2
                  (Some 1) (Some 0) None H) _ Hex).
Defined.

Section HeadingLevels.

Variable py_str : Token -> string.

(** An entry does not depend on [max_level] beyond being let through: when
    the turn for the larger level returns, so does the turn for the
    smaller one. *)
Lemma heading_entry_smaller_level (children : list Token) (L M : Z)
    (icl lines chars : option Z) (i : nat) (token : Token)
    (eM : option HeadingRecord) :
  L <= M ->
  heading_entry py_str children M icl lines chars i token = Ok eM ->
  heading_entry py_str children L icl lines chars i token =
    Ok (match eM with
        | Some r => if hr_level r <=? L then Some r else None
        | None => None
        end).
Proof.
  intros HLM HeM.
  pose proof (heading_entry_spec py_str children M icl lines chars i token eM
                HeM) as Hspec.
  destruct token; simpl in Hspec; try (subst eM; reflexivity).
  destruct (level <=? M) eqn:EM.
  - destruct Hspec as (r & -> & Hl & _). rewrite Hl.
    destruct (level <=? L) eqn:EL.
    + rewrite <- HeM. unfold heading_entry. rewrite EL, EM. reflexivity.
    + unfold heading_entry. rewrite EL. reflexivity.
  - subst eM. apply Z.leb_gt in EM.
    unfold heading_entry.
    replace (level <=? L) with false by (symmetry; apply Z.leb_gt; lia).
    reflexivity.
Qed.

Lemma headings_loop_smaller_level (children : list Token) (L M : Z)
    (icl lines chars : option Z) :
  L <= M ->
  forall rest i accM accL outM,
    headings_loop py_str children M icl lines chars i rest accM = Ok outM ->
    exists rsM,
      outM = (accM ++ rsM)%list /\
      headings_loop py_str children L icl lines chars i rest accL
        = Ok (accL ++ filter (fun r => hr_level r <=? L) rsM)%list.
Proof.
  intros HLM. induction rest as [|token rest IH];
    intros i accM accL outM HM.
  - simpl in HM. inversion HM. exists []. simpl. rewrite !app_nil_r.
    split; reflexivity.
  - simpl in HM. simpl.
    destruct (heading_entry py_str children M icl lines chars i token)
      as [eM|err] eqn:HeM; [|discriminate].
    cbn [bind] in HM.
    rewrite (heading_entry_smaller_level children L M icl lines chars i token
               eM HLM HeM).
    cbn [bind].
    destruct eM as [r|].
    + destruct (hr_level r <=? L) eqn:Er.
      * destruct (IH (S i) (accM ++ [r])%list (accL ++ [r])%list outM HM)
          as (rs & H1 & H2).
        exists (r :: rs). simpl. rewrite Er.
        rewrite H1, H2, <- !app_assoc. split; reflexivity.
      * destruct (IH (S i) (accM ++ [r])%list accL outM HM)
          as (rs & H1 & H2).
        exists (r :: rs). simpl. rewrite Er.
        rewrite H1, H2, <- !app_assoc. split; reflexivity.
    + destruct (IH (S i) accM accL outM HM) as (rs & H1 & H2).
      exists rs. split; assumption.
Qed.

(** With a positive line limit the character limit is not looked at. *)
Lemma get_content_lines_first (children : list Token) (heading_index : nat)
    (n : Z) (chars chars' : option Z) :
  0 < n ->
  _get_content_after_heading children heading_index (Some n) chars =
  _get_content_after_heading children heading_index (Some n) chars'.
Proof.
  intros Hn. unfold _get_content_after_heading, apply_limits.
  assert (Hp : positive (Some n) = Some n)
    by (apply positive_spec; split; [reflexivity | exact Hn]).
  rewrite Hp. destruct chars, chars'; reflexivity.
Qed.

Lemma headings_loop_lines_first (children : list Token) (max_level : Z)
    (icl : option Z) (n : Z) (chars chars' : option Z) :
  0 < n ->
  forall rest i headings,
    headings_loop py_str children max_level icl (Some n) chars i rest headings
    = headings_loop py_str children max_level icl (Some n) chars' i rest
        headings.
Proof.
  intros Hn. induction rest as [|token rest IH]; intros i headings;
    [reflexivity|].
  simpl.
  replace (heading_entry py_str children max_level icl (Some n) chars i token)
    with (heading_entry py_str children max_level icl (Some n) chars' i token).
  - destruct (heading_entry py_str children max_level icl (Some n) chars' i
                token) as [e|err]; simpl; [apply IH | reflexivity].
  - unfold heading_entry. destruct token; try reflexivity.
    rewrite (get_content_lines_first children i n chars' chars Hn).
    reflexivity.
Qed.

End HeadingLevels.

(** X3. For [L <= M] and the same content options, whenever
    [extract_headings] returns for [max_level = M], it returns for
    [max_level = L] as well, and the records for [L] are the records for
    [M] whose level is [<= L], in the same order. *)
Theorem smaller_level_filters_records (py_str : Token -> string)
    (document : Document) (L M : Z) (icl lines chars : option Z)
    (recordsM : list HeadingRecord) :
  L <= M ->
  extract_headings py_str document M icl lines chars = Ok recordsM ->
  extract_headings py_str document L icl lines chars =
    Ok (filter (fun r => hr_level r <=? L) recordsM).
Proof.
  intros HLM HM. unfold extract_headings in *.
  destruct (headings_loop_smaller_level py_str (doc_children document) L M
              icl lines chars HLM (doc_children document) 0%nat [] []
              recordsM HM) as (rs & H1 & H2).
  cbn [app] in H1, H2. subst rs. exact H2.
Qed.

Lemma smaller_level_filters_records_witness :
  1 <= 2 /\
  extract_headings Sample.py_str Sample.nested 2 (Some 1) (Some 1) None =
    Ok [ mkHeadingRecord 1 "A" ("# A" ++ PyStr.nl ++ "B") (Some "B");
         mkHeadingRecord 2 "B" "## B" None ] /\
  extract_headings Sample.py_str Sample.nested 1 (Some 1) (Some 1) None =
    Ok (filter (fun r => hr_level r <=? 1)
          [ mkHeadingRecord 1 "A" ("# A" ++ PyStr.nl ++ "B") (Some "B");
            mkHeadingRecord 2 "B" "## B" None ]).
Proof.
  assert (H : 1 <= 2) by lia.
  assert (HM : extract_headings Sample.py_str Sample.nested 2 (Some 1)
                 (Some 1) None =
               Ok [ mkHeadingRecord 1 "A" ("# A" ++ PyStr.nl ++ "B")
                      (Some "B");
                    mkHeadingRecord 2 "B" "## B" None ]) by reflexivity.
  split; [exact H|]. split; [exact HM|].
  exact (smaller_level_filters_records Sample.py_str Sample.nested 1 2
           (Some 1) (Some 1) None _ H HM).
Defined.

(** X4. The line limit takes precedence: with a positive
    [include_content_lines], the result of [extract_headings] is the same
    for every [include_content_chars]. *)
Theorem lines_take_precedence_over_chars (py_str : Token -> string)
    (document : Document) (max_level : Z) (icl : option Z) (n : Z)
    (chars chars' : option Z) :
  0 < n ->
  extract_headings py_str document max_level icl (Some n) chars =
  extract_headings py_str document max_level icl (Some n) chars'.
Proof.
  intros Hn. unfold extract_headings.
  apply headings_loop_lines_first. exact Hn.
Qed.

Lemma lines_take_precedence_over_chars_witness :
  0 < 1 /\
  extract_headings Sample.py_str Sample.nested 1 (Some 1) (Some 1) (Some 1) =
  extract_headings Sample.py_str Sample.nested 1 (Some 1) (Some 1) None.
Proof.
  assert (H : 0 < 1) by lia.
  split; [exact H|].
  exact (lines_take_precedence_over_chars Sample.py_str Sample.nested 1
           (Some 1) 1 (Some 1) None H).
Defined.

(** X5. Attached content respects the limits: with a positive
    [include_content_lines = n] it has at most [n] lines; otherwise, with a
    positive [include_content_chars = k], it has at most [k] characters. *)
Theorem content_within_limits (py_str : Token -> string)
    (document : Document) (max_level : Z) (icl lines chars : option Z)
    (records : list HeadingRecord) (r : HeadingRecord) (c : string) :
  extract_headings py_str document max_level icl lines chars = Ok records ->
  In r records ->
  hr_content r = Some c ->
  (forall n, positive lines = Some n ->
     Z.of_nat (List.length (PyStr.split_nl c)) <= n) /\
  (positive lines = None ->
   forall k, positive chars = Some k -> Z.of_nat (String.length c) <= k).
Proof.
  intros Hex Hin Hc.
  assert (HF : Forall (fun r => forall c, hr_content r = Some c ->
                         exists full, apply_limits full lines chars = Some c)
                 records).
  { apply (extract_headings_Forall py_str _ document max_level icl lines chars);
      [|exact Hex].
    intros i token r0 He c0 Hc0. apply heading_entry_inv in He.
    destruct He as (lvl & c1 & cs & _ & _ & _ & _ & [[Hn _]|Hsome]).
    - congruence.
    - destruct Hsome as (c2 & Hc2 & _ & _ & _ & Hget & _).
      assert (c2 = c0) by congruence. subst c2.
      exact (get_content_inv _ _ _ _ _ Hget). }
  rewrite Forall_forall in HF. destruct (HF r Hin c Hc) as [full Hlim].
  exact (apply_limits_bounds full c lines chars Hlim).
Qed.

Lemma content_within_limits_witness :
  extract_headings Sample.py_str Sample.nested 1 (Some 1) (Some 1) None =
    Ok [mkHeadingRecord 1 "A" ("# A" ++ PyStr.nl ++ "B") (Some "B")] /\
  Z.of_nat (List.length (PyStr.split_nl "B")) <= 1.
Proof.
  assert (Hex : extract_headings Sample.py_str Sample.nested 1 (Some 1)
                  (Some 1) None =
                Ok [mkHeadingRecord 1 "A" ("# A" ++ PyStr.nl ++ "B")
                      (Some "B")]) by reflexivity.
  split; [exact Hex|].
  exact (proj1 (content_within_limits Sample.py_str Sample.nested 1 (Some 1)
                  (Some 1) None _ _ "B" Hex (or_introl eq_refl) eq_refl)
           1 eq_refl).
Defined.

(** X6. At the index of a heading of level [lvl], with a limit given,
    the content [_get_content_after_heading] returns is made of the
    stripped, non-empty texts of the tokens that follow, up to the first
    heading of level [<= lvl] (a deeper heading does not stop the scan and
    contributes its own text), joined by line feeds and cut by the limits,
    and is [None] without any such text. The call returns when the text of
    every following token that could give content can be extracted; when
    it raises, it raises [TypeError], and the text of one of the following
    tokens cannot be extracted. *)
Theorem content_after_heading (py_str : Token -> string)
    (children : list Token) (heading_index : nat) (lvl : Z) (c : string)
    (cs : list Token) (lines chars : option Z) :
  nth_error children heading_index = Some (Heading lvl c cs) ->
  lines <> None \/ chars <> None ->
  let following := skipn (S heading_index) children in
  let expected :=
    match collected_parts py_str lvl following with
    | [] => None
    | p :: ps => apply_limits (PyStr.join PyStr.nl (p :: ps)) lines chars
    end in
  (forall r,
     _get_content_after_heading children heading_index lines chars = Ok r ->
     r = expected) /\
  (Forall (fun token => content_readable token = true) following ->
   _get_content_after_heading children heading_index lines chars
   = Ok expected) /\
  (forall e,
     _get_content_after_heading children heading_index lines chars
       = Raise e ->
     e = TypeError /\
     exists token, In token following /\ content_readable token = false).
Proof.
  intros Hnth Hgiven following expected.
  assert (Hval : forall r,
            _get_content_after_heading children heading_index lines chars
              = Ok r -> r = expected).
  { intros r Hr.
    rewrite (get_content_value py_str children heading_index lvl c cs lines
               chars r Hnth Hr).
    destruct lines, chars; try reflexivity.
    destruct Hgiven as [H|H]; contradiction. }
  split; [exact Hval|]. split.
  - intros Hread.
    destruct (get_content_returns py_str children heading_index lvl c cs
                lines chars Hnth (or_intror Hread)) as [r Hr].
    rewrite Hr, (Hval r Hr). reflexivity.
  - intros e He.
    exact (get_content_raise children heading_index lvl c cs lines chars e
             Hnth He).
Qed.

(** After [# A] come [## B] and [p]; after [# A] and a quote that holds a
    thematic break, the scan raises. *)
Lemma content_after_heading_witness :
  nth_error (doc_children Sample.nested) 0 =
    Some (Heading 1 "" [RawText "A"]) /\
  (Some 5 <> None \/ @None Z <> None) /\
  _get_content_after_heading (doc_children Sample.nested) 0 (Some 5) None
    = Ok (Some ("B" ++ PyStr.nl ++ "p")) /\
  _get_content_after_heading (doc_children Sample.quoted_rule) 0 (Some 5)
    None = Raise TypeError.
Proof.
  assert (H1 : nth_error (doc_children Sample.nested) 0 =
               Some (Heading 1 "" [RawText "A"])) by reflexivity.
  assert (H2 : Some 5 <> None \/ @None Z <> None) by (left; discriminate).
  split; [exact H1|]. split; [exact H2|]. split; [|reflexivity].
  apply (proj1 (proj2 (content_after_heading Sample.py_str
                         (doc_children Sample.nested) 0 1 "" [RawText "A"]
                         (Some 5) None H1 H2))).
  repeat constructor.
Defined.

Lemma rstrip_by_idem (p : ascii -> bool) (s : string) :
  PyStr.rstrip_by p (PyStr.rstrip_by p s) = PyStr.rstrip_by p s.
Proof.
  induction s as [|c s IH]; [reflexivity|].
  simpl. destruct (PyStr.rstrip_by p s) as [|d r] eqn:Er.
  - destruct (p c) eqn:Ec; [reflexivity|]. simpl. rewrite Ec. reflexivity.
  - simpl in IH. simpl. destruct (PyStr.rstrip_by p r) as [|e r'] eqn:Er'.
    + destruct (p d); [discriminate|]. rewrite IH. reflexivity.
    + rewrite IH. reflexivity.
Qed.

Lemma lstrip_by_head (p : ascii -> bool) (s : string) :
  PyStr.lstrip_by p s = "" \/
  exists c t, PyStr.lstrip_by p s = String c t /\ p c = false.
Proof.
  induction s as [|c s IH]; [left; reflexivity|].
  simpl. destruct (p c) eqn:Ec; [exact IH|].
  right. exists c, s. auto.
Qed.

Lemma rstrip_by_head (p : ascii -> bool) (c : ascii) (t : string) :
  p c = false -> exists t', PyStr.rstrip_by p (String c t) = String c t'.
Proof.
  intros Hc. simpl. destruct (PyStr.rstrip_by p t); [rewrite Hc|];
    eexists; reflexivity.
Qed.

(** Stripping a stripped string changes nothing. *)
Lemma strip_idem (s : string) : PyStr.strip (PyStr.strip s) = PyStr.strip s.
Proof.
  unfold PyStr.strip.
  destruct (lstrip_by_head PyStr.is_space s) as [E|(c & t & E & Hc)];
    rewrite E; [reflexivity|].
  destruct (rstrip_by_head PyStr.is_space c t Hc) as [t' Et].
  rewrite Et. simpl PyStr.lstrip_by. rewrite Hc, <- Et.
  apply rstrip_by_idem.
Qed.

(** X7. The [text] of every record that [extract_headings] returns is
    stripped: it has no white space at either end. *)
Theorem heading_text_is_stripped (py_str : Token -> string)
    (document : Document) (max_level : Z) (icl lines chars : option Z)
    (records : list HeadingRecord) :
  extract_headings py_str document max_level icl lines chars = Ok records ->
  Forall (fun r => PyStr.strip (hr_text r) = hr_text r) records.
Proof.
  intros Hex.
  apply (extract_headings_Forall py_str _ document max_level icl lines chars);
    [|exact Hex].
  intros i token r He. apply heading_entry_inv in He.
  destruct He as (lvl & c1 & cs & _ & _ & _ & Ht & _).
  rewrite Ht. unfold heading_text_of. apply strip_idem.
Qed.

Lemma heading_text_is_stripped_witness :
  extract_headings Sample.py_str
    (mkDocument [Heading 1 "" [RawText " Title "]]) 1 None None None =
    Ok [mkHeadingRecord 1 "Title" "# Title" None] /\
  Forall (fun r => PyStr.strip (hr_text r) = hr_text r)
    [mkHeadingRecord 1 "Title" "# Title" None].
Proof.
  assert (H : extract_headings Sample.py_str
                (mkDocument [Heading 1 "" [RawText " Title "]]) 1 None None
                None =
              Ok [mkHeadingRecord 1 "Title" "# Title" None]) by reflexivity.
  split; [exact H|].
  exact (heading_text_is_stripped Sample.py_str _ 1 None None None _ H).
Defined.

(** X8. The two ways to the text of a heading agree up to stripping: when
    no child of the heading is itself a heading, the [text] that
    [extract_headings] computes from the children is the stripped text
    that [_extract_text_from_token] gives for the heading, which is what
    [extract_emphasized] keeps as heading context. *)
Theorem heading_text_is_stripped_token_text (py_str : Token -> string)
    (lvl : Z) (c : string) (cs : list Token) :
  Forall (fun child => is_heading child = false) cs ->
  heading_text_of py_str cs =
  PyStr.strip (_extract_text_from_token py_str (Heading lvl c cs)).
Proof.
  intros Hcs. unfold heading_text_of. f_equal.
  assert (Hmap : map (fun child =>
                        match content_of child with
                        | Some c0 => c0
                        | None => _extract_text_from_token py_str child
                        end) cs =
                 map (_extract_text_from_token py_str) cs).
  { induction Hcs as [|child cs Hchild _ IH]; [reflexivity|].
    simpl. rewrite IH. f_equal.
    destruct child as [| | | |[c0|] [l|]]; try reflexivity; discriminate. }
  rewrite Hmap. destruct cs; reflexivity.
Qed.

Lemma heading_text_is_stripped_token_text_witness :
  Forall (fun child => is_heading child = false)
    [RawText " Bold "; Strong [RawText "word"]] /\
  heading_text_of Sample.py_str [RawText " Bold "; Strong [RawText "word"]] =
  PyStr.strip
    (_extract_text_from_token Sample.py_str
       (Heading 1 "" [RawText " Bold "; Strong [RawText "word"]])).
Proof.
  assert (H : Forall (fun child => is_heading child = false)
                [RawText " Bold "; Strong [RawText "word"]])
    by (repeat constructor).
  split; [exact H|].
  exact (heading_text_is_stripped_token_text Sample.py_str 1 ""
           [RawText " Bold "; Strong [RawText "word"]] H).
Defined.

(* ================================================================== *)
(** * Further properties of the emphasis extractor *)
(* ================================================================== *)

Lemma stack_top_not_empty (stack : list HeadingInfo) :
  stack <> [] -> stack_top stack <> None.
Proof.
  induction stack as [|x stack IH]; [contradiction|].
  intros _. destruct stack as [|y stack]; [discriminate|].
  change (stack_top (y :: stack) <> None). apply IH. discriminate.
Qed.

Lemma subsequence_refl {A : Type} (l : list A) : subsequence l l.
Proof. induction l; constructor; assumption. Qed.

Lemma subsequence_snoc_keep {A : Type} (l1 l2 : list A) (x : A) :
  subsequence l1 l2 -> subsequence (l1 ++ [x]) (l2 ++ [x]).
Proof.
  induction 1; simpl.
  - apply subsequence_keep. constructor.
  - apply subsequence_skip. assumption.
  - apply subsequence_keep. assumption.
Qed.

Lemma subsequence_snoc_skip {A : Type} (l1 l2 : list A) (x : A) :
  subsequence l1 l2 -> subsequence l1 (l2 ++ [x]).
Proof.
  induction 1; simpl.
  - apply subsequence_skip. constructor.
  - apply subsequence_skip. assumption.
  - apply subsequence_keep. assumption.
Qed.

(** A strictly increasing list of integers between [a] and [b] has at most
    [b - a + 1] elements. *)
Lemma increasing_bounded_length (l : list Z) :
  StronglySorted Z.lt l ->
  forall a b, Forall (fun x => a <= x <= b) l ->
  Z.of_nat (List.length l) <= Z.max 0 (b - a + 1).
Proof.
  induction 1 as [|x l Hs IH Hx]; intros a b Hb; simpl List.length.
  - lia.
  - inversion Hb as [|? ? Hxb Hlb]; subst.
    assert (Hl : Forall (fun y => x + 1 <= y <= b) l).
    { rewrite Forall_forall in *. intros y Hy.
      specialize (Hx y Hy). specialize (Hlb y Hy). lia. }
    specialize (IH (x + 1) b Hl). lia.
Qed.

Section MoreEmphasisProperties.

Variable py_str : Token -> string.

Local Abbreviation text_of := (_extract_text_from_token py_str).

(** The heading stack does not depend on the kind filter nor on the
    heading filter. *)
Lemma state_after_stack (type type' : string) (hf hf' : option string)
    (visited : list Token) :
  heading_stack (state_after py_str type hf visited) =
  heading_stack (state_after py_str type' hf' visited).
Proof.
  induction visited as [|token visited IH] using rev_ind; [reflexivity|].
  rewrite !state_after_snoc, !visit_stack, IH. reflexivity.
Qed.

Lemma last_heading_text_snoc (visited : list Token) (token : Token) :
  last_heading_text py_str (visited ++ [token]) =
  if is_heading token then Some (text_of token)
  else last_heading_text py_str visited.
Proof. unfold last_heading_text. rewrite fold_left_app. reflexivity. Qed.

(** The top of the stack is always the heading visited last. *)
Lemma current_heading_is_last (type : string) (hf : option string)
    (visited : list Token) :
  current_heading (heading_stack (state_after py_str type hf visited)) =
  last_heading_text py_str visited.
Proof.
  induction visited as [|token visited IH] using rev_ind; [reflexivity|].
  rewrite state_after_snoc, visit_stack, last_heading_text_snoc.
  destruct token; simpl; try exact IH.
  unfold current_heading. rewrite stack_top_snoc. reflexivity.
Qed.

(** One visit, seen through its effect on the list of records. *)
Lemma visit_items (type : string) (hf : option string) (token : Token)
    (st : WalkState) :
  emphasized_items (visit py_str type hf token st) =
  match kind_of token with
  | Some kind =>
      if str_in type ["all"; kind] && matches_filter hf (heading_stack st)
      then (emphasized_items st ++
            [mkEmphasisRecord kind (text_of token)
               (current_heading (heading_stack st))])%list
      else emphasized_items st
  | None => emphasized_items st
  end.
Proof.
  destruct token; try reflexivity; unfold visit, emit;
    cbn [emphasized_items heading_stack is_strong is_emphasis andb
         enter_heading kind_of];
    destruct (str_in type _); reflexivity.
Qed.

End MoreEmphasisProperties.

(** X9. The kind filter only selects: the result for ['bold'] is the result
    for ['all'] restricted to the bold records, the result for ['italic']
    is it restricted to the italic records, in the same order, and every
    record of the result for ['all'] is bold or italic. *)
Theorem kind_filter_selects_from_all (py_str : Token -> string)
    (document : Document) (heading_filter : option string) :
  let all := extract_emphasized py_str document "all" heading_filter in
  extract_emphasized py_str document "bold" heading_filter =
    filter is_bold_record all /\
  extract_emphasized py_str document "italic" heading_filter =
    filter is_italic_record all /\
  Forall (fun r => er_type r = "bold" \/ er_type r = "italic") all.
Proof.
  unfold extract_emphasized. rewrite !final_state_walk.
  induction (walk_document document) as [|token visited IH] using rev_ind.
  - simpl. repeat split. constructor.
  - destruct IH as (Hb & Hi & Ht). simpl in Hb, Hi, Ht. simpl.
    rewrite !state_after_snoc, !visit_items.
    rewrite (state_after_stack py_str "bold" "all" heading_filter
               heading_filter visited).
    rewrite (state_after_stack py_str "italic" "all" heading_filter
               heading_filter visited).
    destruct token; cbn [kind_of]; try (repeat split; assumption);
      cbn [str_in existsb String.eqb Ascii.eqb Bool.eqb orb andb];
      destruct (matches_filter heading_filter _);
      try (repeat split; assumption);
      rewrite ?filter_app, ?Hb, ?Hi; cbn [filter is_bold_record
        is_italic_record er_type String.eqb Ascii.eqb Bool.eqb];
      rewrite ?app_nil_r;
      (split; [reflexivity|split; [reflexivity|]]);
      (apply Forall_app; split; [exact Ht|]);
      constructor; [|constructor| |constructor]; simpl; auto.
Qed.

(** X10. The heading context is the heading visited last: at every point of
    the traversal the top of the heading stack holds the text of the last
    heading among the tokens visited so far, whatever its level and the
    levels before it; and the record added for an emphasis node carries
    that text, or [None] when no heading came before. *)
Theorem heading_context_is_last_heading (py_str : Token -> string)
    (type : string) (heading_filter : option string) (visited : list Token) :
  current_heading
    (heading_stack (state_after py_str type heading_filter visited)) =
    last_heading_text py_str visited /\
  forall token kind,
    kind_of token = Some kind ->
    kind_selected type kind ->
    filter_admits heading_filter
      (heading_stack (state_after py_str type heading_filter visited)) ->
    emphasized_items
      (state_after py_str type heading_filter (visited ++ [token])) =
    (emphasized_items (state_after py_str type heading_filter visited) ++
     [mkEmphasisRecord kind (_extract_text_from_token py_str token)
        (last_heading_text py_str visited)])%list.
Proof.
  split; [apply current_heading_is_last|].
  intros token kind Hk Hsel Hadm.
  rewrite state_after_snoc, visit_items, Hk.
  apply str_in_all_or in Hsel. apply matches_filter_admits in Hadm.
  rewrite Hsel, Hadm, current_heading_is_last. reflexivity.
Qed.

(** After [# Title] and [## Sub], and then a heading [# Up] of level 1, a
    bold node gets the context [Up]. *)
Lemma heading_context_is_last_heading_witness :
  kind_of (Strong [RawText "w"]) = Some "bold" /\
  kind_selected "all" "bold" /\
  filter_admits None
    (heading_stack
       (state_after Sample.py_str "all" None
          [Heading 1 "" [RawText "Title"]; Heading 2 "" [RawText "Sub"];
           Heading 1 "" [RawText "Up"]])) /\
  emphasized_items
    (state_after Sample.py_str "all" None
       ([Heading 1 "" [RawText "Title"]; Heading 2 "" [RawText "Sub"];
         Heading 1 "" [RawText "Up"]] ++ [Strong [RawText "w"]])) =
  [mkEmphasisRecord "bold" "w" (Some "Up")].
Proof.
  assert (Hk : kind_of (Strong [RawText "w"]) = Some "bold") by reflexivity.
  assert (Hs : kind_selected "all" "bold") by (left; reflexivity).
  assert (Hf : filter_admits None
                 (heading_stack
                    (state_after Sample.py_str "all" None
                       [Heading 1 "" [RawText "Title"];
                        Heading 2 "" [RawText "Sub"];
                        Heading 1 "" [RawText "Up"]]))) by exact I.
  split; [exact Hk|]. split; [exact Hs|]. split; [exact Hf|].
  exact (proj2 (heading_context_is_last_heading Sample.py_str "all" None
                  [Heading 1 "" [RawText "Title"];
                   Heading 2 "" [RawText "Sub"];
                   Heading 1 "" [RawText "Up"]])
           (Strong [RawText "w"]) "bold" Hk Hs Hf).
Defined.

(** X11. With a heading filter that is not empty, every record has a
    heading context: nothing that comes before the first heading is
    reported. *)
Theorem filtered_records_have_context (py_str : Token -> string)
    (document : Document) (type : string) (f : string) :
  f <> "" ->
  Forall (fun r => er_heading_context r <> None)
    (extract_emphasized py_str document type (Some f)).
Proof.
  intros Hf. unfold extract_emphasized. rewrite final_state_walk.
  induction (walk_document document) as [|token visited IH] using rev_ind.
  - constructor.
  - rewrite state_after_snoc, visit_items.
    destruct (kind_of token) as [kind|]; [|exact IH].
    destruct (str_in type ["all"; kind]); [|exact IH].
    cbn [andb].
    destruct (matches_filter (Some f) _) eqn:Em; [|exact IH].
    apply Forall_app. split; [exact IH|].
    constructor; [|constructor]. cbn [er_heading_context].
    unfold current_heading.
    destruct (heading_stack (state_after py_str type (Some f) visited))
      as [|e stack] eqn:Es.
    + simpl in Em. destruct f; [contradiction | discriminate].
    + intros Hnone. apply (stack_top_not_empty (e :: stack));
        [discriminate|].
      destruct (stack_top (e :: stack)); [discriminate | reflexivity].
Qed.

Lemma filtered_records_have_context_witness :
  "sub" <> "" /\
  Forall (fun r => er_heading_context r <> None)
    (extract_emphasized Sample.py_str Sample.titled "all" (Some "sub")).
Proof.
  assert (H : "sub" <> "") by discriminate.
  split; [exact H|].
  exact (filtered_records_have_context Sample.py_str Sample.titled "all"
           "sub" H).
Defined.

(** X12. Filters only remove records: for every kind filter and heading
    filter, the result of [extract_emphasized] is the result for ['all']
    without heading filter with some records left out, the order kept. *)
Theorem filters_only_remove_records (py_str : Token -> string)
    (document : Document) (type : string) (heading_filter : option string) :
  subsequence
    (extract_emphasized py_str document type heading_filter)
    (extract_emphasized py_str document "all" None).
Proof.
  unfold extract_emphasized. rewrite !final_state_walk.
  induction (walk_document document) as [|token visited IH] using rev_ind.
  - constructor.
  - rewrite !state_after_snoc, !visit_items.
    rewrite (state_after_stack py_str type "all" heading_filter None visited).
    destruct (kind_of token) as [kind|]; [|exact IH].
    cbn [str_in existsb String.eqb Ascii.eqb Bool.eqb orb andb matches_filter].
    destruct (_ && _).
    + apply subsequence_snoc_keep. exact IH.
    + apply subsequence_snoc_skip. exact IH.
Qed.

(** X13. When every heading of the document has a level between 1 and 6,
    the heading stack never holds more than six entries. *)
Theorem heading_stack_depth_at_most_six (py_str : Token -> string)
    (document : Document) (type : string) (heading_filter : option string)
    (visited rest : list Token) :
  heading_levels_valid (walk_document document) ->
  walk_document document = (visited ++ rest)%list ->
  (List.length
     (heading_stack (state_after py_str type heading_filter visited))
   <= 6)%nat.
Proof.
  intros Hvalid Hwalk. rewrite Hwalk in Hvalid.
  apply Forall_app in Hvalid. destruct Hvalid as [Hvalid _]. clear Hwalk.
  assert (Hb : Forall (fun x => 1 <= x <= 6)
                 (map hi_level
                    (heading_stack
                       (state_after py_str type heading_filter visited)))).
  { induction visited as [|token visited IH] using rev_ind; [constructor|].
    apply Forall_app in Hvalid. destruct Hvalid as [Hv Ht].
    specialize (IH Hv). rewrite state_after_snoc, visit_stack.
    destruct token; simpl; try exact IH.
    rewrite pop_closed_filter by apply state_after_increasing.
    rewrite map_app. apply Forall_app. split.
    - rewrite Forall_map in *. rewrite Forall_forall in *.
      intros e He. apply filter_In in He. apply IH. tauto.
    - inversion Ht; subst. constructor; [assumption | constructor]. }
  pose proof (increasing_bounded_length _
                (state_after_increasing py_str type heading_filter visited)
                1 6 Hb) as Hlen.
  rewrite length_map in Hlen. lia.
Qed.

Lemma heading_stack_depth_at_most_six_witness :
  heading_levels_valid (walk_document Sample.titled) /\
  walk_document Sample.titled =
    (walk_document Sample.titled ++ [])%list /\
  (List.length
     (heading_stack
        (state_after Sample.py_str "all" None (walk_document Sample.titled)))
   <= 6)%nat.
Proof.
  assert (Hv : heading_levels_valid (walk_document Sample.titled)).
  { unfold heading_levels_valid. simpl.
    repeat (constructor; [try exact I; lia|]). constructor. }
  assert (Hw : walk_document Sample.titled =
               (walk_document Sample.titled ++ [])%list)
    by (rewrite app_nil_r; reflexivity).
  split; [exact Hv|]. split; [exact Hw|].
  exact (heading_stack_depth_at_most_six Sample.py_str Sample.titled "all"
           None (walk_document Sample.titled) [] Hv Hw).
Defined.

(** X14. With the kind filter ['all'] and no heading filter, every bold and
    italic node of the tree, at any depth, gives exactly one record, and
    the records come in the order of the depth-first pre-order walk: their
    kinds and texts are those of the emphasis nodes of the walk. *)
Theorem all_emphasis_in_document_order (py_str : Token -> string)
    (document : Document) :
  map (fun r => (er_type r, er_text r))
    (extract_emphasized py_str document "all" None) =
  flat_map (emphasis_entry py_str) (walk_document document).
Proof.
  unfold extract_emphasized. rewrite final_state_walk.
  induction (walk_document document) as [|token visited IH] using rev_ind.
  - reflexivity.
  - rewrite state_after_snoc, visit_items, flat_map_app. simpl flat_map.
    rewrite app_nil_r. unfold emphasis_entry at 2.
    destruct (kind_of token) as [kind|].
    + cbn [str_in existsb String.eqb Ascii.eqb Bool.eqb orb andb
           matches_filter].
      rewrite map_app, IH. reflexivity.
    + rewrite app_nil_r. exact IH.
Qed.

(* ================================================================== *)
(** * Further properties of the text of a token *)
(* ================================================================== *)

Lemma concat_empty_cons (x : string) (l : list string) :
  String.concat "" (x :: l) = (x ++ String.concat "" l)%string.
Proof.
  destruct l; simpl; [rewrite string_app_nil_r|]; reflexivity.
Qed.

Lemma concat_empty_app (l1 l2 : list string) :
  String.concat "" (l1 ++ l2) =
  (String.concat "" l1 ++ String.concat "" l2)%string.
Proof.
  induction l1 as [|x l1 IH]; [reflexivity|].
  change ((x :: l1) ++ l2)%list with (x :: (l1 ++ l2))%list.
  rewrite !concat_empty_cons, IH, string_app_assoc. reflexivity.
Qed.

Section TextProperties.

Variable py_str : Token -> string.

Lemma plain_children_text (cs : list Token) :
  Forall (fun t => plain t = true ->
            _extract_text_from_token py_str t =
            String.concat "" (map leaf_text (_walk_tokens t))) cs ->
  forallb plain cs = true ->
  String.concat "" (map (_extract_text_from_token py_str) cs) =
  String.concat "" (map leaf_text (flat_map _walk_tokens cs)).
Proof.
  induction 1 as [|t cs Ht _ IH]; intros Hp; [reflexivity|].
  simpl in Hp. apply andb_true_iff in Hp. destruct Hp as [Hpt Hpcs].
  simpl map. rewrite concat_empty_cons, map_app, concat_empty_app.
  rewrite (Ht Hpt), (IH Hpcs). reflexivity.
Qed.

Lemma plain_token_text (token : Token) :
  plain token = true ->
  _extract_text_from_token py_str token =
  String.concat "" (map leaf_text (_walk_tokens token)).
Proof.
  induction token using Token_tree_ind; intros Hp; simpl in Hp;
    try discriminate.
  - change (_walk_tokens (Paragraph cs))
      with (Paragraph cs :: flat_map _walk_tokens cs).
    simpl map. rewrite concat_empty_cons. simpl.
    apply plain_children_text; assumption.
  - change (_walk_tokens (Strong cs))
      with (Strong cs :: flat_map _walk_tokens cs).
    simpl map. rewrite concat_empty_cons. simpl.
    apply plain_children_text; assumption.
  - change (_walk_tokens (Emphasis cs))
      with (Emphasis cs :: flat_map _walk_tokens cs).
    simpl map. rewrite concat_empty_cons. simpl.
    apply plain_children_text; assumption.
  - destruct c; [reflexivity | discriminate].
  - destruct c; [discriminate|].
    change (_walk_tokens (Other None (Some cs)))
      with (Other None (Some cs) :: flat_map _walk_tokens cs).
    simpl map. rewrite concat_empty_cons. simpl.
    apply plain_children_text; assumption.
Qed.

End TextProperties.

(** X15. In a tree where text sits in the leaves only, the text of a token
    is the concatenation of the texts of its leaves in depth-first
    pre-order; so is the text of a heading whose children are such
    trees. *)
Theorem text_is_concatenation_of_leaves (py_str : Token -> string) :
  (forall token,
     plain token = true ->
     _extract_text_from_token py_str token =
     String.concat "" (map leaf_text (_walk_tokens token))) /\
  (forall lvl c cs,
     forallb plain cs = true ->
     _extract_text_from_token py_str (Heading lvl c cs) =
     String.concat "" (map leaf_text (flat_map _walk_tokens cs))).
Proof.
  split; [apply plain_token_text|].
  intros lvl c cs Hp.
  assert (H : String.concat "" (map (_extract_text_from_token py_str) cs) =
              String.concat "" (map leaf_text (flat_map _walk_tokens cs))).
  { apply plain_children_text; [|exact Hp].
    apply Forall_forall. intros t _. apply plain_token_text. }
  destruct cs; [reflexivity | exact H].
Qed.

Lemma text_is_concatenation_of_leaves_witness :
  plain (Paragraph [RawText "Bold "; Strong [RawText "word"];
                    RawText " here."]) = true /\
  _extract_text_from_token Sample.py_str
    (Paragraph [RawText "Bold "; Strong [RawText "word"]; RawText " here."]) =
  String.concat ""
    (map leaf_text
       (_walk_tokens
          (Paragraph [RawText "Bold "; Strong [RawText "word"];
                      RawText " here."]))).
Proof.
  assert (H : plain (Paragraph [RawText "Bold "; Strong [RawText "word"];
                                RawText " here."]) = true) by reflexivity.
  split; [exact H|].
  exact (proj1 (text_is_concatenation_of_leaves Sample.py_str) _ H).
Defined.

(* ================================================================== *)
(** * Further properties of the pattern search *)
(* ================================================================== *)

Lemma enumerate_cons {A : Type} (i : nat) (x : A) (l : list A) :
  enumerate i (x :: l) = (i, x) :: enumerate (S i) l.
Proof. reflexivity. Qed.

Lemma enumerate_In {A : Type} (l : list A) :
  forall i k x, nth_error l k = Some x -> In ((i + k)%nat, x) (enumerate i l).
Proof.
  induction l as [|y l IH]; intros i [|k] x H; try discriminate.
  - inversion H; subst. rewrite Nat.add_0_r. left. reflexivity.
  - rewrite enumerate_cons. right. rewrite Nat.add_succ_r.
    apply (IH (S i) k x H).
Qed.

(** The search for the end of a section stops at the first line that
    closes it. *)
Lemma find_section_end_spec (heading_level : Z) :
  forall rest j,
    match find_section_end heading_level j rest with
    | Some e =>
        exists k line,
          e = (j + k)%nat /\ nth_error rest k = Some line /\
          closes_section heading_level line = true /\
          forall k' line', (k' < k)%nat -> nth_error rest k' = Some line' ->
                           closes_section heading_level line' = false
    | None =>
        forall k line, nth_error rest k = Some line ->
                       closes_section heading_level line = false
    end.
Proof.
  induction rest as [|l rest IH]; intros j.
  - intros [|k] line H; discriminate.
  - cbn [find_section_end].
    change (PyStr.startswith "#" (PyStr.strip l)
            && (hash_run (PyStr.strip l) <=? heading_level))
      with (closes_section heading_level l).
    destruct (closes_section heading_level l) eqn:Ec.
    + exists 0%nat, l. rewrite Nat.add_0_r. repeat split; auto.
      intros k' line' Hk. lia.
    + specialize (IH (S j)).
      destruct (find_section_end heading_level (S j) rest) as [e|].
      * destruct IH as (k & line & He & Hk & Hc & Hbefore).
        exists (S k), line. rewrite Nat.add_succ_r. repeat split; auto.
        intros [|k'] line' Hlt Hn; [inversion Hn; subst; exact Ec|].
        apply (Hbefore k' line'); [lia | exact Hn].
      * intros [|k] line Hn; [inversion Hn; subst; exact Ec|].
        apply (IH k line Hn).
Qed.

(** The search for the section heading stops at the first line that
    matches, and looks for the end in the lines after it. *)
Lemma find_section_spec (w : string) (n_lines : nat) :
  forall rest i s e,
    find_section w n_lines i rest = Some (s, e) ->
    exists k heading,
      s = (i + k)%nat /\ nth_error rest k = Some heading /\
      section_pattern_match w (PyStr.strip heading) = true /\
      (forall k' line, (k' < k)%nat -> nth_error rest k' = Some line ->
                       section_pattern_match w (PyStr.strip line) = false) /\
      e = match find_section_end (hash_run (PyStr.strip heading)) (S s)
                  (skipn (S k) rest) with
          | Some j => j
          | None => n_lines
          end.
Proof.
  induction rest as [|l rest IH]; intros i s e H; simpl in H; [discriminate|].
  destruct (section_pattern_match w (PyStr.strip l)) eqn:Em.
  - inversion H; subst. exists 0%nat, l. rewrite Nat.add_0_r.
    repeat split; auto. intros k' line Hk. lia.
  - apply IH in H. destruct H as (k & heading & Hs & Hk & Hm & Hbefore & He).
    exists (S k), heading. rewrite Nat.add_succ_r. repeat split; auto.
    intros [|k'] line Hlt Hn; [inversion Hn; subst; exact Em|].
    apply (Hbefore k' line); [lia | exact Hn].
Qed.

(** X16. When [find_and_extract] resolves a section, it is the one the
    first matching heading line opens: the text given is not empty, the
    line at [section_start] is the first line that matches the section
    pattern, [section_end] lies after it and within the text, no line
    strictly between closes the section (starts, once stripped, with a run
    of [#] at most as long as the heading's), and [section_end] is either
    the first line that does or the number of lines. *)
Theorem resolved_section_bounds (within_section : option string)
    (lines : list string) (s e : nat) :
  section_bounds within_section lines = (Some s, Some e) ->
  exists w heading,
    within_section = Some w /\ w <> "" /\
    nth_error lines s = Some heading /\
    section_pattern_match w (PyStr.strip heading) = true /\
    (forall j line, (j < s)%nat -> nth_error lines j = Some line ->
                    section_pattern_match w (PyStr.strip line) = false) /\
    (s < e <= List.length lines)%nat /\
    (forall j line, (s < j < e)%nat -> nth_error lines j = Some line ->
       closes_section (hash_run (PyStr.strip heading)) line = false) /\
    ((e < List.length lines)%nat ->
     exists line, nth_error lines e = Some line /\
       closes_section (hash_run (PyStr.strip heading)) line = true).
Proof.
  unfold section_bounds. intros H.
  destruct within_section as [w|]; [|discriminate].
  destruct (PyStr.truthy w) eqn:Ew; [|discriminate].
  destruct (find_section w (List.length lines) 0 lines) as [[s' e']|] eqn:Ef;
    [|discriminate].
  inversion H; subst s' e'. clear H.
  apply find_section_spec in Ef.
  destruct Ef as (k & heading & Hs & Hk & Hm & Hbefore & He).
  simpl in Hs. subst k.
  assert (Hlt : (s < List.length lines)%nat)
    by (apply nth_error_Some; congruence).
  exists w, heading. split; [reflexivity|]. split.
  { intros ->. discriminate. }
  split; [exact Hk|]. split; [exact Hm|]. split; [exact Hbefore|].
  pose proof (find_section_end_spec (hash_run (PyStr.strip heading))
                (skipn (S s) lines) (S s)) as Hend.
  destruct (find_section_end (hash_run (PyStr.strip heading)) (S s)
              (skipn (S s) lines)) as [j|].
  - destruct Hend as (k & line & Hj & Hnk & Hc & Hb). subst e.
    rewrite nth_error_skipn in Hnk.
    assert (Hjl : (S s + k < List.length lines)%nat)
      by (apply nth_error_Some; congruence).
    split; [lia|]. split.
    + intros j' line' Hj' Hn.
      apply (Hb (j' - S s)%nat line'); [lia|].
      rewrite nth_error_skipn. replace (S s + (j' - S s))%nat with j' by lia.
      exact Hn.
    + intros _. exists line. rewrite Hj. auto.
  - subst e. split; [lia|]. split.
    + intros j' line' Hj' Hn.
      apply (Hend (j' - S s)%nat line').
      rewrite nth_error_skipn. replace (S s + (j' - S s))%nat with j' by lia.
      exact Hn.
    + intros Hcontra. lia.
Qed.

Lemma resolved_section_bounds_witness :
  section_bounds (Some "A") (PyStr.split_nl Sample.sectioned)
    = (Some 0%nat, Some 4%nat) /\
  (0 < 4 <= List.length (PyStr.split_nl Sample.sectioned))%nat.
Proof.
  assert (H : section_bounds (Some "A") (PyStr.split_nl Sample.sectioned)
              = (Some 0%nat, Some 4%nat)) by reflexivity.
  split; [exact H|].
  destruct (resolved_section_bounds (Some "A")
              (PyStr.split_nl Sample.sectioned) 0 4 H)
    as (w & heading & _ & _ & _ & _ & _ & Hb & _).
  exact Hb.
Defined.

Section MoreSearchProperties.

Variable Regex : Type.
Variable re_compile : string -> bool -> compiled Regex.
Variable re_search : Regex -> string -> option string.

Local Abbreviation match_line := (match_line Regex re_search).
Local Abbreviation scan_lines := (scan_lines Regex re_search).

(** The scan, line by line: a line outside the section gives nothing, a
    line inside gives its record when the pattern matches it. *)
Lemma scan_lines_flat_map (regex : Regex) (lines : list string)
    (lines_before lines_after : Z) (within_section : option string)
    (section_start section_end : option nat) :
  forall rest i matches,
    scan_lines regex lines lines_before lines_after within_section
      section_start section_end i rest matches =
    (matches ++
     flat_map (fun p =>
                 if outside_section within_section section_start section_end
                      (fst p)
                 then []
                 else
                   match match_line regex lines lines_before lines_after
                           (fst p) (snd p) with
                   | Some m => [m]
                   | None => []
                   end) (enumerate i rest))%list.
Proof.
  induction rest as [|line rest IH]; intros i matches.
  - simpl. rewrite app_nil_r. reflexivity.
  - rewrite enumerate_cons. simpl. rewrite IH.
    destruct (outside_section within_section section_start section_end i);
      [reflexivity|].
    destruct (match_line regex lines lines_before lines_after i line);
      simpl; rewrite <- ?app_assoc; reflexivity.
Qed.

(** The records of the lines from index [i] on carry increasing line
    numbers, each between [i + 1] and [i] plus the number of lines. *)
Lemma flat_map_lines_increasing (regex : Regex) (lines : list string)
    (lines_before lines_after : Z) (skip : nat -> bool) :
  forall rest i,
    let out :=
      flat_map (fun p =>
                  if skip (fst p) then []
                  else
                    match match_line regex lines lines_before lines_after
                            (fst p) (snd p) with
                    | Some m => [m]
                    | None => []
                    end) (enumerate i rest) in
    StronglySorted Z.lt (map sm_line_number out) /\
    Forall (fun m =>
              Z.of_nat i + 1 <= sm_line_number m
              <= Z.of_nat i + Z.of_nat (List.length rest)) out.
Proof.
  induction rest as [|line rest IH]; intros i.
  - simpl. split; constructor.
  - destruct (IH (S i)) as [Hs Hb]. rewrite enumerate_cons.
    cbn zeta. cbn [flat_map fst snd].
    assert (Hb' : Forall (fun m =>
                     Z.of_nat i + 1 < sm_line_number m /\
                     Z.of_nat i + 1 <= sm_line_number m
                     <= Z.of_nat i + Z.of_nat (List.length (line :: rest)))
                   (flat_map (fun p =>
                      if skip (fst p) then []
                      else
                        match match_line regex lines lines_before lines_after
                                (fst p) (snd p) with
                        | Some m => [m]
                        | None => []
                        end) (enumerate (S i) rest))).
    { cbn zeta in Hb. rewrite Forall_forall in *. intros m Hm.
      specialize (Hb m Hm). simpl List.length. lia. }
    assert (Hb2 : Forall (fun m =>
                     Z.of_nat i + 1 <= sm_line_number m
                     <= Z.of_nat i + Z.of_nat (List.length (line :: rest)))
                   (flat_map (fun p =>
                      if skip (fst p) then []
                      else
                        match match_line regex lines lines_before lines_after
                                (fst p) (snd p) with
                        | Some m => [m]
                        | None => []
                        end) (enumerate (S i) rest))).
    { rewrite Forall_forall in *. intros m Hm. apply (Hb' m Hm). }
    destruct (skip i); [split; [exact Hs | exact Hb2]|].
    destruct (match_line regex lines lines_before lines_after i line)
      as [m|] eqn:Em; [|split; [exact Hs | exact Hb2]].
    apply match_line_fields in Em. destruct Em as (_ & Hn & _).
    simpl. split.
    + constructor; [exact Hs|].
      rewrite Forall_map. rewrite Forall_forall in *.
      intros m' Hm'. specialize (Hb' m' Hm'). lia.
    + constructor; [simpl List.length; lia | exact Hb2].
Qed.

End MoreSearchProperties.

(** X17. The records of [find_and_extract] come in ascending line order:
    their line numbers are strictly increasing, so no line is reported
    twice, and each lies between 1 and the number of lines of the text. *)
Theorem matches_in_ascending_line_order (Regex : Type)
    (re_compile : string -> bool -> compiled Regex)
    (re_search : Regex -> string -> option string)
    (content pattern : string) (lines_before lines_after : Z)
    (case_sensitive : bool) (within_section : option string)
    (matches : list SearchMatch) :
  find_and_extract Regex re_compile re_search content pattern lines_before
    lines_after case_sensitive within_section = Ok matches ->
  StronglySorted Z.lt (map sm_line_number matches) /\
  Forall (fun m =>
            1 <= sm_line_number m
            <= Z.of_nat (List.length (PyStr.split_nl content))) matches.
Proof.
  unfold find_and_extract. intros H.
  destruct (re_compile pattern (negb case_sensitive)) as [regex|e];
    [|discriminate].
  inversion H as [Hm]. clear H.
  rewrite scan_lines_flat_map. cbn [app].
  exact (flat_map_lines_increasing Regex re_search regex
           (PyStr.split_nl content) lines_before lines_after
           (outside_section within_section
              (fst (section_bounds within_section (PyStr.split_nl content)))
              (snd (section_bounds within_section (PyStr.split_nl content))))
           (PyStr.split_nl content) 0%nat).
Qed.

Lemma matches_in_ascending_line_order_witness :
  Sample.find Sample.sectioned "#" 0 0 false None =
    Ok [ mkSearchMatch "#" 1 "# A" ["# A"];
         mkSearchMatch "#" 3 "## B" ["## B"];
         mkSearchMatch "#" 5 "# C" ["# C"] ] /\
  StronglySorted Z.lt [1; 3; 5].
Proof.
  assert (H : Sample.find Sample.sectioned "#" 0 0 false None =
              Ok [ mkSearchMatch "#" 1 "# A" ["# A"];
                   mkSearchMatch "#" 3 "## B" ["## B"];
                   mkSearchMatch "#" 5 "# C" ["# C"] ]) by reflexivity.
  split; [exact H|].
  exact (proj1 (matches_in_ascending_line_order LiteralEngine.Regex
                  LiteralEngine.compile LiteralEngine.search Sample.sectioned
                  "#" 0 0 false None _ H)).
Defined.

Lemma section_bounds_shape (within_section : option string)
    (lines : list string) :
  (exists s e, section_bounds within_section lines = (Some s, Some e) /\
               truthy_str within_section = true) \/
  section_bounds within_section lines = (None, None).
Proof.
  unfold section_bounds. destruct within_section as [w|]; [|right; reflexivity].
  simpl. destruct (PyStr.truthy w); [|right; reflexivity].
  destruct (find_section w (List.length lines) 0 lines) as [[s e]|];
    [left; exists s, e; auto | right; reflexivity].
Qed.

Lemma filter_flat_map {A B : Type} (f : B -> bool) (g : A -> list B)
    (l : list A) :
  filter f (flat_map g l) = flat_map (fun x => filter f (g x)) l.
Proof.
  induction l as [|x l IH]; [reflexivity|].
  simpl. rewrite filter_app, IH. reflexivity.
Qed.

Section SearchCompleteness.

Variable Regex : Type.
Variable re_compile : string -> bool -> compiled Regex.
Variable re_search : Regex -> string -> option string.

Lemma match_line_found (regex : Regex) (lines : list string)
    (lines_before lines_after : Z) (i : nat) (line g : string) :
  re_search regex line = Some g ->
  exists m,
    match_line Regex re_search regex lines lines_before lines_after i line
      = Some m /\
    sm_match m = g /\ sm_line_number m = Z.of_nat i + 1.
Proof.
  intros Hg. unfold match_line. rewrite Hg.
  eexists. split; [reflexivity|]. split; reflexivity.
Qed.

(** For bounds in range the window holds the matched line at the position
    [min i lines_before], and between one and
    [lines_before + lines_after + 1] lines. *)
Lemma match_line_window (regex : Regex) (lines : list string)
    (lines_before lines_after : Z) (i : nat) (line : string)
    (m : SearchMatch) :
  0 <= lines_before -> 0 <= lines_after ->
  nth_error lines i = Some line ->
  match_line Regex re_search regex lines lines_before lines_after i line
    = Some m ->
  nth_error (sm_context_lines m)
    (Z.to_nat (Z.min (Z.of_nat i) lines_before)) = Some line /\
  1 <= Z.of_nat (List.length (sm_context_lines m))
    <= lines_before + lines_after + 1.
Proof.
  intros Hb Ha Hnth Hm.
  assert (Hlt : (i < List.length lines)%nat)
    by (apply nth_error_Some; congruence).
  apply match_line_fields in Hm. destruct Hm as (_ & _ & Hc).
  rewrite Hc, py_slice_in_range by lia. split.
  - rewrite nth_error_firstn.
    replace (_ <? _)%nat with true by (symmetry; apply Nat.ltb_lt; lia).
    rewrite nth_error_skipn.
    replace (_ + _)%nat with i by lia. exact Hnth.
  - rewrite length_firstn, length_skipn. lia.
Qed.

End SearchCompleteness.

(** X18. No matching line is lost: when the pattern compiles, every line
    that the compiled pattern matches and that the scan does not skip (any
    line when no section is resolved, the lines from the section start up
    to the section end otherwise) has a record, with its line number and
    the text the search found. *)
Theorem every_matching_line_is_reported (Regex : Type)
    (re_compile : string -> bool -> compiled Regex)
    (re_search : Regex -> string -> option string)
    (content pattern : string) (lines_before lines_after : Z)
    (case_sensitive : bool) (within_section : option string)
    (regex : Regex) (i : nat) (line g : string) :
  re_compile pattern (negb case_sensitive) = Compiled regex ->
  nth_error (PyStr.split_nl content) i = Some line ->
  match section_bounds within_section (PyStr.split_nl content) with
  | (Some s, Some e) => (s <= i < e)%nat
  | _ => True
  end ->
  re_search regex line = Some g ->
  exists matches m,
    find_and_extract Regex re_compile re_search content pattern lines_before
      lines_after case_sensitive within_section = Ok matches /\
    In m matches /\
    sm_line_number m = Z.of_nat i + 1 /\
    sm_match m = g.
Proof.
  intros Hc Hnth Hin Hg. unfold find_and_extract. rewrite Hc.
  destruct (match_line_found Regex re_search regex (PyStr.split_nl content)
              lines_before lines_after i line g Hg) as (m & Hm & Hmg & Hmn).
  eexists. exists m. split; [reflexivity|]. split; [|split; assumption].
  rewrite scan_lines_flat_map. cbn [app].
  apply in_flat_map. exists (i, line). split.
  - exact (enumerate_In (PyStr.split_nl content) 0 i line Hnth).
  - cbn [fst snd]. rewrite Hm.
    replace (outside_section _ _ _ i) with false; [left; reflexivity|].
    symmetry.
    destruct (section_bounds_shape within_section (PyStr.split_nl content))
      as [(s & e & Hb & Ht)|Hb]; rewrite Hb in *; cbn [fst snd].
    + unfold outside_section. rewrite Ht. cbn [andb].
      apply orb_false_iff. split; [apply Nat.ltb_ge | apply Nat.leb_gt]; lia.
    + apply outside_section_unresolved.
Qed.

Lemma every_matching_line_is_reported_witness :
  LiteralEngine.compile "Term" (negb false) = Compiled (true, "Term") /\
  nth_error (PyStr.split_nl Sample.sectioned) 3 = Some "y Term z" /\
  (0 <= 3 < 4)%nat /\
  LiteralEngine.search (true, "Term") "y Term z" = Some "Term" /\
  exists matches m,
    Sample.find Sample.sectioned "Term" 0 0 false (Some "A") = Ok matches /\
    In m matches /\ sm_line_number m = Z.of_nat 3 + 1 /\ sm_match m = "Term".
Proof.
  assert (H1 : LiteralEngine.compile "Term" (negb false)
               = Compiled (true, "Term")) by reflexivity.
  assert (H2 : nth_error (PyStr.split_nl Sample.sectioned) 3
               = Some "y Term z") by reflexivity.
  assert (H3 : (0 <= 3 < 4)%nat) by lia.
  assert (H4 : LiteralEngine.search (true, "Term") "y Term z" = Some "Term")
    by reflexivity.
  split; [exact H1|]. split; [exact H2|]. split; [exact H3|].
  split; [exact H4|].
  exact (every_matching_line_is_reported LiteralEngine.Regex
           LiteralEngine.compile LiteralEngine.search Sample.sectioned
           "Term" 0 0 false (Some "A") (true, "Term") 3 "y Term z" "Term"
           H1 H2 H3 H4).
Defined.

(** X19. When a section is resolved, every record lies in it: its line
    number, counted from 1, is greater than [section_start] and at most
    [section_end]; the heading line of the section itself is searched. *)
Theorem matches_lie_in_section (Regex : Type)
    (re_compile : string -> bool -> compiled Regex)
    (re_search : Regex -> string -> option string)
    (content pattern : string) (lines_before lines_after : Z)
    (case_sensitive : bool) (within_section : option string)
    (matches : list SearchMatch) (m : SearchMatch) (s e : nat) :
  find_and_extract Regex re_compile re_search content pattern lines_before
    lines_after case_sensitive within_section = Ok matches ->
  section_bounds within_section (PyStr.split_nl content) = (Some s, Some e) ->
  In m matches ->
  Z.of_nat s + 1 <= sm_line_number m <= Z.of_nat e.
Proof.
  unfold find_and_extract. intros H Hb Hin.
  destruct (re_compile pattern (negb case_sensitive)) as [regex|err];
    [|discriminate].
  inversion H as [Hm]. clear H. rewrite <- Hm in Hin. rewrite Hb in Hin.
  cbn [fst snd] in Hin. apply scan_lines_origin in Hin.
  destruct Hin as [[]|(k & line & _ & Ho & Hml)].
  simpl in Ho, Hml. apply match_line_fields in Hml.
  destruct Hml as (_ & Hn & _).
  destruct (section_bounds_shape within_section (PyStr.split_nl content))
    as [(s' & e' & Hb' & Ht)|Hb']; [|congruence].
  unfold outside_section in Ho. rewrite Ht in Ho. cbn [andb] in Ho.
  apply orb_false_iff in Ho. destruct Ho as [Ho1 Ho2].
  apply Nat.ltb_ge in Ho1. apply Nat.leb_gt in Ho2. lia.
Qed.

Lemma matches_lie_in_section_witness :
  Sample.find Sample.sectioned "#" 0 0 false (Some "A") =
    Ok [ mkSearchMatch "#" 1 "# A" ["# A"];
         mkSearchMatch "#" 3 "## B" ["## B"] ] /\
  section_bounds (Some "A") (PyStr.split_nl Sample.sectioned)
    = (Some 0%nat, Some 4%nat) /\
  Z.of_nat 0 + 1 <= 3 <= Z.of_nat 4.
Proof.
  assert (H : Sample.find Sample.sectioned "#" 0 0 false (Some "A") =
              Ok [ mkSearchMatch "#" 1 "# A" ["# A"];
                   mkSearchMatch "#" 3 "## B" ["## B"] ]) by reflexivity.
  assert (Hb : section_bounds (Some "A") (PyStr.split_nl Sample.sectioned)
               = (Some 0%nat, Some 4%nat)) by reflexivity.
  split; [exact H|]. split; [exact Hb|].
  exact (matches_lie_in_section LiteralEngine.Regex LiteralEngine.compile
           LiteralEngine.search Sample.sectioned "#" 0 0 false (Some "A") _
           (mkSearchMatch "#" 3 "## B" ["## B"]) 0 4 H Hb
           (or_intror (or_introl eq_refl))).
Defined.

(** X20. Scoping only selects: when the pattern compiles, the result of
    [find_and_extract] is the result of the search over the whole document
    when no section is resolved ([within_section] absent, empty or not
    found), and otherwise that result restricted to the records whose
    line lies in the section; the records themselves, context windows
    included, are the same. *)
Theorem section_scoping_selects_records (Regex : Type)
    (re_compile : string -> bool -> compiled Regex)
    (re_search : Regex -> string -> option string)
    (content pattern : string) (lines_before lines_after : Z)
    (case_sensitive : bool) (within_section : option string)
    (regex : Regex) :
  re_compile pattern (negb case_sensitive) = Compiled regex ->
  let lines := PyStr.split_nl content in
  let whole :=
    whole_document_matches re_search regex lines lines_before lines_after in
  find_and_extract Regex re_compile re_search content pattern lines_before
    lines_after case_sensitive within_section =
  Ok (match section_bounds within_section lines with
      | (Some s, Some e) => filter (in_section s e) whole
      | _ => whole
      end).
Proof.
  intros Hc lines whole. unfold find_and_extract. rewrite Hc. f_equal.
  rewrite scan_lines_flat_map. cbn [app]. fold lines.
  unfold whole, whole_document_matches.
  destruct (section_bounds_shape within_section lines)
    as [(s & e & Hb & Ht)|Hb]; rewrite Hb; cbn [fst snd].
  - rewrite filter_flat_map. apply flat_map_ext. intros [i line].
    cbn [fst snd]. unfold outside_section. rewrite Ht. cbn [andb].
    destruct (match_line Regex re_search regex lines lines_before lines_after
                i line) as [m|] eqn:Em.
    + apply match_line_fields in Em. destruct Em as (_ & Hn & _).
      cbn [filter]. unfold in_section. rewrite Hn.
      destruct (Nat.ltb_spec i s) as [E1|E1];
        destruct (Nat.leb_spec e i) as [E2|E2]; cbn [orb].
      * replace (Z.of_nat s + 1 <=? Z.of_nat i + 1) with false
          by (symmetry; apply Z.leb_gt; lia). reflexivity.
      * replace (Z.of_nat s + 1 <=? Z.of_nat i + 1) with false
          by (symmetry; apply Z.leb_gt; lia). reflexivity.
      * replace (Z.of_nat i + 1 <=? Z.of_nat e) with false
          by (symmetry; apply Z.leb_gt; lia).
        rewrite andb_false_r. reflexivity.
      * replace (Z.of_nat s + 1 <=? Z.of_nat i + 1) with true
          by (symmetry; apply Z.leb_le; lia).
        replace (Z.of_nat i + 1 <=? Z.of_nat e) with true
          by (symmetry; apply Z.leb_le; lia).
        reflexivity.
    + destruct (_ || _); reflexivity.
  - apply flat_map_ext. intros [i line]. cbn [fst snd].
    rewrite outside_section_unresolved. reflexivity.
Qed.

Lemma section_scoping_selects_records_witness :
  LiteralEngine.compile "#" (negb false) = Compiled (true, "#") /\
  Sample.find Sample.sectioned "#" 0 0 false (Some "A") =
  Ok (filter (in_section 0 4)
        (whole_document_matches LiteralEngine.search (true, "#")
           (PyStr.split_nl Sample.sectioned) 0 0)).
Proof.
  assert (H : LiteralEngine.compile "#" (negb false) = Compiled (true, "#"))
    by reflexivity.
  split; [exact H|].
  exact (section_scoping_selects_records LiteralEngine.Regex
           LiteralEngine.compile LiteralEngine.search Sample.sectioned "#"
           0 0 false (Some "A") (true, "#") H).
Defined.

(** X21. With [lines_before >= 0] and [lines_after >= 0], the context of a
    record holds the matched line, at position [min(i, lines_before)] for
    the line of 0-based index [i], and has between one and
    [lines_before + lines_after + 1] lines. *)
Theorem context_window_holds_matched_line (Regex : Type)
    (re_compile : string -> bool -> compiled Regex)
    (re_search : Regex -> string -> option string)
    (content pattern : string) (lines_before lines_after : Z)
    (case_sensitive : bool) (within_section : option string)
    (matches : list SearchMatch) (m : SearchMatch) :
  0 <= lines_before -> 0 <= lines_after ->
  find_and_extract Regex re_compile re_search content pattern lines_before
    lines_after case_sensitive within_section = Ok matches ->
  In m matches ->
  exists line,
    nth_error (PyStr.split_nl content) (Z.to_nat (sm_line_number m - 1))
      = Some line /\
    nth_error (sm_context_lines m)
      (Z.to_nat (Z.min (sm_line_number m - 1) lines_before)) = Some line /\
    1 <= Z.of_nat (List.length (sm_context_lines m))
      <= lines_before + lines_after + 1.
Proof.
  intros Hb Ha H Hin. unfold find_and_extract in H.
  destruct (re_compile pattern (negb case_sensitive)) as [regex|err];
    [|discriminate].
  inversion H as [Hm]. clear H. rewrite <- Hm in Hin.
  apply scan_lines_origin in Hin.
  destruct Hin as [[]|(k & line & Hk & _ & Hml)]. simpl in Hml.
  pose proof (match_line_fields Regex re_search _ _ _ _ _ _ _ Hml)
    as (_ & Hn & _).
  destruct (match_line_window Regex re_search regex (PyStr.split_nl content)
              lines_before lines_after k line m Hb Ha Hk Hml) as [Hw Hl].
  exists line. rewrite Hn.
  replace (Z.of_nat k + 1 - 1) with (Z.of_nat k) by lia.
  rewrite Nat2Z.id. auto.
Qed.

Lemma context_window_holds_matched_line_witness :
  0 <= 1 /\ 0 <= 1 /\
  Sample.find Sample.sectioned "Term" 1 1 false None =
    Ok [mkSearchMatch "Term" 4
          ("## B" ++ PyStr.nl ++ "y Term z" ++ PyStr.nl ++ "# C")
          ["## B"; "y Term z"; "# C"]] /\
  exists line,
    nth_error (PyStr.split_nl Sample.sectioned) (Z.to_nat (4 - 1))
      = Some line /\
    nth_error ["## B"; "y Term z"; "# C"] (Z.to_nat (Z.min (4 - 1) 1))
      = Some line /\
    1 <= Z.of_nat (List.length ["## B"; "y Term z"; "# C"]) <= 1 + 1 + 1.
Proof.
  assert (Hb : 0 <= 1) by lia.
  assert (H : Sample.find Sample.sectioned "Term" 1 1 false None =
              Ok [mkSearchMatch "Term" 4
                    ("## B" ++ PyStr.nl ++ "y Term z" ++ PyStr.nl ++ "# C")
                    ["## B"; "y Term z"; "# C"]]) by reflexivity.
  split; [exact Hb|]. split; [exact Hb|]. split; [exact H|].
  exact (context_window_holds_matched_line LiteralEngine.Regex
           LiteralEngine.compile LiteralEngine.search Sample.sectioned
           "Term" 1 1 false None _ _ Hb Hb H (or_introl eq_refl)).
Defined.

(* ================================================================== *)
(** * Properties of the text and markdown output *)
(* ================================================================== *)

(** A loop whose body returns for every item returns the lines of all
    items, in order. *)
Lemma for_each_item_returns (body : Item -> outcome (list string))
    (f : Item -> list string) :
  forall results lines,
    (forall item, In item results -> body item = Returned (f item)) ->
    for_each_item body results lines
    = Returned (lines ++ flat_map f results)%list.
Proof.
  induction results as [|item results IH]; intros lines Hbody; simpl.
  - rewrite app_nil_r. reflexivity.
  - rewrite (Hbody item) by (left; reflexivity). simpl.
    rewrite IH by (intros i Hi; apply Hbody; right; exact Hi).
    rewrite <- app_assoc. reflexivity.
Qed.

(** A loop whose body raises for some item raises. *)
Lemma for_each_item_raises (body : Item -> outcome (list string)) :
  forall results lines item,
    In item results ->
    (exists key, body item = KeyError key) ->
    exists key, for_each_item body results lines = KeyError key.
Proof.
  induction results as [|head results IH]; intros lines item Hin Hkey;
    [contradiction|].
  simpl. destruct (body head) as [new_lines|key] eqn:Eh.
  - simpl. destruct Hin as [->|Hin].
    + destruct Hkey as [k Hk]. congruence.
    + apply (IH _ item Hin Hkey).
  - exists key. reflexivity.
Qed.

Lemma flat_map_singleton {A B : Type} (f : A -> B) (l : list A) :
  flat_map (fun x => [f x]) l = map f l.
Proof. induction l as [|x l IH]; simpl; [|rewrite IH]; reflexivity. Qed.

Lemma markdown_of_headings (records : list HeadingRecord) :
  format_markdown_output (map HeadingItem records) "extract_headings" =
  Returned (PyStr.join PyStr.nl (map hr_raw records)).
Proof.
  unfold format_markdown_output. cbn [String.eqb Ascii.eqb Bool.eqb].
  rewrite (for_each_item_returns markdown_heading_line
             (fun item => match item with
                          | HeadingItem r => [hr_raw r]
                          | _ => []
                          end)).
  2:{ intros item Hin. apply in_map_iff in Hin.
      destruct Hin as (r & <- & _). reflexivity. }
  cbn [and_then app].
  rewrite flat_map_concat_map, map_map, <- flat_map_concat_map.
  rewrite flat_map_singleton. reflexivity.
Qed.

Lemma text_of_headings (records : list HeadingRecord) :
  format_text_output (map HeadingItem records) "extract_headings" =
  Returned (PyStr.join PyStr.nl (map indented_heading records)).
Proof.
  unfold format_text_output. cbn [String.eqb Ascii.eqb Bool.eqb].
  rewrite (for_each_item_returns text_heading_line
             (fun item => match item with
                          | HeadingItem r => [indented_heading r]
                          | _ => []
                          end)).
  2:{ intros item Hin. apply in_map_iff in Hin.
      destruct Hin as (r & <- & _). reflexivity. }
  cbn [and_then app].
  rewrite flat_map_concat_map, map_map, <- flat_map_concat_map.
  rewrite flat_map_singleton. reflexivity.
Qed.

(** X22. On the list [extract_headings] returned, the formatters do not
    raise: the markdown output is the [raw] fields joined by line feeds,
    and the text output is the heading texts, each indented by two spaces
    per level below the first, joined by line feeds. *)
Theorem heading_output_lines (records : list HeadingRecord) :
  format_markdown_output (map HeadingItem records) "extract_headings" =
    Returned (PyStr.join PyStr.nl (map hr_raw records)) /\
  format_text_output (map HeadingItem records) "extract_headings" =
    Returned (PyStr.join PyStr.nl (map indented_heading records)).
Proof.
  split; [apply markdown_of_headings | apply text_of_headings].
Qed.

(** X23. A list that holds an item of another extractor than the one the
    operation tag names makes the text and the markdown formatter raise
    [KeyError]; no output is returned. *)
Theorem mismatched_item_raises_key_error (results : list Item)
    (operation : string) (item : Item) :
  In item results ->
  fits_operation operation item = false ->
  (exists key, format_text_output results operation = KeyError key) /\
  (exists key, format_markdown_output results operation = KeyError key).
Proof.
  intros Hin Hfit. unfold fits_operation in Hfit.
  unfold format_text_output, format_markdown_output.
  destruct (String.eqb operation "extract_headings").
  { split.
    - destruct (for_each_item_raises text_heading_line results [] item Hin)
        as [key Hk]; [|rewrite Hk; exists key; reflexivity].
      destruct item; try discriminate; eexists; reflexivity.
    - destruct (for_each_item_raises markdown_heading_line results [] item Hin)
        as [key Hk]; [|rewrite Hk; exists key; reflexivity].
      destruct item; try discriminate; eexists; reflexivity. }
  destruct (String.eqb operation "extract_emphasized").
  { split.
    - destruct (for_each_item_raises text_emphasis_line results [] item Hin)
        as [key Hk]; [|rewrite Hk; exists key; reflexivity].
      destruct item; try discriminate; eexists; reflexivity.
    - destruct (for_each_item_raises markdown_emphasis_line results [] item
                  Hin) as [key Hk]; [|rewrite Hk; exists key; reflexivity].
      destruct item; try discriminate; eexists; reflexivity. }
  destruct (String.eqb operation "find_and_extract"); [|discriminate].
  split.
  - destruct (for_each_item_raises text_match_lines results [] item Hin)
      as [key Hk]; [|rewrite Hk; exists key; reflexivity].
    destruct item; try discriminate; eexists; reflexivity.
  - destruct (for_each_item_raises markdown_match_lines results [] item Hin)
      as [key Hk]; [|rewrite Hk; exists key; reflexivity].
    destruct item; try discriminate; eexists; reflexivity.
Qed.

Lemma mismatched_item_raises_key_error_witness :
  In (EmphasisItem (mkEmphasisRecord "bold" "x" None))
    [HeadingItem (mkHeadingRecord 1 "A" "# A" None);
     EmphasisItem (mkEmphasisRecord "bold" "x" None)] /\
  fits_operation "extract_headings"
    (EmphasisItem (mkEmphasisRecord "bold" "x" None)) = false /\
  exists key,
    format_text_output
      [HeadingItem (mkHeadingRecord 1 "A" "# A" None);
       EmphasisItem (mkEmphasisRecord "bold" "x" None)] "extract_headings"
    = KeyError key.
Proof.
  assert (Hin : In (EmphasisItem (mkEmphasisRecord "bold" "x" None))
                  [HeadingItem (mkHeadingRecord 1 "A" "# A" None);
                   EmphasisItem (mkEmphasisRecord "bold" "x" None)])
    by (right; left; reflexivity).
  assert (Hf : fits_operation "extract_headings"
                 (EmphasisItem (mkEmphasisRecord "bold" "x" None)) = false)
    by reflexivity.
  split; [exact Hin|]. split; [exact Hf|].
  exact (proj1 (mismatched_item_raises_key_error _ "extract_headings" _
                  Hin Hf)).
Defined.

(** X24. When every item is one the operation tag names (or the tag is none
    of the three), the text and the markdown formatter return and do not
    raise. *)
Theorem fitting_items_are_formatted (results : list Item)
    (operation : string) :
  Forall (fun item => fits_operation operation item = true) results ->
  (exists out, format_text_output results operation = Returned out) /\
  (exists out, format_markdown_output results operation = Returned out).
Proof.
  intros Hfit. unfold fits_operation in Hfit.
  unfold format_text_output, format_markdown_output.
  assert (Hloop : forall body,
            (forall item, In item results ->
                          exists ls, body item = Returned ls) ->
            forall lines, exists out,
              for_each_item body results lines = Returned out).
  { intros body. clear Hfit.
    induction results as [|item results IH]; intros Hb lines; simpl.
    - eexists. reflexivity.
    - destruct (Hb item (or_introl eq_refl)) as [ls Hls]. rewrite Hls. simpl.
      apply IH. intros i Hi. apply Hb. right. exact Hi. }
  rewrite Forall_forall in Hfit.
  destruct (String.eqb operation "extract_headings").
  { split.
    - destruct (Hloop text_heading_line) with (lines := @nil string)
        as [out Ho]; [|rewrite Ho; eexists; reflexivity].
      intros item Hi. specialize (Hfit item Hi).
      destruct item; try discriminate. eexists; reflexivity.
    - destruct (Hloop markdown_heading_line) with (lines := @nil string)
        as [out Ho]; [|rewrite Ho; eexists; reflexivity].
      intros item Hi. specialize (Hfit item Hi).
      destruct item; try discriminate. eexists; reflexivity. }
  destruct (String.eqb operation "extract_emphasized").
  { split.
    - destruct (Hloop text_emphasis_line) with (lines := @nil string)
        as [out Ho]; [|rewrite Ho; eexists; reflexivity].
      intros item Hi. specialize (Hfit item Hi).
      destruct item; try discriminate. eexists; reflexivity.
    - destruct (Hloop markdown_emphasis_line) with (lines := @nil string)
        as [out Ho]; [|rewrite Ho; eexists; reflexivity].
      intros item Hi. specialize (Hfit item Hi).
      destruct item; try discriminate. eexists; reflexivity. }
  destruct (String.eqb operation "find_and_extract").
  { split.
    - destruct (Hloop text_match_lines) with (lines := @nil string)
        as [out Ho]; [|rewrite Ho; eexists; reflexivity].
      intros item Hi. specialize (Hfit item Hi).
      destruct item as [| |r]; try discriminate.
      unfold text_match_lines. cbn.
      destruct (PyStr.truthy (sm_context r)); eexists; reflexivity.
    - destruct (Hloop markdown_match_lines) with (lines := @nil string)
        as [out Ho]; [|rewrite Ho; eexists; reflexivity].
      intros item Hi. specialize (Hfit item Hi).
      destruct item as [| |r]; try discriminate.
      unfold markdown_match_lines. cbn.
      destruct (PyStr.truthy (sm_context r)); eexists; reflexivity. }
  split; eexists; reflexivity.
Qed.

Lemma fitting_items_are_formatted_witness :
  Forall (fun item => fits_operation "find_and_extract" item = true)
    [SearchItem (mkSearchMatch "Term" 4 "y Term z" ["y Term z"])] /\
  exists out,
    format_text_output
      [SearchItem (mkSearchMatch "Term" 4 "y Term z" ["y Term z"])]
      "find_and_extract" = Returned out.
Proof.
  assert (H : Forall (fun item => fits_operation "find_and_extract" item = true)
                [SearchItem (mkSearchMatch "Term" 4 "y Term z" ["y Term z"])])
    by (repeat constructor).
  split; [exact H|].
  exact (proj1 (fitting_items_are_formatted _ "find_and_extract" H)).
Defined.

(** X25. From the document to the page: without content options, for every
    output format other than [json] and [text], [format_output] of the
    headings that [extract_headings] returns is the bare heading lines of
    the top-level headings of level [<= max_level], in document order,
    joined by line feeds. *)
Theorem markdown_output_rebuilds_heading_lines (py_str : Token -> string)
    (json_dumps : Json -> Z -> bool -> string) (document : Document)
    (max_level : Z) (file_path : string) (parameters : Json)
    (output_format : string) :
  output_format <> "json" -> output_format <> "text" ->
  exists records,
    extract_headings py_str document max_level None None None = Ok records /\
    format_output json_dumps (map HeadingItem records) "extract_headings"
      file_path parameters output_format =
    Returned
      (PyStr.join PyStr.nl
         (map (fun h => bare_heading_line (fst h) (snd h))
            (filter (fun h => fst h <=? max_level)
               (top_level_headings py_str (doc_children document))))).
Proof.
  intros Hj Ht.
  destruct (extract_headings_returns py_str document max_level None None None
              (or_introl eq_refl)) as [records Hex].
  destruct (extract_headings_spec py_str document max_level None None None
              records Hex) as [Hmap _].
  exists records. split; [exact Hex|].
  unfold format_output.
  apply String.eqb_neq in Hj. apply String.eqb_neq in Ht. rewrite Hj, Ht.
  rewrite markdown_of_headings, <- Hmap, map_map. do 2 f_equal.
  assert (HF : Forall (fun r => hr_raw r =
                         bare_heading_line (hr_level r) (hr_text r)) records).
  { apply (extract_headings_Forall py_str _ document max_level None None None);
      [|exact Hex].
    intros i token r He. apply heading_entry_inv in He.
    destruct He as (lvl & c1 & cs & _ & _ & Hl & _ & [[_ Hraw]|Hsome]).
    - rewrite Hl. exact Hraw.
    - destruct Hsome as (c & _ & _ & Hicl & _). discriminate. }
  apply map_ext_in. intros r Hr. rewrite Forall_forall in HF.
  exact (HF r Hr).
Qed.

Lemma markdown_output_rebuilds_heading_lines_witness :
  "markdown" <> "json" /\ "markdown" <> "text" /\
  exists records,
    extract_headings Sample.py_str Sample.titled 2 None None None
      = Ok records /\
    format_output (fun _ _ _ => "") (map HeadingItem records)
      "extract_headings" "doc.md" JNull "markdown" =
    Returned
      (PyStr.join PyStr.nl
         (map (fun h => bare_heading_line (fst h) (snd h))
            (filter (fun h => fst h <=? 2)
               (top_level_headings Sample.py_str
                  (doc_children Sample.titled))))).
Proof.
  assert (H1 : "markdown" <> "json") by discriminate.
  assert (H2 : "markdown" <> "text") by discriminate.
  split; [exact H1|]. split; [exact H2|].
  exact (markdown_output_rebuilds_heading_lines Sample.py_str
           (fun _ _ _ => "") Sample.titled 2 "doc.md" JNull "markdown"
           H1 H2).
Defined.

(* ================================================================== *)
(** * Properties of the heading request of the command line *)
(* ================================================================== *)

(** X26. The heading request, for a level from 1 to 6 (the levels that
    the argument parser lets through). The validation of the level
    passes. Whenever the request returns, every record has a level up to
    the level asked for, and content is attached only to headings of
    exactly the level asked for, and only when a content option is given.
    The request returns when no content option is given, or when the text
    of every top-level token that could give content can be extracted.
    When it raises, a content option was given, the error is [TypeError],
    not [ValueError], and the text of one of the top-level tokens cannot
    be extracted. *)
Theorem heading_request_validates_then_extracts (py_str : Token -> string)
    (document : Document) (headings : Z) (lines chars : option Z) :
  1 <= headings <= 6 ->
  validate_heading_level headings = Ok tt /\
  (forall records,
     main_headings py_str document headings lines chars = Ok records ->
     Forall (fun r =>
               hr_level r <= headings /\
               (forall c, hr_content r = Some c ->
                  hr_level r = headings /\
                  (lines <> None \/ chars <> None))) records) /\
  ((lines = None /\ chars = None) \/
   Forall (fun t => content_readable t = true) (doc_children document) ->
   exists records,
     main_headings py_str document headings lines chars = Ok records) /\
  (forall e,
     main_headings py_str document headings lines chars = Raise e ->
     e = TypeError /\ (lines <> None \/ chars <> None) /\
     exists t, In t (doc_children document) /\ content_readable t = false).
Proof.
  intros Hin.
  assert (Hv : validate_heading_level headings = Ok tt).
  { unfold validate_heading_level.
    replace ((1 <=? headings) && (headings <=? 6)) with true
      by (symmetry; apply andb_true_iff; split; apply Z.leb_le; lia).
    reflexivity. }
  split; [exact Hv|].
  unfold main_headings. rewrite Hv. cbn [bind].
  destruct (is_given lines || is_given chars) eqn:Eg.
  - assert (Hgiven : lines <> None \/ chars <> None).
    { apply orb_true_iff in Eg.
      destruct Eg as [Eg|Eg]; [left | right]; intros ->; discriminate. }
    split; [|split].
    + intros records Hex.
      apply (extract_headings_Forall py_str _ document headings
               (Some headings) lines chars); [|exact Hex].
      intros i token r He. apply heading_entry_inv in He.
      destruct He as (lvl & c1 & cs & _ & Hle & Hl & _ & Hc).
      split; [lia|]. intros c Hsome. split; [|exact Hgiven].
      destruct Hc as [[Hn _]|(c' & _ & _ & Hicl & _)]; congruence.
    + intros Hcond.
      apply (extract_headings_returns py_str document headings
               (Some headings) lines chars).
      right. exact Hcond.
    + intros e He.
      exact (extract_headings_raise py_str document headings (Some headings)
               lines chars e He).
  - split; [|split].
    + intros records Hex.
      apply (extract_headings_Forall py_str _ document headings None None
               None); [|exact Hex].
      intros i token r He. apply heading_entry_inv in He.
      destruct He as (lvl & c1 & cs & _ & Hle & Hl & _ & Hc).
      split; [lia|]. intros c Hsome.
      destruct Hc as [[Hn _]|(c' & _ & _ & Hicl & _)]; congruence.
    + intros _.
      apply (extract_headings_returns py_str document headings None None
               None).
      left. reflexivity.
    + intros e He.
      destruct (extract_headings_raise py_str document headings None None
                  None e He) as (_ & [H|H] & _); contradiction.
Qed.

(** [# Title], [## Sub] and a paragraph, asked for with [--headings 1
    --include-content-lines 5]; and [# A] followed by a quote that holds a
    thematic break, with the same request. *)
Lemma heading_request_validates_then_extracts_witness :
  1 <= 1 <= 6 /\
  main_headings Sample.py_str Sample.titled 1 (Some 5) None =
    Ok [mkHeadingRecord 1 "Title" ("# Title" ++ PyStr.nl ++ "Sub" ++ PyStr.nl ++ "Bold word here.")
          (Some ("Sub" ++ PyStr.nl ++ "Bold word here."))] /\
  Forall (fun r =>
            hr_level r <= 1 /\
            (forall c, hr_content r = Some c ->
               hr_level r = 1 /\ (Some 5 <> None \/ @None Z <> None)))
    [mkHeadingRecord 1 "Title" ("# Title" ++ PyStr.nl ++ "Sub" ++ PyStr.nl ++ "Bold word here.")
       (Some ("Sub" ++ PyStr.nl ++ "Bold word here."))] /\
  main_headings Sample.py_str Sample.quoted_rule 1 (Some 5) None =
    Raise TypeError.
Proof.
  assert (H : 1 <= 1 <= 6) by lia.
  assert (Hex : main_headings Sample.py_str Sample.titled 1 (Some 5) None =
                Ok [mkHeadingRecord 1 "Title"
                      ("# Title" ++ PyStr.nl ++ "Sub" ++ PyStr.nl ++ "Bold word here.")
                      (Some ("Sub" ++ PyStr.nl ++ "Bold word here."))]) by reflexivity.
  split; [exact H|]. split; [exact Hex|]. split; [|reflexivity].
  exact (proj1 (proj2 (heading_request_validates_then_extracts Sample.py_str
                         Sample.titled 1 (Some 5) None H)) _ Hex).
Defined.
